(* ===== verification/_CoqProject ===== *)
-Q . S2P
Prelude.v
Errors.v
PathModel.v
FileSystem.v
DateFormat.v
PathResolver.v
Meta.v
TagsRegex.v
NoteWriter.v
NoteSpec.v
Cli.v
Effects.v
Lifecycle.v
ArgParse.v
Docs.v
