(* ===== verification/Prelude.v ===== *)
(** * A verification development of [today-i-learned] (the [til] note taker)

    ** The program
    [til] appends one-line notes to a text file per calendar day,
    [~/.til/notes/MM-DD-YYYY/default.md], and keeps a front-matter header
    ([title], [tags]) at the top of that file.  Two source files:
    - [src/src/entry.rs]: [Entry::write] (the note writer), which calls
      [Entry::build_path] (the path resolver), [Entry::generate_meta]
      (the header of a fresh file) and [Entry::update_meta] (the
      in-place tag merge, driven by a regex);
    - [src/src/main.rs]: [find_root_dir], the command line ([Cli],
      [Command], [SearchParams]) and a second, older [Entry] with its own
      [write] and [build_path], which is what [main] runs: [main.rs]
      never declares [mod entry], so [entry.rs] is not part of the
      binary.
    The writer reads the environment (home directory, local date) and
    acts on the file system; every failure is an [Error] returned at
    once, and what was written before it stays written.

    ** Files and what they model (in dependency order)
    - [Prelude] (this file): the [str] operations the code calls
      ([Str.strip_prefix], [Str.split_once]/[Str.split_first] for
      [split(..).next()], [Str.split_char], [Str.trim], [Str.join],
      [Str.replace]), Rust's [Result] as [result], and the
      state-and-error monad [st] ([x <- m ;; k], [st_map_err] for
      [map_err], [st_lift] for [?] on a value) in which the stateful
      code is written; the shared lemmas on strings; the hint databases.
    - [Errors]: [Error] and [Result]; [error.rs] is not in the sources,
      so the variants are those [entry.rs] and [main.rs] construct.
    - [PathModel]: [Path::join], [PathBuf::set_extension],
      [Path::parent] on Unix paths, as strings.
    - [FileSystem]: the state [FS] (files as a [gmap], directories as a
      [gset], and the set of operations the system refuses) and, in
      [Module Fs], one state transformer per [std::fs] call the code
      makes.
    - [DateFormat]: [{:02}-{:02}-{}] of [entry.rs] and [{}-{}-{}] of
      [main.rs], with parsers.
    - [PathResolver]: [find_root_dir], [Entry::build_path] (with the
      [create_dir_all] of the day directory) and the [build_path] of
      [main.rs]; [Env] is what the code reads from the process.
    - [Meta]: [generate_meta], the regex [(?m)^tags:\s*\[(.*?)\]$] as
      an executable scan ([tags_captures]), and [merge_meta], the pure
      part of [update_meta] from the contents read to those written.
    - [TagsRegex]: the meaning of that regex without scanning (the
      leftmost match, the shortest group).
    - [NoteWriter]: [update_meta] and [write] in the monad, as the code
      composes them; [run] is a day of writes; [ready] and [file_step]
      describe the day file as a state machine.
    - [NoteSpec]: the note file as the spec documents it ([doc_file]),
      the abstract [Note] and the spec's [spec_append]/[spec_run].
    - [Cli]: [main.rs]'s [Entry::write] and [main] after parsing.
    - [Effects]: the class [Writer] (a write and the file it targets)
      with its laws [WriterFrame] (no other file changes) and
      [WriterWf] (the file system stays well formed), instantiated by
      both [Entry] types and used by [Lifecycle] and by the theorem on
      [main].  [st_preserves] (here), [frame] and [Fs.keeps_wf]
      ([FileSystem]) state what a computation may change; the hints of
      the [til] database compose them along [st_bind].
    - [Lifecycle]: one [write] as a transition [write_step] of the file
      system, and the states reachable by [rtc write_step].
    - [ArgParse]: [Cli::parse()] as the derive declarations of [main.rs]
      ([Cli], [Command], [Entry], [SearchParams]) and the derived [Entry]
      of [entry.rs] drive it: the subset of [clap] they use (long and
      short options, [default_value], a value delimiter,
      [arg_required_else_help], [--help] and [--version]) over words
      classified by [classify] and scanned by [scan]; [run_binary] is
      the process, [Cli::parse()] followed by [main].
    - [Docs]: the rustdoc of [generate_meta] (its example header) and of
      [update_meta] (its [## Errors]) as definitions, compared with the
      code.

    ** What is proved
    - The writer ([NoteWriter]): the first write of a day creates the
      header and one entry ([write_new_file]); untagged writes append
      ([write_untagged_appends]); known tags change nothing but the entry
      ([write_known_tags_idempotent]); a header without a tags line is
      rejected ([write_rejects_malformed_header]); a failed
      [update_meta] changes nothing unless its [fs::write] fails after
      truncating the file, which then keeps only a prefix of the merged
      contents ([update_meta_failure]); the errors
      [write] returns ([write_errors]); a regular file in place of the
      day directory ([write_day_dir_is_file]).
      [write_tagged_after_first_fails] and [run_day_session] show the
      main defect: [generate_meta]'s raw string literal is indented, so
      [update_meta] never finds [tags:] at the start of a line in a
      header the program wrote, and from the second write of a day
      every tagged write fails and loses its entry.  [run_day_session]
      proves this for a whole day by induction over [run];
      [Lifecycle.header_frozen] proves it for every state reachable by
      writes, by induction on the transition relation: the header never
      changes.
    - Refinement ([NoteSpec]): on a file in the documented format, [run]
      is [spec_run] ([run_refines_spec]): each write appends its entry
      and adds the new tags once each after the old ones, and the tags
      stay distinct ([merge_meta_unique_tags]).  [write_ready] reduces
      [write] to [file_step] and [merge_meta_doc] computes the merge.
      Outside those hypotheses the merge departs from the spec, for all
      inputs of each shape: every entry quoting the tags line is
      rewritten ([merge_rewrites_entry]), an empty tag list gains an
      empty tag ([merge_into_empty_tags]), a tag given [k] times is
      added [k] times ([merge_duplicates_input]), a file without the
      delimiter is merged ([Meta.merge_without_delimiter]), and a listed
      tag given with a leading space is added again by every write
      ([merge_untrimmed_tag_repeats]).
    - The regex ([TagsRegex]) and the tags line ([Meta]): the scan is
      equivalent to the leftmost-first, lazy meaning of the pattern
      ([tags_captures_leftmost_lazy], [tags_captures_none]), and a
      formatted tags line reads back to its tags ([tags_line_roundtrip]).
    - Effects: when the final append fails after a successful merge,
      the header has changed and at most a prefix of the entry line
      was appended ([write_append_refused_after_merge]); every state
      reachable by writes differs from the start only in the day file
      ([reachable_touches_only_day_file]); [main] changes no file but the
      one the title of its command names and keeps the file system well
      formed ([main_touches_only_named_file]).
    - Paths and dates ([PathResolver], [DateFormat]): the day path
      determines the day ([day_path_date_injective]), [build_path]
      creates the day directory ([build_path_day_dir]), both date
      layouts read back ([date_padded_roundtrip],
      [date_unpadded_roundtrip]) and agree only for two-digit months and
      days ([padded_unpadded_agree]); an absolute title escapes the
      notes directory ([legacy_path_absolute_title]).
    - The binary ([Cli]): its [write] only appends a line, with no header
      ([write_appends_line_only]).
    - The command line ([ArgParse]): a run without [--tags] parses to the
      tag list [[""]], so under [entry.rs] it takes the merge path and
      fails on the day file the program wrote
      ([untagged_command_fails]); the process never ends with
      [CannotProcessArgs], since [clap] exits before [main] when no
      subcommand is given ([binary_never_cannot_process_args]); a
      command spelled out with its long options parses back to itself
      ([parse_render_roundtrip]); parsed tags contain no comma
      ([parse_entry_tags_comma_free]).
    - Widths and documentation: the day name is ten bytes [MM-DD-YYYY]
      for four-digit years ([date_padded_width], by evaluation over the
      whole range; [date_padded_year_width] shows the other years);
      [update_meta] returns only documented errors but never the
      documented [CannotOpenOrCreatePath]
      ([update_meta_errors_documented]); [generate_meta] is the header of
      its doc example with every line indented by four spaces, and so
      never that header ([generate_meta_not_documented]).

    ** Bounds, fuel and modelling choices
    Only [Str.replace_go] uses fuel.  [Str.replace] gives it the
    length of the text plus one.  Every step either consumes a matched,
    non-empty pattern or one character, so this fuel always reaches the
    end of the text, and any larger fuel gives the same result
    ([replace_go_fuel]).
    Other recursion is structural.  [date_padded_width] checks the widths
    of [{:02}] on [0..99] and of [{}] on [1000..9999] by evaluating
    [forallb] over the range ([forallb_seq]); months and days of a
    [chrono] date lie in the first range.  Strings are
    Stdlib [string]s of 8-bit characters.  [\s] and [char::is_whitespace]
    are read on ASCII only.  [PathModel] follows [std::path] for paths
    without [.] components and with [..] only as a whole last component:
    the day path is such a path; a title of [main.rs] that is not is
    outside the model of [Path::parent].  A write that fails part way
    leaves a proper prefix of its buffer, at most [fs_short] bytes;
    [fs::write] truncates the file first ([File::create], refused by the
    fault [OpCreate]) and fails part way under the fault [OpWrite];
    [write_all] on the append handle fails part way under [OpAppend].
    The lemmas [replace_step], [replace_split] and [replace_skip]
    compute [Str.replace] on text of known shape, by way of
    [replace_go_fuel].
    [io::Error]s carry no payload, as the code discards them with
    [map_err(|_| ..)].  I/O failures are modelled by the set
    [fs_faults]; [Fs.quiet] says none applies.

    ** Not modelled
    The texts [clap] prints (help, usage, error messages) and the
    parts of [clap] these declarations do not use (clusters of several
    flags, environment variables, argument files, non-UTF-8 arguments): [ArgParse] models the
    outcome and exit status of a parse only.  [Entry::retrieve_from]
    is [todo!()] and is modelled as a panic.  Concurrent writers, partial
    writes and the time zone of [Local::now()] are outside the model.
    Standard library calls are modelled by their documented behaviour,
    not by their source. *)

From stdpp Require Import base list.
From Stdlib Require Import Ascii String Lia.

Declare Scope til_scope.
Delimit Scope til_scope with til.
Open Scope string_scope.

(** ** Characters *)

Definition nl_char : ascii := "010"%char.
Definition dq_char : ascii := "034"%char.

(** The one-character strings holding a line feed and a double quote. *)
Definition NL : string := String nl_char EmptyString.
Definition DQ : string := String dq_char EmptyString.

(** [char::is_whitespace] and the regex class [\s] on ASCII: tab, line
    feed, vertical tab, form feed, carriage return and space. *)
Definition is_ws (c : ascii) : bool :=
  let n := nat_of_ascii c in (Nat.leb 9 n && Nat.leb n 13) || Nat.eqb n 32.

(** The last character of a string. *)
Fixpoint last_char (s : string) : option ascii :=
  match s with
  | EmptyString => None
  | String c EmptyString => Some c
  | String _ s' => last_char s'
  end.

(** ** Rust's [str] operations *)
Module Str.

(** [str::strip_prefix] *)
Fixpoint strip_prefix (p s : string) : option string :=
  match p, s with
  | EmptyString, _ => Some s
  | String c p', String d s' => if Ascii.eqb c d then strip_prefix p' s' else None
  | String _ _, EmptyString => None
  end.

(** [s.split(sep)] stopped after its first piece: the text before the
    first occurrence of [sep] and the text after it. *)
Fixpoint split_once (sep s : string) : option (string * string) :=
  match strip_prefix sep s with
  | Some rest => Some (EmptyString, rest)
  | None =>
      match s with
      | EmptyString => None
      | String c s' =>
          match split_once sep s' with
          | Some (a, b) => Some (String c a, b)
          | None => None
          end
      end
  end.

(** [s.split(sep).next()], which always yields a piece: the whole string
    when [sep] does not occur. *)
Definition split_first (sep s : string) : string :=
  match split_once sep s with
  | Some (a, _) => a
  | None => s
  end.

(** [s.split(c)] for a [char] pattern: [n] separators give [n+1] pieces,
    so the empty string gives one empty piece. *)
Fixpoint split_char (c : ascii) (s : string) : list string :=
  match s with
  | EmptyString => [EmptyString]
  | String d s' =>
      let parts := split_char c s' in
      if Ascii.eqb d c then EmptyString :: parts
      else match parts with
           | p :: ps => String d p :: ps
           | [] => [String d EmptyString]
           end
  end.

Fixpoint trim_start (s : string) : string :=
  match s with
  | String c s' => if is_ws c then trim_start s' else s
  | EmptyString => EmptyString
  end.

Fixpoint trim_end (s : string) : string :=
  match s with
  | EmptyString => EmptyString
  | String c s' =>
      match trim_end s' with
      | EmptyString => if is_ws c then EmptyString else String c EmptyString
      | r => String c r
      end
  end.

(** [str::trim] *)
Definition trim (s : string) : string := trim_end (trim_start s).

(** [<[String]>::join(sep)] *)
Fixpoint join (sep : string) (xs : list string) : string :=
  match xs with
  | [] => EmptyString
  | [x] => x
  | x :: xs' => x ++ sep ++ join sep xs'
  end.

(** [str::replace(from, to)] for a non-empty [from]: every
    non-overlapping occurrence, scanned from the left, is replaced.  The
    fuel is the length of the text, which is always enough
    ([replace_go_fuel] below). *)
Fixpoint replace_go (fuel : nat) (from to s : string) : string :=
  match fuel with
  | O => s
  | S fuel' =>
      match strip_prefix from s with
      | Some rest => to ++ replace_go fuel' from to rest
      | None =>
          match s with
          | EmptyString => EmptyString
          | String c s' => String c (replace_go fuel' from to s')
          end
      end
  end.

(** With an empty [from] Rust inserts [to] at every character boundary. *)
Fixpoint replace_empty (to s : string) : string :=
  match s with
  | EmptyString => to
  | String c s' => to ++ String c (replace_empty to s')
  end.

Definition replace (from to s : string) : string :=
  match from with
  | EmptyString => replace_empty to s
  | _ => replace_go (S (String.length s)) from to s
  end.

End Str.

(** ** [Result] and a state-and-error monad

    [result A E] is Rust's [Result<A, E>].  A computation of type
    [st S E A] runs on a state [S] (the file system) and returns the
    final state with a result; the state reached before an error is kept,
    as in Rust where an early [?] return does not undo earlier effects. *)
Inductive result (A E : Type) : Type :=
| Ok (a : A)
| Err (e : E).
Arguments Ok {A E} a.
Arguments Err {A E} e.

Definition st (S E A : Type) : Type := S -> S * result A E.

Definition st_ret {S E A} (a : A) : st S E A := fun s => (s, Ok a).
Definition st_fail {S E A} (e : E) : st S E A := fun s => (s, Err e).

Definition st_bind {S E A B} (m : st S E A) (k : A -> st S E B) : st S E B :=
  fun s => match m s with
           | (s', Ok a) => k a s'
           | (s', Err e) => (s', Err e)
           end.

(** [m.map_err(f)] *)
Definition st_map_err {S E E' A} (f : E -> E') (m : st S E A) : st S E' A :=
  fun s => match m s with
           | (s', Ok a) => (s', Ok a)
           | (s', Err e) => (s', Err (f e))
           end.

(** Read the state (a query such as [Path::exists]). *)
Definition st_get {S E} : st S E S := fun s => (s, Ok s).

(** [Option::ok_or] *)
Definition ok_or {A E} (o : option A) (e : E) : result A E :=
  match o with
  | Some a => Ok a
  | None => Err e
  end.

(** Lift a pure [Result] ([?] on a value). *)
Definition st_lift {S E A} (r : result A E) : st S E A := fun s => (s, r).

(** [m] relates the state before it to the state after it by [R],
    whatever it returns: the frame conditions of the stateful code are
    stated this way and composed along [st_bind]. *)
Definition st_preserves {S E A} (R : S -> S -> Prop) (m : st S E A) : Prop :=
  forall s, R s (fst (m s)).

Notation "x <- m ;; k" := (st_bind m (fun x => k))
  (at level 100, m at next level, right associativity) : til_scope.
Notation "m ;; k" := (st_bind m (fun _ => k))
  (at level 100, right associativity) : til_scope.

(** ** Hint databases

    [strs] collects the rewriting equations of the string operations,
    [til] the lemmas that close the recurring side conditions. *)
Create HintDb til.
Create Rewrite HintDb strs.

(** ** Characters absent from a text *)

(** [c] does not occur in [s]. *)
Fixpoint char_free (c : ascii) (s : string) : bool :=
  match s with
  | EmptyString => true
  | String d s' => negb (Ascii.eqb d c) && char_free c s'
  end.

(** Text on one line. *)
Definition inline (s : string) : Prop := char_free nl_char s = true.

(** ** The last character; the monad *)

Lemma last_char_cons (c : ascii) (s : string) :
  last_char (String c s) = match last_char s with Some x => Some x | None => Some c end.
Proof.
  revert c. induction s as [|d s IH]; intros c; [done |].
  change (last_char (String c (String d s))) with (last_char (String d s)).
  rewrite IH. by destruct (last_char s).
Qed.

Lemma st_bind_ok {S E A B} (m : st S E A) (k : A -> st S E B) s s' a :
  m s = (s', Ok a) -> st_bind m k s = k a s'.
Proof. intros H. unfold st_bind. by rewrite H. Qed.

Lemma st_bind_err {S E A B} (m : st S E A) (k : A -> st S E B) s s' e :
  m s = (s', Err e) -> st_bind m k s = (s', Err e).
Proof. intros H. unfold st_bind. by rewrite H. Qed.

Lemma st_map_err_ok {S E E' A} (f : E -> E') (m : st S E A) s s' a :
  m s = (s', Ok a) -> st_map_err f m s = (s', Ok a).
Proof. intros H. unfold st_map_err. by rewrite H. Qed.

Section Preserves.
Context {S E : Type} (R : S -> S -> Prop) `{!PreOrder R}.

Lemma st_preserves_ret {A} (a : A) : st_preserves (E:=E) R (st_ret a).
Proof. intros s. simpl. reflexivity. Qed.

Lemma st_preserves_fail {A} (e : E) : st_preserves (A:=A) R (st_fail e).
Proof. intros s. simpl. reflexivity. Qed.

Lemma st_preserves_lift {A} (r : result A E) : st_preserves R (st_lift r).
Proof. intros s. simpl. reflexivity. Qed.

Lemma st_preserves_get : st_preserves (E:=E) R st_get.
Proof. intros s. simpl. reflexivity. Qed.

Lemma st_preserves_bind {A B} (m : st S E A) (k : A -> st S E B) :
  st_preserves R m -> (forall a, st_preserves R (k a)) -> st_preserves R (st_bind m k).
Proof.
  intros Hm Hk s. specialize (Hm s). unfold st_bind.
  destruct (m s) as [s' [a|e]]; simpl in *; [| done]. etrans; [exact Hm | apply Hk].
Qed.

Lemma st_preserves_map_err {E' A} (f : E -> E') (m : st S E A) :
  st_preserves R m -> st_preserves R (st_map_err f m).
Proof. intros Hm s. specialize (Hm s). unfold st_map_err. by destruct (m s) as [s' [a|e]]. Qed.

End Preserves.

#[export] Hint Resolve st_preserves_ret st_preserves_fail st_preserves_lift st_preserves_get
  st_preserves_bind st_preserves_map_err : til.
#[export] Hint Extern 1 (PreOrder _) => apply _ : til.

(** A frame condition of a composed computation, from those of its
    parts; each [st_bind] costs two steps of the search. *)
Ltac solve_preserves := eauto 20 with til.

Lemma st_preserves_at {S E A} (R : S -> S -> Prop) (m : st S E A) s :
  st_preserves R m -> R s (fst (m s)).
Proof. auto. Qed.

Lemma st_bind_fst {S E A B} (m : st S E A) (k : A -> st S E B) s :
  fst (st_bind m k s) = match m s with (s', Ok a) => fst (k a s') | (s', Err _) => s' end.
Proof. unfold st_bind. by destruct (m s) as [s' [a|e]]. Qed.

Lemma st_map_err_inv {S E E' A} (f : E -> E') (m : st S E A) s s' a :
  st_map_err f m s = (s', Ok a) -> m s = (s', Ok a).
Proof. unfold st_map_err. destruct (m s) as [s0 [a0|e]]; congruence. Qed.

Lemma st_map_err_fst {S E E' A} (f : E -> E') (m : st S E A) s :
  fst (st_map_err f m s) = fst (m s).
Proof. unfold st_map_err. by destruct (m s) as [s0 [a0|e]]. Qed.

(** ** Lists *)

Lemma filter_false_Forall {A} (f : A -> bool) (l : list A) :
  Forall (fun x => f x = false) l -> List.filter f l = [].
Proof. induction 1 as [|x l Hx _ IH]; simpl; [done |]. by rewrite Hx. Qed.

(** ** Strings *)

(** A bounded property checked by evaluation over [a, a + n). *)
Lemma forallb_seq (f : nat -> bool) a n :
  forallb f (seq a n) = true -> forall k, a <= k < a + n -> f k = true.
Proof. intros H k Hk. apply (proj1 (forallb_forall f _) H). apply in_seq. lia. Qed.

Lemma append_assoc_str (a b c : string) : (a ++ b) ++ c = a ++ (b ++ c).
Proof. induction a as [|x a IH]; simpl; [done | by rewrite IH]. Qed.

Lemma append_nil_l_str (a : string) : EmptyString ++ a = a.
Proof. reflexivity. Qed.

Lemma append_nil_r_str (a : string) : a ++ EmptyString = a.
Proof. induction a as [|x a IH]; simpl; [done | by rewrite IH]. Qed.

Lemma length_append_str (a b : string) :
  String.length (a ++ b) = String.length a + String.length b.
Proof. induction a as [|x a IH]; simpl; [done | by rewrite IH]. Qed.

Lemma char_free_app c a b : char_free c (a ++ b) = char_free c a && char_free c b.
Proof. induction a as [|x a IH]; simpl; [done | rewrite IH; by destruct (Ascii.eqb x c)]. Qed.

Lemma last_char_app (a b : string) : b <> EmptyString -> last_char (a ++ b) = last_char b.
Proof.
  intros Hb. induction a as [|c a IH]; [done |].
  change (String c a ++ b) with (String c (a ++ b)).
  rewrite last_char_cons, IH. destruct b; [done |]. by rewrite last_char_cons; destruct (last_char b).
Qed.

Lemma append_cancel_l (a b c : string) : a ++ b = a ++ c -> b = c.
Proof. induction a as [|x a IH]; simpl; [done |]. intros [= H]. by apply IH. Qed.

Lemma append_cancel_r (a b c : string) : a ++ c = b ++ c -> a = b.
Proof.
  revert b. induction a as [|x a IH]; intros [|y b] H; simpl in *; [done | | | ].
  - apply (f_equal String.length) in H. simpl in H. rewrite length_append_str in H. lia.
  - apply (f_equal String.length) in H. simpl in H. rewrite length_append_str in H. lia.
  - injection H as -> H. f_equal. by apply IH.
Qed.

(** The last character of a string without [c] is not [c]. *)
Lemma last_char_free c s :
  char_free c s = true -> match last_char s with Some x => Ascii.eqb x c = false | None => True end.
Proof.
  induction s as [|x s IH]; [done |]. cbn [char_free]. intros [Hx Hs]%andb_prop.
  rewrite last_char_cons. specialize (IH Hs). destruct (last_char s); [done |].
  by apply negb_true_iff.
Qed.

#[export] Hint Rewrite append_assoc_str append_nil_r_str length_append_str char_free_app : strs.

Lemma strip_prefix_app (p s : string) : Str.strip_prefix p (p ++ s) = Some s.
Proof. induction p as [|x p IH]; simpl; [done | by rewrite Ascii.eqb_refl]. Qed.

Lemma strip_prefix_Some (p s r : string) : Str.strip_prefix p s = Some r -> s = p ++ r.
Proof.
  revert s. induction p as [|x p IH]; intros [|y s]; simpl; try congruence.
  destruct (Ascii.eqb_spec x y); [subst; intros H; f_equal; by apply IH | done].
Qed.

Lemma strip_prefix_cons_ne (c d : ascii) (p s : string) :
  Ascii.eqb c d = false -> Str.strip_prefix (String c p) (String d s) = None.
Proof. intros H. simpl. by rewrite H. Qed.

(** A one-character separator that does not occur in [a] splits
    [a ++ sep ++ r] right after [a]. *)
Lemma split_once_char (c : ascii) (a r : string) :
  char_free c a = true ->
  Str.split_once (String c EmptyString) (a ++ String c r) = Some (a, r).
Proof.
  induction a as [|x a IH]; simpl; [by rewrite Ascii.eqb_refl |].
  intros [Hx Ha]%andb_prop. apply negb_true_iff in Hx.
  rewrite Ascii.eqb_sym, Hx, IH; done.
Qed.

Lemma char_free_join c sep xs :
  char_free c sep = true -> Forall (fun x => char_free c x = true) xs ->
  char_free c (Str.join sep xs) = true.
Proof.
  intros Hs Hx. induction Hx as [|x xs Hx Hxs IH]; [done |].
  destruct xs as [|y ys]; [done |].
  change (Str.join sep (x :: y :: ys)) with (x ++ sep ++ Str.join sep (y :: ys)).
  rewrite !char_free_app, Hx, Hs, IH. done.
Qed.

Lemma split_once_Some sep s a b : Str.split_once sep s = Some (a, b) -> s = a ++ sep ++ b.
Proof.
  revert a b. induction s as [|c s IH]; intros a b; simpl.
  - destruct (Str.strip_prefix sep EmptyString) eqn:E; [| done].
    intros [= <- <-]. by apply strip_prefix_Some in E.
  - destruct (Str.strip_prefix sep (String c s)) eqn:E.
    + intros [= <- <-]. by apply strip_prefix_Some in E.
    + destruct (Str.split_once sep s) as [[a' b']|] eqn:E'; [| done].
      intros [= <- <-]. simpl. by rewrite (IH a' b').
Qed.

(** [split(sep).next()] is a prefix of the text. *)
Lemma split_first_prefix sep s : exists r, s = Str.split_first sep s ++ r.
Proof.
  unfold Str.split_first. destruct (Str.split_once sep s) as [[a b]|] eqn:E.
  - apply split_once_Some in E. by exists (sep ++ b).
  - exists EmptyString. by rewrite append_nil_r_str.
Qed.

#[export] Hint Resolve strip_prefix_app : til.

(** ** Splitting, trimming and replacing on known text *)

Lemma split_char_app c a r :
  char_free c a = true -> Str.split_char c (a ++ String c r) = a :: Str.split_char c r.
Proof.
  induction a as [|x a IH]; simpl; [by rewrite Ascii.eqb_refl |].
  intros [Hx Ha]%andb_prop. apply negb_true_iff in Hx. by rewrite IH, Hx.
Qed.

Lemma split_char_free c a : char_free c a = true -> Str.split_char c a = [a].
Proof.
  induction a as [|x a IH]; simpl; [done |].
  intros [Hx Ha]%andb_prop. apply negb_true_iff in Hx. by rewrite IH, Hx.
Qed.

(** A separator starting with [c] cannot start inside text free of [c]. *)
Lemma split_once_skip c sep a r :
  char_free c a = true ->
  Str.split_once (String c sep) (a ++ r)
  = match Str.split_once (String c sep) r with Some (x, y) => Some (a ++ x, y) | None => None end.
Proof.
  induction a as [|x a IH]; simpl; intros H.
  - rewrite ?append_nil_l_str. by destruct (Str.split_once _ r) as [[]|].
  - apply andb_prop in H as [Hx Ha]. apply negb_true_iff in Hx.
    rewrite Ascii.eqb_sym, Hx, IH by done. by destruct (Str.split_once _ r) as [[]|].
Qed.

Lemma trim_space u : Str.trim (String " "%char u) = Str.trim u.
Proof. reflexivity. Qed.

Lemma replace_nonempty c f to s :
  Str.replace (String c f) to s = Str.replace_go (S (String.length s)) (String c f) to s.
Proof. reflexivity. Qed.

Lemma replace_go_at n from to r :
  Str.replace_go (S n) from to (from ++ r) = to ++ Str.replace_go n from to r.
Proof. simpl. by rewrite strip_prefix_app. Qed.

(** No occurrence of [from] in text that lacks one of its characters. *)
Lemma replace_go_free c n from to s :
  char_free c s = true -> char_free c from = false -> Str.replace_go n from to s = s.
Proof.
  revert n. induction s as [|x s IH]; intros [|n] Hs Hf; simpl; [done | | done |].
  - destruct (Str.strip_prefix from "") eqn:E; [| done].
    apply strip_prefix_Some in E. rewrite E, char_free_app, Hf in Hs. done.
  - destruct (Str.strip_prefix from (String x s)) eqn:E.
    + apply strip_prefix_Some in E. rewrite E, char_free_app, Hf in Hs. done.
    + simpl in Hs. apply andb_prop in Hs as [_ Hs]. by rewrite IH.
Qed.

Lemma strip_prefix_length from s rest :
  Str.strip_prefix from s = Some rest -> String.length s = String.length from + String.length rest.
Proof. intros H. apply strip_prefix_Some in H. subst. apply length_append_str. Qed.

(** The fuel of [Str.replace] is enough: with a non-empty pattern, every
    step consumes a character, so any fuel above the length of the text
    gives the same result as the fuel [replace] passes. *)
Lemma replace_go_fuel n m from to s :
  from <> EmptyString -> String.length s < n -> String.length s < m ->
  Str.replace_go n from to s = Str.replace_go m from to s.
Proof.
  intros Hf. revert m s. induction n as [|n IH]; intros [|m] s Hn Hm; try lia.
  cbn [Str.replace_go]. destruct (Str.strip_prefix from s) as [rest|] eqn:E.
  - apply strip_prefix_length in E. destruct from; [done |]. simpl in E.
    f_equal. apply IH; lia.
  - destruct s as [|c s]; [done |]. simpl in Hn, Hm. f_equal. apply IH; lia.
Qed.


(** ** [str::replace] on text of known shape *)

Lemma replace_go_S n from to s :
  Str.replace_go (S n) from to s
  = match Str.strip_prefix from s with
    | Some rest => to ++ Str.replace_go n from to rest
    | None => match s with
              | EmptyString => EmptyString
              | String x s' => String x (Str.replace_go n from to s')
              end
    end.
Proof. reflexivity. Qed.

(** One step of the scan, with the fuel hidden. *)
Lemma replace_step from to s :
  from <> EmptyString ->
  Str.replace from to s
  = match Str.strip_prefix from s with
    | Some rest => to ++ Str.replace from to rest
    | None => match s with
              | EmptyString => EmptyString
              | String x s' => String x (Str.replace from to s')
              end
    end.
Proof.
  intros Hf. destruct from as [|c f]; [done |].
  rewrite (replace_nonempty c f to s), replace_go_S.
  destruct (Str.strip_prefix _ s) as [rest|] eqn:E.
  - rewrite replace_nonempty. f_equal. apply strip_prefix_length in E. simpl in E.
    apply replace_go_fuel; [done | ..]; lia.
  - destruct s as [|x s]; [done |]. by rewrite replace_nonempty.
Qed.

Lemma replace_at from to r :
  from <> EmptyString -> Str.replace from to (from ++ r) = to ++ Str.replace from to r.
Proof. intros Hf. by rewrite replace_step, strip_prefix_app. Qed.

Lemma replace_nil from to : from <> EmptyString -> Str.replace from to EmptyString = EmptyString.
Proof. intros Hf. rewrite replace_step by done. by destruct from. Qed.

(** Text without the pattern's first character is copied as it is. *)
Lemma replace_skip c f to a r :
  char_free c a = true -> Str.replace (String c f) to (a ++ r) = a ++ Str.replace (String c f) to r.
Proof.
  induction a as [|x a IH]; [done |]. cbn [String.append char_free]. intros [Hx Ha]%andb_prop.
  apply negb_true_iff in Hx. rewrite replace_step by done.
  rewrite strip_prefix_cons_ne by by rewrite Ascii.eqb_sym. by rewrite IH.
Qed.

(** Text without one of the pattern's characters is left alone. *)
Lemma replace_free c from to s :
  char_free c s = true -> char_free c from = false -> Str.replace from to s = s.
Proof.
  intros Hs Hf. destruct from as [|d f]; [done |].
  rewrite replace_nonempty. by apply (replace_go_free c).
Qed.

Lemma strip_prefix_app_sep c p u v :
  char_free c p = true ->
  Str.strip_prefix p (u ++ String c v) = option_map (fun w => w ++ String c v) (Str.strip_prefix p u).
Proof.
  revert u. induction p as [|d p IH]; intros u Hp; [done |].
  simpl in Hp. apply andb_prop in Hp as [Hd Hp]. apply negb_true_iff in Hd.
  destruct u as [|e u]; simpl; [by rewrite Hd |].
  destruct (Ascii.eqb d e); [by apply IH | done].
Qed.

(** An occurrence of a pattern without [c] never spans a [c]: the
    replacement works piece by piece. *)
Lemma replace_split c from to a r :
  char_free c from = true -> from <> EmptyString -> char_free c a = true ->
  Str.replace from to (a ++ String c r) = Str.replace from to a ++ String c (Str.replace from to r).
Proof.
  intros Hf Hne. remember (String.length a) as n eqn:Hn. revert a Hn.
  induction n as [n IH] using lt_wf_ind. intros a -> Ha.
  rewrite (replace_step from to (a ++ _)), (replace_step from to a), strip_prefix_app_sep by done.
  destruct (Str.strip_prefix from a) as [w|] eqn:E; cbn [option_map].
  - pose proof (strip_prefix_length _ _ _ E) as Hl. apply strip_prefix_Some in E as ->.
    rewrite char_free_app in Ha. apply andb_prop in Ha as [_ Hw].
    rewrite (IH (String.length w)), append_assoc_str; [done | | done | done].
    destruct from; [done |]. simpl in Hl |- *. lia.
  - destruct a as [|x a]; cbn [String.append].
    + rewrite replace_step by done. destruct from as [|d f]; [done |].
      simpl in Hf. apply andb_prop in Hf as [Hd _]. apply negb_true_iff in Hd.
      by rewrite ?strip_prefix_cons_ne.
    + simpl in Ha. apply andb_prop in Ha as [_ Ha]. f_equal. by apply (IH (String.length a)); [simpl; lia | |].
Qed.

Lemma replace_self from to : from <> EmptyString -> Str.replace from to from = to.
Proof.
  intros Hf. rewrite <- (append_nil_r_str from) at 2.
  by rewrite replace_at, replace_nil, append_nil_r_str.
Qed.

(** A pattern without [c] never starts at [c]. *)
Lemma replace_cons_sep c from to r :
  char_free c from = true -> from <> EmptyString ->
  Str.replace from to (String c r) = String c (Str.replace from to r).
Proof.
  intros Hf Hne. pose proof (replace_split c from to EmptyString r Hf Hne eq_refl) as H.
  simpl in H. by rewrite replace_nil in H.
Qed.
