(* ===== verification/Errors.v ===== *)
(** * The error enum of [til]

    [main.rs] declares [mod error] and uses [error::Error] and
    [error::Result], but [error.rs] is not part of the sources: the
    variants are taken from their uses in [entry.rs] and [main.rs] and
    from the taxonomy of the spec.  Paths are carried as strings. *)
From stdpp Require Import base strings.
From S2P Require Import Prelude.

Inductive Error : Type :=
| CannotFindDir (which : string)
| CannotBuildPath
| CannotCreateDir (path : string)
| CannotOpenOrCreatePath (path : string)
| CannotReadFile (path : string)
| CannotParseMetaData
| CannotWriteToFile (path : string)
| CannotProcessArgs.

#[export] Instance Error_eq_dec : EqDecision Error.
Proof. solve_decision. Defined.

(** [crate::error::Result<T>] *)
Definition Result (A : Type) : Type := result A Error.
