(* ===== verification/PathModel.v ===== *)
(** * Unix paths as [std::path] handles them

    The path resolver calls [Path::join], [PathBuf::set_extension] and
    [Path::parent].  Paths are strings; the operations below follow the
    standard library's rules on Unix for paths without [.] components
    (the only kind the program builds from a home directory, a date and a
    title): [join] replaces the base by an absolute argument and otherwise
    inserts one separator unless the base already ends in one;
    [set_extension] truncates right after the file stem and appends the
    extension; [parent] drops the last component and the separators
    before it. *)
From stdpp Require Import base list.
From Stdlib Require Import Ascii String.
From S2P Require Import Prelude.

Module PathModel.

Definition sep_char : ascii := "/"%char.
Definition is_sep (c : ascii) : bool := Ascii.eqb c sep_char.

(** [Path::is_absolute] on Unix: a leading separator. *)
Definition is_absolute (p : string) : bool :=
  match p with
  | String c _ => is_sep c
  | EmptyString => false
  end.

(** [PathBuf::push]: a separator is needed when the base is non-empty
    and does not end in one; an absolute argument replaces the base. *)
Definition push (base p : string) : string :=
  if is_absolute p then p
  else match last_char base with
       | Some c => if is_sep c then base ++ p else base ++ String sep_char p
       | None => base ++ p
       end.

(** [Path::join] is [push] on a copy. *)
Definition join (base p : string) : string := push base p.

(** The path without its trailing separators. *)
Fixpoint strip_trailing_seps (s : string) : string :=
  match s with
  | EmptyString => EmptyString
  | String c s' =>
      match strip_trailing_seps s' with
      | EmptyString => if is_sep c then EmptyString else String c EmptyString
      | r => String c r
      end
  end.

(** Split at the last separator: the text before it and after it. *)
Fixpoint split_last_sep (s : string) : option (string * string) :=
  match s with
  | EmptyString => None
  | String c s' =>
      match split_last_sep s' with
      | Some (a, b) => Some (String c a, b)
      | None => if is_sep c then Some (EmptyString, s') else None
      end
  end.

(** Split at the last dot. *)
Fixpoint split_last_dot (s : string) : option (string * string) :=
  match s with
  | EmptyString => None
  | String c s' =>
      match split_last_dot s' with
      | Some (a, b) => Some (String c a, b)
      | None => if Ascii.eqb c "."%char then Some (EmptyString, s') else None
      end
  end.

(** The last component of a path without trailing separators, and the
    directory part before it (with its separator). *)
Definition last_component (r : string) : string * string :=
  match split_last_sep r with
  | Some (dir, name) => (dir ++ String sep_char EmptyString, name)
  | None => (EmptyString, r)
  end.

(** [Path::file_name]: [None] for the empty path, the root and [..]. *)
Definition file_name (p : string) : option string :=
  let name := snd (last_component (strip_trailing_seps p)) in
  match name with
  | EmptyString => None
  | _ => if String.eqb name ".." then None else Some name
  end.

(** [Path::file_stem]: the name up to its last dot, unless that dot is
    the first character ([.bashrc] is its own stem). *)
Definition file_stem_of (name : string) : string :=
  if String.eqb name ".." then name
  else match split_last_dot name with
       | Some (EmptyString, _) => name
       | Some (before, _) => before
       | None => name
       end.

(** [PathBuf::set_extension]: keep everything up to the end of the file
    stem, then add [.ext] (nothing when [ext] is empty); a path without
    a file name is left as it is. *)
Definition set_extension (p ext : string) : string :=
  match file_name p with
  | None => p
  | Some name =>
      let dir := fst (last_component (strip_trailing_seps p)) in
      dir ++ file_stem_of name
          ++ (match ext with EmptyString => EmptyString | _ => String "."%char ext end)
  end.

(** [Path::parent]: [None] for the empty path and the root; otherwise
    the path without its last component and the separators before it,
    the root being kept. *)
Definition parent (p : string) : option string :=
  let r := strip_trailing_seps p in
  match r with
  | EmptyString => None
  | _ =>
      match split_last_sep r with
      | None => Some EmptyString
      | Some (before, _) =>
          match strip_trailing_seps before with
          | EmptyString => if is_absolute r then Some (String sep_char EmptyString)
                          else Some EmptyString
          | b => Some b
          end
      end
  end.

(** ** On paths built from plain components *)

Lemma is_absolute_free s : char_free sep_char s = true -> is_absolute s = false.
Proof. destruct s as [|c s]; [done |]. simpl. by intros [?%negb_true_iff _]%andb_prop. Qed.

(** Pushing a relative component onto a base that does not end in a
    separator inserts exactly one separator. *)
Lemma push_relative base p c :
  is_absolute p = false -> last_char base = Some c -> is_sep c = false ->
  push base p = base ++ String sep_char p.
Proof. intros Hp Hb Hc. unfold push. by rewrite Hp, Hb, Hc. Qed.

Lemma split_last_sep_free s : char_free sep_char s = true -> split_last_sep s = None.
Proof.
  induction s as [|c s IH]; [done |]. simpl. intros [Hc Hs]%andb_prop.
  rewrite IH by done. unfold is_sep. apply negb_true_iff in Hc. by rewrite Hc.
Qed.

Lemma split_last_sep_app a n :
  char_free sep_char n = true -> split_last_sep (a ++ String sep_char n) = Some (a, n).
Proof.
  intros Hn. induction a as [|c a IH]; simpl.
  - rewrite split_last_sep_free by done. reflexivity.
  - by rewrite IH.
Qed.

Lemma split_last_dot_free s : char_free "."%char s = true -> split_last_dot s = None.
Proof.
  induction s as [|c s IH]; [done |]. simpl. intros [Hc Hs]%andb_prop.
  rewrite IH by done. apply negb_true_iff in Hc. by rewrite Hc.
Qed.

Lemma strip_trailing_seps_id s :
  match last_char s with Some c => is_sep c = false | None => True end ->
  strip_trailing_seps s = s.
Proof.
  induction s as [|c s IH]; [done |]. rewrite last_char_cons. intros H.
  cbn [strip_trailing_seps]. destruct s as [|c' s'].
  - simpl in H. by rewrite H.
  - rewrite IH; [done |]. rewrite last_char_cons in *. by destruct (last_char s').
Qed.

(** [set_extension] on [a/n] with a plain name [n] (no separator, no
    dot) appends [.ext]. *)
Lemma set_extension_plain a n ext :
  n <> EmptyString -> char_free sep_char n = true -> char_free "."%char n = true ->
  ext <> EmptyString ->
  set_extension (a ++ String sep_char n) ext = a ++ String sep_char (n ++ String "."%char ext).
Proof.
  intros Hn Hs Hd He. unfold set_extension, file_name, last_component, file_stem_of.
  rewrite strip_trailing_seps_id.
  2: { rewrite last_char_app by done. rewrite last_char_cons.
       pose proof (last_char_free _ _ Hs) as Hl. destruct (last_char n) as [x|] eqn:E.
       - by unfold is_sep.
       - destruct n as [|y n]; [done |]. rewrite last_char_cons in E. by destruct (last_char n). }
  rewrite split_last_sep_app by done. cbn [fst snd].
  destruct n as [|c n']; [done |].
  assert (String.eqb (String c n') ".." = false) as ->.
  { apply String.eqb_neq. intros Heq. rewrite Heq in Hd. discriminate. }
  rewrite split_last_dot_free by done.
  destruct ext as [|x ext]; [done |]. rewrite append_assoc_str.
  by destruct (String.eqb (String c n') "..").
Qed.

Lemma last_char_component a d :
  d <> EmptyString -> char_free sep_char d = true ->
  exists c, last_char (a ++ String sep_char d) = Some c /\ is_sep c = false.
Proof.
  intros Hd Hs. rewrite last_char_app by done. rewrite last_char_cons.
  pose proof (last_char_free _ _ Hs) as Hl. destruct (last_char d) as [x|] eqn:E.
  - by exists x.
  - destruct d as [|y d]; [done |]. rewrite last_char_cons in E. by destruct (last_char d).
Qed.

(** Pushing onto [a/d], with [d] a plain component, adds [/p]. *)
Lemma push_after_component a d p :
  d <> EmptyString -> char_free sep_char d = true -> is_absolute p = false ->
  push (a ++ String sep_char d) p = (a ++ String sep_char d) ++ String sep_char p.
Proof.
  intros Hd Hs Hp. destruct (last_char_component a d Hd Hs) as (c & Hc & Hsep).
  by apply (push_relative _ _ c).
Qed.

(** The parent of [a/n] is [a] when [a] does not end in a separator. *)
Lemma parent_component a n c :
  n <> EmptyString -> char_free sep_char n = true ->
  last_char a = Some c -> is_sep c = false ->
  parent (a ++ String sep_char n) = Some a.
Proof.
  intros Hn Hs Ha Hc. unfold parent.
  destruct (last_char_component a n Hn Hs) as (x & Hx & Hxs).
  rewrite strip_trailing_seps_id by (rewrite Hx; done).
  rewrite split_last_sep_app by done.
  rewrite strip_trailing_seps_id by (rewrite Ha; done).
  destruct a as [|y a]; [done |]. by destruct (String y a ++ String sep_char n).
Qed.

End PathModel.
