(* ===== verification/FileSystem.v ===== *)
(** * The file system, as far as [til] touches it

    State: the regular files (path to contents), the directories, and the
    set of operations the operating system refuses (a permission, a full
    disk, a read of invalid UTF-8): [(op, path)] in [fs_faults] makes that
    operation fail on that path.  The primitives are those [entry.rs] and
    [main.rs] call: [Path::exists], [fs::create_dir_all],
    [OpenOptions::new().append(true).create(true).open], [File::metadata]
    [.len()], [fs::read_to_string], [fs::write] and [write_all] on the
    append handle.  Each returns [Result<_, io::Error>]; the code maps
    every [io::Error] away with [map_err(|_| ...)], so the error carries
    nothing ([unit]).  A primitive refused before it touches the file
    changes nothing.  A write that fails part way ([write_all] running out
    of disk, say) leaves the bytes it got out: a proper prefix of its
    buffer, [fs_short] bytes long at most.  [fs::write] truncates the file
    ([File::create]) before it writes, so its failure can leave less than
    the file held before. *)
From stdpp Require Import base countable gmap strings.
From Stdlib Require Import String.
From S2P Require Import Prelude PathModel.

Inductive IoOp : Type :=
| OpCreateDir
| OpCreate
| OpOpen
| OpMetadata
| OpRead
| OpWrite
| OpAppend.

#[export] Instance IoOp_eq_dec : EqDecision IoOp.
Proof. solve_decision. Defined.

Definition IoOp_to_nat (o : IoOp) : nat :=
  match o with
  | OpCreateDir => 0 | OpOpen => 1 | OpMetadata => 2
  | OpRead => 3 | OpWrite => 4 | OpAppend => 5 | OpCreate => 6
  end.

Definition IoOp_of_nat (n : nat) : option IoOp :=
  match n with
  | 0 => Some OpCreateDir | 1 => Some OpOpen | 2 => Some OpMetadata
  | 3 => Some OpRead | 4 => Some OpWrite | 5 => Some OpAppend
  | 6 => Some OpCreate
  | _ => None
  end.

#[export] Instance IoOp_countable : Countable IoOp.
Proof. apply (inj_countable IoOp_to_nat IoOp_of_nat). by intros []. Defined.

Record FS : Type := mkFS {
  fs_files : gmap string string;
  fs_dirs : gset string;
  fs_faults : gset (IoOp * string);
  fs_short : nat
}.

(** What an operation may do to the rest of the system when it works on
    the file [po] (no file at all for [None]): files other than [po] keep
    their contents, directories are only added, and the refusals stay as
    they were. *)
Definition frame (po : option string) (s s' : FS) : Prop :=
  (forall q, po <> Some q -> fs_files s' !! q = fs_files s !! q)
  /\ fs_dirs s ⊆ fs_dirs s' /\ fs_faults s' = fs_faults s.

#[export] Instance frame_preorder po : PreOrder (frame po).
Proof.
  split.
  - intros s. split_and!; [done | set_solver | done].
  - intros s1 s2 s3 (F12 & D12 & E12) (F23 & D23 & E23). split_and!.
    + intros q Hq. rewrite F23, F12; done.
    + by trans (fs_dirs s2).
    + congruence.
Qed.

Module Fs.

Definition io (A : Type) : Type := st FS unit A.

Definition faulty (o : IoOp) (p : string) (s : FS) : bool :=
  bool_decide ((o, p) ∈ fs_faults s).

Definition is_dir (p : string) (s : FS) : bool := bool_decide (p ∈ fs_dirs s).
Definition is_file (p : string) (s : FS) : bool := bool_decide (is_Some (fs_files s !! p)).

Definition set_file (p c : string) (s : FS) : FS :=
  mkFS (<[p := c]> (fs_files s)) (fs_dirs s) (fs_faults s) (fs_short s).

(** The directory a file is created in must exist. *)
Definition parent_is_dir (p : string) (s : FS) : bool :=
  match PathModel.parent p with
  | Some d => is_dir d s
  | None => false
  end.

(** [Path::exists]: a file or a directory. *)
Definition exists_ (p : string) (s : FS) : bool := is_dir p s || is_file p s.

(** The path itself and every proper prefix that ends before a separator. *)
Fixpoint ancestors_go (acc s : string) : list string :=
  match s with
  | EmptyString => []
  | String c s' =>
      let acc' := acc ++ String c EmptyString in
      if PathModel.is_sep c then
        (if String.eqb acc EmptyString then [] else [acc]) ++ ancestors_go acc' s'
      else ancestors_go acc' s'
  end.

Definition ancestors (d : string) : list string := ancestors_go EmptyString d ++ [d].

(** [fs::create_dir_all]: the empty path is done; a regular file on the
    way is an error; otherwise every missing directory is created. *)
Definition create_dir_all (d : string) : io unit := fun s =>
  match d with
  | EmptyString => (s, Ok tt)
  | _ =>
      if faulty OpCreateDir d s || existsb (fun a => is_file a s) (ancestors d)
      then (s, Err tt)
      else (mkFS (fs_files s) (list_to_set (ancestors d) ∪ fs_dirs s) (fs_faults s) (fs_short s), Ok tt)
  end.

(** [OpenOptions::new().append(true).create(true).open(p)]: refuses a
    directory and a path whose parent is no directory; creates an empty
    file when there is none. *)
Definition open_append_create (p : string) : io unit := fun s =>
  if faulty OpOpen p s || is_dir p s || negb (parent_is_dir p s) then (s, Err tt)
  else match fs_files s !! p with
       | Some _ => (s, Ok tt)
       | None => (set_file p EmptyString s, Ok tt)
       end.

(** [file.metadata()?.len()] on the open handle. *)
Definition metadata_len (p : string) : io nat := fun s =>
  if faulty OpMetadata p s then (s, Err tt)
  else match fs_files s !! p with
       | Some c => (s, Ok (String.length c))
       | None => (s, Err tt)
       end.

(** [fs::read_to_string] *)
Definition read_to_string (p : string) : io string := fun s =>
  if faulty OpRead p s then (s, Err tt)
  else match fs_files s !! p with
       | Some c => (s, Ok c)
       | None => (s, Err tt)
       end.

(** What a [write_all] of [c] that fails gets out: a proper prefix of
    [c], of at most [n] bytes.  An empty buffer is written at once. *)
Definition short_prefix (n : nat) (c : string) : string :=
  substring 0 (Nat.min n (String.length c - 1)) c.

(** A [write_all] of [c] on [p] fails. *)
Definition write_fails (o : IoOp) (p c : string) (s : FS) : bool :=
  faulty o p s && negb (String.eqb c EmptyString).

(** [fs::write]: [File::create] (refused on a directory, in a missing
    directory, or by the system), which creates or truncates the file,
    then [write_all] of the whole contents. *)
Definition write (p c : string) : io unit := fun s =>
  if faulty OpCreate p s || is_dir p s || negb (parent_is_dir p s) then (s, Err tt)
  else if write_fails OpWrite p c s then (set_file p (short_prefix (fs_short s) c) s, Err tt)
  else (set_file p c s, Ok tt).

(** [file.write_all(bytes)] on a handle opened in append mode: the bytes
    go to the current end of the file. *)
Definition write_all (p c : string) : io unit := fun s =>
  match fs_files s !! p with
  | Some old =>
      if write_fails OpAppend p c s then (set_file p (old ++ short_prefix (fs_short s) c) s, Err tt)
      else (set_file p (old ++ c) s, Ok tt)
  | None => (s, Err tt)
  end.

(** ** The primitives on a path the system does not refuse *)

Definition all_ops : list IoOp := [OpCreateDir; OpCreate; OpOpen; OpMetadata; OpRead; OpWrite; OpAppend].

(** No operation on [p] is refused. *)
Definition quiet (p : string) (s : FS) : bool := forallb (fun o => negb (faulty o p s)) all_ops.

(** A file system the code can meet: every file sits in a directory,
    and no path is both a file and a directory. *)
Definition wf (s : FS) : Prop :=
  (forall p c, fs_files s !! p = Some c -> parent_is_dir p s = true)
  /\ (forall p, is_file p s = true -> is_dir p s = false).

(** A computation keeps the file system well formed. *)
Definition keeps_wf (s s' : FS) : Prop := wf s -> wf s'.

Lemma faulty_quiet o p s : quiet p s = true -> faulty o p s = false.
Proof.
  unfold quiet. intros H. apply forallb_forall with (x := o) in H; [| destruct o; simpl; tauto].
  by apply negb_true_iff.
Qed.

Lemma set_file_lookup p c s : fs_files (set_file p c s) !! p = Some c.
Proof. apply lookup_insert_eq. Qed.

Lemma set_file_lookup_ne p q c s : p <> q -> fs_files (set_file p c s) !! q = fs_files s !! q.
Proof. intros H. by apply lookup_insert_ne. Qed.

Lemma set_file_set_file p c c' s : set_file p c (set_file p c' s) = set_file p c s.
Proof. unfold set_file. simpl. by rewrite insert_insert_eq. Qed.

Lemma set_file_id p c s : fs_files s !! p = Some c -> set_file p c s = s.
Proof. intros H. unfold set_file. rewrite insert_id by done. by destruct s. Qed.

Lemma faulty_set_file o p q c s : faulty o p (set_file q c s) = faulty o p s.
Proof. done. Qed.

Lemma quiet_set_file p q c s : quiet p (set_file q c s) = quiet p s.
Proof. done. Qed.

Lemma parent_is_dir_set_file p q c s : parent_is_dir p (set_file q c s) = parent_is_dir p s.
Proof. done. Qed.

Lemma is_dir_set_file p q c s : is_dir p (set_file q c s) = is_dir p s.
Proof. done. Qed.

Lemma open_append_create_quiet p s :
  quiet p s = true -> is_dir p s = false -> parent_is_dir p s = true ->
  open_append_create p s =
    (match fs_files s !! p with Some _ => s | None => set_file p EmptyString s end, Ok tt).
Proof.
  intros Hq Hd Hp. unfold open_append_create.
  rewrite faulty_quiet, Hp, Hd by done. simpl. by destruct (fs_files s !! p).
Qed.

Lemma metadata_len_quiet p c s :
  quiet p s = true -> fs_files s !! p = Some c -> metadata_len p s = (s, Ok (String.length c)).
Proof. intros Hq Hc. unfold metadata_len. by rewrite faulty_quiet, Hc. Qed.

Lemma read_to_string_quiet p c s :
  quiet p s = true -> fs_files s !! p = Some c -> read_to_string p s = (s, Ok c).
Proof. intros Hq Hc. unfold read_to_string. by rewrite faulty_quiet, Hc. Qed.

Lemma write_fails_quiet o p c s : quiet p s = true -> write_fails o p c s = false.
Proof. intros Hq. unfold write_fails. by rewrite faulty_quiet. Qed.

Lemma write_quiet p c s :
  quiet p s = true -> is_dir p s = false -> parent_is_dir p s = true -> write p c s = (set_file p c s, Ok tt).
Proof.
  intros Hq Hd Hp. unfold write. by rewrite faulty_quiet, Hp, Hd, write_fails_quiet.
Qed.

Lemma write_all_quiet p old c s :
  quiet p s = true -> fs_files s !! p = Some old -> write_all p c s = (set_file p (old ++ c) s, Ok tt).
Proof. intros Hq Hc. unfold write_all. by rewrite Hc, write_fails_quiet. Qed.

(** Appending right after setting the contents. *)
Lemma write_all_set_file p old c s :
  quiet p s = true -> write_all p c (set_file p old s) = (set_file p (old ++ c) s, Ok tt).
Proof.
  intros Hq. rewrite (write_all_quiet p old) by (done || apply set_file_lookup).
  by rewrite set_file_set_file.
Qed.

(** Reading changes nothing. *)
Lemma read_to_string_state p s : fst (read_to_string p s) = s.
Proof. unfold read_to_string. by repeat case_match. Qed.

(** A failed [fs::write] either changed nothing ([File::create] was
    refused) or left a proper prefix of the new contents. *)
Lemma write_err_state p c s s' :
  write p c s = (s', Err tt) -> s' = s \/ s' = set_file p (short_prefix (fs_short s) c) s.
Proof. unfold write. repeat case_match; intros [= <-]; auto. Qed.

(** ** Frame conditions of the primitives *)

Lemma frame_set_file p c s : frame (Some p) s (set_file p c s).
Proof.
  split_and!; [| done | done]. intros q Hq. apply set_file_lookup_ne. congruence.
Qed.

Lemma frame_none_any po s s' : frame None s s' -> frame po s s'.
Proof. intros (F & D & E). split_and!; [| done | done]. intros q _. by apply F. Qed.

(** An operation that changes nothing. *)
Lemma st_preserves_readonly {A} po (m : io A) :
  (forall s, fst (m s) = s) -> st_preserves (frame po) m.
Proof. intros H s. rewrite H. reflexivity. Qed.

Lemma create_dir_all_frame d : st_preserves (frame None) (create_dir_all d).
Proof.
  intros s. unfold create_dir_all. destruct d; [reflexivity |].
  case_match; simpl; [reflexivity |]. split_and!; [done | set_solver | done].
Qed.

Lemma open_append_create_frame p : st_preserves (frame (Some p)) (open_append_create p).
Proof.
  intros s. unfold open_append_create. case_match; [reflexivity |].
  case_match; [reflexivity | apply frame_set_file].
Qed.

Lemma metadata_len_frame po p : st_preserves (frame po) (metadata_len p).
Proof. apply st_preserves_readonly. intros s. unfold metadata_len. by repeat case_match. Qed.

Lemma read_to_string_frame po p : st_preserves (frame po) (read_to_string p).
Proof. apply st_preserves_readonly, read_to_string_state. Qed.

Lemma write_frame p c : st_preserves (frame (Some p)) (write p c).
Proof. intros s. unfold write. repeat case_match; (reflexivity || apply frame_set_file). Qed.

Lemma write_all_frame p c : st_preserves (frame (Some p)) (write_all p c).
Proof. intros s. unfold write_all. repeat case_match; (reflexivity || apply frame_set_file). Qed.

End Fs.

#[export] Instance keeps_wf_preorder : PreOrder Fs.keeps_wf.
Proof. unfold Fs.keeps_wf. split; [intros s H; exact H | intros s1 s2 s3 H12 H23 H; auto]. Qed.

(** ** Every primitive keeps the file system well formed *)

Lemma parent_is_dir_mono p s s' :
  fs_dirs s ⊆ fs_dirs s' -> Fs.parent_is_dir p s = true -> Fs.parent_is_dir p s' = true.
Proof.
  intros Hd. unfold Fs.parent_is_dir, Fs.is_dir. case_match; [| done].
  rewrite !bool_decide_eq_true. set_solver.
Qed.

Lemma wf_set_file p c s :
  Fs.wf s -> Fs.parent_is_dir p s = true -> Fs.is_dir p s = false -> Fs.wf (Fs.set_file p c s).
Proof.
  intros [Hpar Hdis] Hp Hd. split.
  - intros q c'. rewrite Fs.parent_is_dir_set_file.
    destruct (decide (p = q)) as [<-|Hne]; [done |].
    rewrite Fs.set_file_lookup_ne by done. apply Hpar.
  - intros q. rewrite Fs.is_dir_set_file. destruct (decide (p = q)) as [<-|Hne]; [done |].
    unfold Fs.is_file. rewrite Fs.set_file_lookup_ne by done. apply Hdis.
Qed.

Lemma wf_no_files dirs faults n : Fs.wf (mkFS ∅ dirs faults n).
Proof.
  split; [intros p c; simpl; by rewrite lookup_empty |].
  intros p. unfold Fs.is_file. simpl. rewrite lookup_empty.
  intros [x Hx]%bool_decide_eq_true. discriminate.
Qed.

Lemma wf_readonly {A} (m : Fs.io A) : (forall s, fst (m s) = s) -> st_preserves Fs.keeps_wf m.
Proof. intros H s. rewrite H. reflexivity. Qed.

Lemma open_append_create_wf p : st_preserves Fs.keeps_wf (Fs.open_append_create p).
Proof.
  intros s Hwf. unfold Fs.open_append_create.
  destruct (Fs.faulty OpOpen p s || Fs.is_dir p s || negb (Fs.parent_is_dir p s)) eqn:E; [done |].
  apply orb_false_iff in E as [[_ Hd]%orb_false_iff Hp%negb_false_iff].
  case_match; [done |]. by apply wf_set_file.
Qed.

Lemma write_wf p c : st_preserves Fs.keeps_wf (Fs.write p c).
Proof.
  intros s Hwf. unfold Fs.write.
  destruct (Fs.faulty OpCreate p s || Fs.is_dir p s || negb (Fs.parent_is_dir p s)) eqn:E; [done |].
  apply orb_false_iff in E as [[_ Hd]%orb_false_iff Hp%negb_false_iff].
  case_match; by apply wf_set_file.
Qed.

Lemma write_all_wf p c : st_preserves Fs.keeps_wf (Fs.write_all p c).
Proof.
  intros s Hwf. unfold Fs.write_all.
  destruct (fs_files s !! p) as [old|] eqn:Hold; [| done].
  assert (Hd : Fs.is_dir p s = false).
  { apply (proj2 Hwf). unfold Fs.is_file. rewrite Hold. by apply bool_decide_eq_true. }
  case_match; (apply wf_set_file; [done | by apply (proj1 Hwf p old) | done]).
Qed.

Lemma metadata_len_wf p : st_preserves Fs.keeps_wf (Fs.metadata_len p).
Proof. apply wf_readonly. intros s. unfold Fs.metadata_len. by repeat case_match. Qed.

Lemma read_to_string_wf p : st_preserves Fs.keeps_wf (Fs.read_to_string p).
Proof. apply wf_readonly, Fs.read_to_string_state. Qed.

Lemma create_dir_all_wf d : st_preserves Fs.keeps_wf (Fs.create_dir_all d).
Proof.
  intros s [Hpar Hdis]. unfold Fs.create_dir_all. destruct d as [|x d]; [done |].
  destruct (_ || _) eqn:E; [done |]. apply orb_false_iff in E as [_ Hanc].
  simpl. split.
  - intros q c Hq. eapply parent_is_dir_mono; [| by apply (Hpar q c)]. simpl. set_solver.
  - intros q Hf. unfold Fs.is_dir. simpl. apply bool_decide_eq_false.
    intros [Ha%elem_of_list_to_set|Hq]%elem_of_union.
    + assert (existsb (fun a => Fs.is_file a s) (Fs.ancestors (String x d)) = true) as Hc.
      { apply existsb_exists. exists q. split; [by apply list_elem_of_In | done]. }
      by rewrite Hc in Hanc.
    + specialize (Hdis q Hf). unfold Fs.is_dir in Hdis. by apply bool_decide_eq_false in Hdis.
Qed.

#[export] Hint Resolve open_append_create_wf write_wf write_all_wf metadata_len_wf read_to_string_wf
  create_dir_all_wf : til.

#[export] Hint Resolve Fs.open_append_create_frame Fs.metadata_len_frame Fs.read_to_string_frame
  Fs.write_frame Fs.write_all_frame : til.
