(* ===== verification/DateFormat.v ===== *)
(** * The date in the note path

    [entry.rs] names the day directory [format!("{:02}-{:02}-{}", month,
    day, year)]; [main.rs] uses [format!("{}-{}-{}", ...)].  [month()] and
    [day()] of a [chrono] date are [u32] in [1..=12] and [1..=31];
    [year()] is an [i32], printed with a minus sign when negative.
    Numbers are printed with the Standard Library's decimal conversion.
    [parse_date] reads either layout back; the round trips show that each
    layout names distinct days by distinct strings. *)
From stdpp Require Import base tactics.
From Stdlib Require Import Ascii String ZArith Lia DecimalString DecimalNat.
From S2P Require Import Prelude.

Module DateFormat.

(** The three fields of [Local::now()] the code reads. *)
Record Date : Type := mkDate { year : Z; month : nat; day : nat }.

(** The ranges [chrono] guarantees. *)
Definition valid_date (d : Date) : Prop :=
  1 <= month d <= 12 /\ 1 <= day d <= 31.

#[export] Instance valid_date_dec d : Decision (valid_date d).
Proof. unfold valid_date. apply _. Defined.

(** [{}] on an unsigned integer. *)
Definition fmt_u (n : nat) : string := NilEmpty.string_of_uint (Nat.to_uint n).

(** [{:02}]: at least two digits, zero-filled. *)
Definition fmt_02 (n : nat) : string :=
  if Nat.ltb n 10 then String "0"%char (fmt_u n) else fmt_u n.

(** [{}] on an [i32]. *)
Definition fmt_i (z : Z) : string :=
  if Z.ltb z 0 then String "-"%char (fmt_u (Z.to_nat (- z))) else fmt_u (Z.to_nat z).

Definition dash : string := String "-"%char EmptyString.

(** [entry.rs]: [format!("{:02}-{:02}-{}", time.month(), time.day(), time.year())] *)
Definition date_padded (d : Date) : string :=
  fmt_02 (month d) ++ dash ++ fmt_02 (day d) ++ dash ++ fmt_i (year d).

(** [main.rs]: [format!("{}-{}-{}", time.month(), time.day(), time.year())] *)
Definition date_unpadded (d : Date) : string :=
  fmt_u (month d) ++ dash ++ fmt_u (day d) ++ dash ++ fmt_i (year d).

(** A reader for both layouts. *)
Definition parse_u (s : string) : option nat :=
  option_map Nat.of_uint (NilEmpty.uint_of_string s).

Definition parse_i (s : string) : option Z :=
  match s with
  | String c r =>
      if Ascii.eqb c "-"%char then option_map (fun n => Z.opp (Z.of_nat n)) (parse_u r)
      else option_map Z.of_nat (parse_u s)
  | EmptyString => option_map Z.of_nat (parse_u s)
  end.

Definition parse_date (s : string) : option Date :=
  match Str.split_once dash s with
  | Some (m, rest) =>
      match Str.split_once dash rest with
      | Some (dd, y) =>
          match parse_u m, parse_u dd, parse_i y with
          | Some m', Some d', Some y' => Some (mkDate y' m' d')
          | _, _, _ => None
          end
      | None => None
      end
  | None => None
  end.


(** ** Printing and reading back *)

Lemma string_of_uint_no_dash (u : Decimal.uint) :
  char_free "-"%char (NilEmpty.string_of_uint u) = true.
Proof. induction u; simpl; auto. Qed.

Lemma string_of_uint_no_slash (u : Decimal.uint) :
  char_free "/"%char (NilEmpty.string_of_uint u) = true.
Proof. induction u; simpl; auto. Qed.

(** The day name is one path component. *)
Lemma date_padded_no_slash d : char_free "/"%char (date_padded d) = true.
Proof.
  unfold date_padded, fmt_02, fmt_i, fmt_u, dash.
  repeat case_match; rewrite !char_free_app; simpl; by rewrite ?string_of_uint_no_slash.
Qed.

Lemma date_padded_nonempty d : date_padded d <> EmptyString.
Proof.
  unfold date_padded. intros H. apply (f_equal String.length) in H.
  rewrite !length_append_str in H. simpl in H. lia.
Qed.

Lemma fmt_u_no_dash n : char_free "-"%char (fmt_u n) = true.
Proof. apply string_of_uint_no_dash. Qed.

Lemma fmt_02_no_dash n : char_free "-"%char (fmt_02 n) = true.
Proof. unfold fmt_02. case_match; simpl; apply fmt_u_no_dash. Qed.

Lemma fmt_i_no_dash_tail z :
  exists t, char_free "-"%char t = true /\ (fmt_i z = t \/ fmt_i z = String "-"%char t).
Proof.
  unfold fmt_i. destruct (Z.ltb z 0); eexists; split; eauto using fmt_u_no_dash.
Qed.

Lemma parse_u_fmt_u n : parse_u (fmt_u n) = Some n.
Proof. unfold parse_u, fmt_u. rewrite NilEmpty.usu. simpl. by rewrite Unsigned.of_to. Qed.

Lemma parse_u_fmt_02 n : parse_u (fmt_02 n) = Some n.
Proof.
  unfold fmt_02. case_match; [| apply parse_u_fmt_u].
  unfold parse_u, fmt_u.
  change (String "0"%char (NilEmpty.string_of_uint (Nat.to_uint n)))
    with (NilEmpty.string_of_uint (Decimal.D0 (Nat.to_uint n))).
  rewrite NilEmpty.usu. simpl. by rewrite <- (Unsigned.of_to n) at 2.
Qed.

Lemma parse_i_unsigned s :
  char_free "-"%char s = true -> parse_i s = option_map Z.of_nat (parse_u s).
Proof. destruct s as [|c s]; simpl; [done |]. by intros [->%negb_true_iff _]%andb_prop. Qed.

Lemma parse_i_fmt_i z : parse_i (fmt_i z) = Some z.
Proof.
  unfold fmt_i. destruct (Z.ltb_spec z 0).
  - simpl. rewrite parse_u_fmt_u. simpl. f_equal. lia.
  - rewrite parse_i_unsigned by apply fmt_u_no_dash.
    rewrite parse_u_fmt_u. simpl. f_equal. lia.
Qed.

Lemma parse_date_fields (fm fd : nat -> string) (d : Date) :
  (forall n, char_free "-"%char (fm n) = true) ->
  (forall n, char_free "-"%char (fd n) = true) ->
  (forall n, parse_u (fm n) = Some n) -> (forall n, parse_u (fd n) = Some n) ->
  parse_date (fm (month d) ++ dash ++ fd (day d) ++ dash ++ fmt_i (year d)) = Some d.
Proof.
  intros Hm Hd Pm Pd. unfold parse_date, dash. cbn [String.append].
  rewrite !split_once_char by auto.
  rewrite Pm, Pd, parse_i_fmt_i. by destruct d.
Qed.

(** ** Width of the day name *)

Lemma fmt_02_length n : n < 100 -> String.length (fmt_02 n) = 2.
Proof.
  intros H. apply Nat.eqb_eq.
  apply (forallb_seq (fun n => Nat.eqb (String.length (fmt_02 n)) 2) 0 100); [by vm_compute | lia].
Qed.

Lemma fmt_i_length y : (1000 <= y <= 9999)%Z -> String.length (fmt_i y) = 4.
Proof.
  intros H. unfold fmt_i. rewrite (proj2 (Z.ltb_ge y 0)) by lia. apply Nat.eqb_eq.
  apply (forallb_seq (fun n => Nat.eqb (String.length (fmt_u n)) 4) 1000 (Z.to_nat 9000));
    [by vm_compute | lia].
Qed.

Lemma get_dash_after (a r : string) : String.get (String.length a) (a ++ dash ++ r) = Some "-"%char.
Proof. rewrite <- (Nat.add_0_l (String.length a)), <- append_correct2. reflexivity. Qed.

(** Claim C34: for a [chrono] date with a four-digit year, the
    [entry.rs] day name is ten bytes [MM-DD-YYYY], its dashes at bytes 2
    and 5. *)
Theorem date_padded_width d :
  valid_date d -> (1000 <= year d <= 9999)%Z ->
  String.length (date_padded d) = 10 /\ String.get 2 (date_padded d) = Some "-"%char
  /\ String.get 5 (date_padded d) = Some "-"%char.
Proof.
  intros [Hm Hd] Hy. unfold date_padded.
  pose proof (fmt_02_length (month d) ltac:(lia)) as Lm.
  pose proof (fmt_02_length (day d) ltac:(lia)) as Ld.
  split_and!.
  - rewrite !length_append_str, Lm, Ld, fmt_i_length by done. reflexivity.
  - rewrite <- Lm. apply get_dash_after.
  - rewrite <- (append_assoc_str (fmt_02 (month d)) dash).
    replace 5 with (2 + String.length (fmt_02 (month d) ++ dash))
      by (rewrite length_append_str, Lm; reflexivity).
    rewrite <- append_correct2, <- Ld. apply get_dash_after.
Qed.

Lemma date_padded_width_witness :
  valid_date (mkDate 2024 3 7) /\ (1000 <= year (mkDate 2024 3 7) <= 9999)%Z
  /\ String.length (date_padded (mkDate 2024 3 7)) = 10.
Proof.
  assert (Hv : valid_date (mkDate 2024 3 7)) by (unfold valid_date; simpl; lia).
  assert (Hy : (1000 <= year (mkDate 2024 3 7) <= 9999)%Z) by (simpl; lia).
  refine (conj Hv (conj Hy _)). apply (date_padded_width _ Hv Hy).
Defined.

Lemma length_fmt_02 n :
  String.length (fmt_02 n) = (if Nat.ltb n 10 then 1 else 0) + String.length (fmt_u n).
Proof. unfold fmt_02. by destruct (Nat.ltb n 10). Qed.

Lemma date_padded_inj d1 d2 : date_padded d1 = date_padded d2 -> d1 = d2.
Proof.
  intros H. apply (f_equal parse_date) in H. unfold date_padded in H.
  rewrite !(parse_date_fields fmt_02 fmt_02) in H; auto using fmt_02_no_dash, parse_u_fmt_02.
  congruence.
Qed.

(** Claim C26: the zero-padded day name of [entry.rs] reads back as the
    date it was made from, so distinct days get distinct directories. *)
Theorem date_padded_roundtrip d : parse_date (date_padded d) = Some d.
Proof. apply parse_date_fields; auto using fmt_02_no_dash, fmt_u_no_dash, parse_u_fmt_02. Qed.

(** Claim C27: the unpadded day name of [main.rs] reads back as well. *)
Theorem date_unpadded_roundtrip d : parse_date (date_unpadded d) = Some d.
Proof. apply parse_date_fields; auto using fmt_u_no_dash, parse_u_fmt_u. Qed.

(** Claim C28: the two code paths name the same day alike only when month
    and day both have two digits: from January to September, and on the
    first nine days of every month, [entry.rs] and [main.rs] write to
    different directories. *)
Theorem padded_unpadded_agree d :
  date_padded d = date_unpadded d <-> 10 <= month d /\ 10 <= day d.
Proof.
  unfold date_padded, date_unpadded. split.
  - intros H. apply (f_equal String.length) in H.
    rewrite !length_append_str, !length_fmt_02 in H.
    destruct (Nat.ltb_spec (month d) 10), (Nat.ltb_spec (day d) 10); lia.
  - intros [Hm Hd]. unfold fmt_02.
    by rewrite (proj2 (Nat.ltb_ge _ _) Hm), (proj2 (Nat.ltb_ge _ _) Hd).
Qed.

(** The year is printed with [{}], not four digits: before year 1000 the
    day name is shorter, from year 10000 longer. *)
Remark date_padded_year_width :
  date_padded (mkDate 999 1 2) = "01-02-999" /\ date_padded (mkDate 10000 1 2) = "01-02-10000"%string.
Proof. split; reflexivity. Qed.

End DateFormat.
