(* ===== verification/PathResolver.v ===== *)
(** * The path resolver

    [find_root_dir] ([main.rs]) joins the home directory and
    [.til/notes]; [Entry::build_path] ([entry.rs]) joins the root, the
    zero-padded date and [default], sets the extension [md], and creates
    the parent directory when it does not exist.  The older
    [Entry::build_path] of [main.rs] does the same with the unpadded date
    and the user-supplied title in place of [default].  The environment
    the code reads ([dirs::home_dir()], [Local::now()]) is a record. *)
From stdpp Require Import base tactics gmap.
From Stdlib Require Import Ascii String.
From S2P Require Import Prelude Errors PathModel FileSystem DateFormat.

Import DateFormat.

(** What the process reads from its surroundings. *)
Record Env : Type := mkEnv {
  env_home : option string;   (** [dirs::home_dir()] *)
  env_now : Date              (** [Local::now()] *)
}.

(** A home directory, a date and a file system with the day directory in
    place, for the concrete runs of the examples. *)
Definition example_env : Env := mkEnv (Some "/home/ana") (mkDate 2024 3 7).
Definition example_dirs : list string :=
  ["/home"; "/home/ana"; "/home/ana/.til"; "/home/ana/.til/notes"; "/home/ana/.til/notes/03-07-2024"].
Definition example_fs : FS := mkFS ∅ (list_to_set example_dirs) ∅ 0.
Definition example_day : string := "/home/ana/.til/notes/03-07-2024/default.md".

Module PathResolver.

Local Open Scope til_scope.

(** [const PATH_FROM_ROOT: &str = ".til/notes";] *)
Definition PATH_FROM_ROOT : string := ".til/notes".

(** [fn find_root_dir() -> Option<PathBuf>] *)
Definition find_root_dir (env : Env) : option string :=
  match env_home env with
  | Some home => Some (PathModel.join home PATH_FROM_ROOT)
  | None => None
  end.

(** The parent directory of [path] is created unless something (a
    directory or a file) already exists there. *)
Definition ensure_parent (path : string) : st FS Error string :=
  directory <- st_lift (ok_or (PathModel.parent path) (CannotFindDir "parent")) ;;
  s <- st_get ;;
  (if Fs.exists_ directory s then st_ret tt
   else st_map_err (fun _ => CannotCreateDir path) (Fs.create_dir_all directory)) ;;
  st_ret path.

(** The file name of a note: [root/date/name.md]. *)
Definition note_file (root date name : string) : string :=
  PathModel.set_extension (PathModel.join (PathModel.join root date) name) "md".

(** [entry.rs]: [fn build_path(&self) -> Result<PathBuf>] *)
Definition build_path (env : Env) : st FS Error string :=
  let date := date_padded (env_now env) in
  root_dir <- st_lift (ok_or (find_root_dir env) (CannotFindDir "root")) ;;
  ensure_parent (note_file root_dir date "default").

(** [main.rs]: [fn build_path(&self) -> Result<PathBuf>] of the older
    [Entry], whose file is named by its [title] field. *)
Definition build_path_legacy (env : Env) (title : string) : st FS Error string :=
  let date := date_unpadded (env_now env) in
  root_dir <- st_lift (ok_or (find_root_dir env) (CannotFindDir "root")) ;;
  ensure_parent (note_file root_dir date title).

(** The file [build_path] names for this environment, if any. *)
Definition day_path (env : Env) : option string :=
  match find_root_dir env with
  | Some root => Some (note_file root (date_padded (env_now env)) "default")
  | None => None
  end.

(** The file the older [build_path] of [main.rs] names. *)
Definition legacy_path (env : Env) (title : string) : option string :=
  match find_root_dir env with
  | Some root => Some (note_file root (date_unpadded (env_now env)) title)
  | None => None
  end.

(** When something exists where the day directory goes, [build_path]
    changes nothing and returns the day file. *)
Lemma ensure_parent_existing path d s :
  PathModel.parent path = Some d -> Fs.exists_ d s = true -> ensure_parent path s = (s, Ok path).
Proof.
  intros Hd He. unfold ensure_parent, st_bind, st_lift, ok_or, st_get, st_ret.
  by rewrite Hd, He.
Qed.

Lemma build_path_existing env p d s :
  day_path env = Some p -> PathModel.parent p = Some d -> Fs.exists_ d s = true ->
  build_path env s = (s, Ok p).
Proof.
  unfold day_path, build_path. destruct (find_root_dir env) as [root|]; [| done].
  intros [= <-] Hd He. by apply ensure_parent_existing with d.
Qed.

Lemma build_path_ready env p s :
  day_path env = Some p -> Fs.parent_is_dir p s = true -> build_path env s = (s, Ok p).
Proof.
  intros Hp Hd. unfold Fs.parent_is_dir in Hd.
  destruct (PathModel.parent p) as [d|] eqn:E; [| done].
  apply (build_path_existing _ _ d); [done | done |]. unfold Fs.exists_. by rewrite Hd.
Qed.

(** ** What [build_path] may change, and what it returns *)

Lemma ensure_parent_frame path : st_preserves (frame None) (ensure_parent path).
Proof.
  unfold ensure_parent. apply (st_preserves_bind _); [solve_preserves | intros d].
  apply (st_preserves_bind _); [solve_preserves | intros s].
  apply (st_preserves_bind _); [| solve_preserves].
  destruct (Fs.exists_ d s); eauto using Fs.create_dir_all_frame with til.
Qed.

Lemma build_path_frame env : st_preserves (frame None) (build_path env).
Proof. unfold build_path. eauto 20 using ensure_parent_frame with til. Qed.

Lemma build_path_legacy_frame env title : st_preserves (frame None) (build_path_legacy env title).
Proof. unfold build_path_legacy. eauto 20 using ensure_parent_frame with til. Qed.

Lemma ensure_parent_wf path : st_preserves Fs.keeps_wf (ensure_parent path).
Proof.
  unfold ensure_parent. apply (st_preserves_bind _); [solve_preserves | intros d].
  apply (st_preserves_bind _); [solve_preserves | intros s].
  apply (st_preserves_bind _); [| solve_preserves].
  destruct (Fs.exists_ d s); solve_preserves.
Qed.

#[local] Hint Resolve ensure_parent_frame ensure_parent_wf : til.

Lemma build_path_wf env : st_preserves Fs.keeps_wf (build_path env).
Proof. unfold build_path. solve_preserves. Qed.

Lemma build_path_legacy_wf env title : st_preserves Fs.keeps_wf (build_path_legacy env title).
Proof. unfold build_path_legacy. solve_preserves. Qed.

Lemma ensure_parent_ok path s s' p : ensure_parent path s = (s', Ok p) -> p = path.
Proof. unfold ensure_parent, st_bind, st_lift, st_get, st_ret, st_map_err. repeat case_match; congruence. Qed.

(** A path [build_path] returns is the day file. *)
Lemma build_path_ok env s s' p : build_path env s = (s', Ok p) -> day_path env = Some p.
Proof.
  unfold build_path, day_path, st_bind, st_lift, ok_or.
  destruct (find_root_dir env); [| done]. by intros ->%ensure_parent_ok.
Qed.

Lemma build_path_legacy_ok env title s s' p :
  build_path_legacy env title s = (s', Ok p) -> legacy_path env title = Some p.
Proof.
  unfold build_path_legacy, legacy_path, st_bind, st_lift, ok_or.
  destruct (find_root_dir env); [| done]. by intros ->%ensure_parent_ok.
Qed.

(** ** Where the day file is *)

Lemma find_root_dir_last env root : find_root_dir env = Some root -> last_char root = Some "s"%char.
Proof.
  unfold find_root_dir. destruct (env_home env) as [home|]; [| done]. intros [= <-].
  unfold PathModel.join, PathModel.push.
  change (PathModel.is_absolute PATH_FROM_ROOT) with false. cbv iota.
  destruct (last_char home) as [c|]; [destruct (PathModel.is_sep c)|];
    rewrite last_char_app; done.
Qed.

(** The day file is [root/MM-DD-YYYY/default.md], and its directory is
    [root/MM-DD-YYYY]. *)
Lemma day_path_shape env p :
  day_path env = Some p ->
  exists root, find_root_dir env = Some root /\
    p = (root ++ String "/"%char (date_padded (env_now env))) ++ String "/"%char "default.md" /\
    PathModel.parent p = Some (root ++ String "/"%char (date_padded (env_now env))).
Proof.
  unfold day_path. destruct (find_root_dir env) as [root|] eqn:Hr; [| done]. intros [= <-].
  exists root. split; [done |]. unfold note_file, PathModel.join.
  pose proof (date_padded_no_slash (env_now env)) as Hs.
  pose proof (date_padded_nonempty (env_now env)) as Hn.
  rewrite (PathModel.push_relative root _ "s"%char) by
    (by apply PathModel.is_absolute_free || by apply (find_root_dir_last env) || done).
  rewrite PathModel.push_after_component by done.
  rewrite PathModel.set_extension_plain by done.
  split; [done |].
  destruct (PathModel.last_char_component root _ Hn Hs) as (c & Hc & Hsep).
  by apply (PathModel.parent_component _ _ c).
Qed.

(** Claim C24: for one home directory, the day file determines the day:
    notes of different days never share a file. *)
Theorem day_path_date_injective env1 env2 p :
  env_home env1 = env_home env2 -> day_path env1 = Some p -> day_path env2 = Some p ->
  env_now env1 = env_now env2.
Proof.
  intros Hh H1 H2.
  destruct (day_path_shape _ _ H1) as (r1 & Hr1 & E1 & _).
  destruct (day_path_shape _ _ H2) as (r2 & Hr2 & E2 & _).
  unfold find_root_dir in Hr1, Hr2. rewrite Hh, Hr2 in Hr1. injection Hr1 as <-.
  rewrite E1 in E2. apply append_cancel_r, append_cancel_l in E2. injection E2 as E2.
  by apply date_padded_inj.
Qed.

Lemma elem_of_ancestors d : d ∈ Fs.ancestors d.
Proof. unfold Fs.ancestors. set_solver. Qed.

(** Claim C25: when [build_path] succeeds it returns the day file, and
    the file's directory exists afterwards (created with its ancestors
    when it was missing). *)
Theorem build_path_day_dir env s :
  match build_path env s with
  | (s', Ok p) => day_path env = Some p /\ exists d, PathModel.parent p = Some d /\ Fs.exists_ d s' = true
  | (_, Err _) => True
  end.
Proof.
  destruct (build_path env s) as [s' [p|]] eqn:Hb; [| done]. revert Hb.
  destruct (day_path env) as [q|] eqn:Hq.
  - destruct (day_path_shape _ _ Hq) as (root & Hr & _ & Hd).
    unfold build_path, ensure_parent, st_bind, st_lift, ok_or, st_get, st_ret, st_map_err.
    unfold day_path in Hq. rewrite Hr in Hq |- *. injection Hq as <-. cbv zeta. rewrite Hd.
    destruct (Fs.exists_ _ s) eqn:He.
    + intros [= <- <-]. eauto.
    + unfold Fs.create_dir_all. destruct (root ++ _) eqn:E.
      { by destruct root. }
      rewrite <- E. destruct (_ || _); [by intros [=] |]. intros [= <- <-]. split; [done |].
      exists (root ++ String "/"%char (date_padded (env_now env))).
      split; [by rewrite Hd, E |]. unfold Fs.exists_, Fs.is_dir. simpl.
      rewrite bool_decide_eq_true_2; [done |]. apply elem_of_union_l, elem_of_list_to_set.
      apply elem_of_ancestors.
  - unfold day_path in Hq. unfold build_path, st_bind, st_lift, ok_or.
    destruct (find_root_dir env); [done |]. by intros [=].
Qed.

Lemma build_path_legacy_existing env title p d s :
  legacy_path env title = Some p -> PathModel.parent p = Some d -> Fs.exists_ d s = true ->
  build_path_legacy env title s = (s, Ok p).
Proof.
  unfold legacy_path, build_path_legacy. destruct (find_root_dir env) as [root|]; [| done].
  intros [= <-] Hd He. by apply ensure_parent_existing with d.
Qed.

(** Claim C29: in [main.rs] an absolute title replaces the whole path:
    the note goes to [title] with extension [md], outside the notes
    directory, whatever the home directory and the date. *)
Theorem legacy_path_absolute_title env title :
  PathModel.is_absolute title = true -> is_Some (find_root_dir env) ->
  legacy_path env title = Some (PathModel.set_extension title "md").
Proof.
  intros Ha [root Hr]. unfold legacy_path, note_file, PathModel.join, PathModel.push.
  by rewrite Hr, Ha.
Qed.

(** ** Witnesses *)

Lemma day_path_date_injective_witness :
  env_home example_env = env_home (mkEnv (Some "/home/ana") (mkDate 2024 3 7))
  /\ day_path example_env = Some example_day
  /\ env_now example_env = env_now (mkEnv (Some "/home/ana") (mkDate 2024 3 7)).
Proof.
  split; [reflexivity | split; [vm_compute; reflexivity |]].
  apply (day_path_date_injective _ _ example_day); vm_compute; reflexivity.
Defined.

Lemma legacy_path_absolute_title_witness :
  legacy_path example_env "/etc/cron.d/backup" = Some "/etc/cron.d/backup.md".
Proof.
  rewrite (legacy_path_absolute_title example_env "/etc/cron.d/backup");
    [vm_compute; reflexivity | reflexivity | eexists; reflexivity].
Defined.

End PathResolver.
