(* ===== verification/Meta.v ===== *)
(** * The front-matter header: generation, the tags regex, the merge

    [Entry::generate_meta] formats a raw string literal that is indented
    inside the [impl] block, so every line after the first starts with
    four spaces and the literal ends with a line of four spaces with no
    line feed: that is the header [generate_meta] below produces, byte for
    byte.  [update_meta] takes the text before the first [\n---\n], finds
    the first line matching [(?m)^tags:\s*\[(.*?)\]$], splits the capture
    on commas and trims each piece, keeps the input tags not among them,
    and when some are left replaces every occurrence of the matched text
    in the whole file by the new [tags: [...]] line.  [merge_meta] is that
    computation from the contents read to the contents written back. *)
From stdpp Require Import base tactics list.
From Stdlib Require Import Ascii String.
From S2P Require Import Prelude Errors.

Module Meta.

(** The line entry [- {content}\n] appended by [Entry::write]. *)
Definition entry_line (content : string) : string := "- " ++ content ++ NL.

Definition four_spaces : string := "    ".

(** [fn generate_meta(&self) -> String]: the raw literal
    [---\n    title: "default"\n    tags: [{}]\n    ---\n    \n    ]
    with the tags joined by [", "]. *)
Definition generate_meta (tags : list string) : string :=
  "---" ++ NL
  ++ four_spaces ++ "title: " ++ DQ ++ "default" ++ DQ ++ NL
  ++ four_spaces ++ "tags: [" ++ Str.join ", " tags ++ "]" ++ NL
  ++ four_spaces ++ "---" ++ NL
  ++ four_spaces ++ NL
  ++ four_spaces.

(** The delimiter [update_meta] splits on. *)
Definition DELIM : string := NL ++ "---" ++ NL.

(** ** The regex [(?m)^tags:\s*\[(.*?)\]$] *)

(** [$] in multi-line mode: at the end of the text or before a line feed. *)
Definition at_eol (s : string) : bool :=
  match s with
  | EmptyString => true
  | String c _ => Ascii.eqb c nl_char
  end.

(** [\s*], greedy: the whitespace prefix and the rest. *)
Fixpoint span_ws (s : string) : string * string :=
  match s with
  | String c s' =>
      if is_ws c then let (w, r) := span_ws s' in (String c w, r) else (EmptyString, s)
  | EmptyString => (EmptyString, EmptyString)
  end.

(** [(.*?)\]$]: the shortest run of characters other than a line feed
    that is followed by a [\]] at the end of a line; the run and the
    text after the bracket. *)
Fixpoint lazy_close (s : string) : option (string * string) :=
  match s with
  | EmptyString => None
  | String c s' =>
      if Ascii.eqb c "]"%char && at_eol s' then Some (EmptyString, s')
      else if Ascii.eqb c nl_char then None
      else match lazy_close s' with
           | Some (x, r) => Some (String c x, r)
           | None => None
           end
  end.

(** The pattern after [^], at the start of [s]: the whole match
    ([captures[0]]) and the group ([captures[1]]).  Giving back
    whitespace to [\s*] never helps, since the next character must be
    [\[]. *)
Definition match_here (s : string) : option (string * string) :=
  match Str.strip_prefix "tags:" s with
  | None => None
  | Some r1 =>
      let (ws, r2) := span_ws r1 in
      match Str.strip_prefix "[" r2 with
      | None => None
      | Some r3 =>
          match lazy_close r3 with
          | Some (inner, _) => Some ("tags:" ++ ws ++ "[" ++ inner ++ "]", inner)
          | None => None
          end
      end
  end.

(** [tags_regex.captures(meta)]: the leftmost position where [^] holds
    (the start of the text or just after a line feed) and the pattern
    matches. *)
Fixpoint captures_go (bol : bool) (s : string) : option (string * string) :=
  match (if bol then match_here s else None) with
  | Some m => Some m
  | None =>
      match s with
      | EmptyString => None
      | String c s' => captures_go (Ascii.eqb c nl_char) s'
      end
  end.

Definition tags_captures (meta : string) : option (string * string) :=
  captures_go true meta.

(** ** The merge *)

(** [captures[1].split(',').map(|s| s.trim().to_string()).collect()] *)
Definition parse_existing (inner : string) : list string :=
  map Str.trim (Str.split_char ","%char inner).

(** [existing_tags.contains(tag)] *)
Definition contains (xs : list string) (t : string) : bool :=
  existsb (String.eqb t) xs.

(** [format!("tags: [{}]", tags.join(", "))] *)
Definition tags_line (ts : list string) : string := "tags: [" ++ Str.join ", " ts ++ "]".

(** From the contents [update_meta] reads to the contents it writes. *)
Definition merge_meta (tags : list string) (contents : string) : result string Error :=
  let meta := Str.split_first DELIM contents in
  match tags_captures meta with
  | None => Err CannotParseMetaData
  | Some (whole, inner) =>
      let existing_tags := parse_existing inner in
      let new_tags := List.filter (fun t => negb (contains existing_tags t)) tags in
      match new_tags with
      | [] => Ok contents
      | _ => Ok (Str.replace whole (tags_line (existing_tags ++ new_tags)) contents)
      end
  end.

Definition comma : ascii := ","%char.

(** A tag as a header lists it: no comma, no line feed, no whitespace at
    either end. *)
Definition tag_ok (t : string) : Prop :=
  char_free comma t = true /\ inline t /\ Str.trim t = t.

(** The entry lines, in order. *)
Fixpoint entries (cs : list string) : string :=
  match cs with
  | [] => EmptyString
  | c :: cs' => entry_line c ++ entries cs'
  end.

(** No line of [s] starts with [t]; [bol] says whether [s] itself starts
    a line. *)
Fixpoint no_t_at_bol (bol : bool) (s : string) : bool :=
  match s with
  | EmptyString => true
  | String c s' => (negb bol || negb (Ascii.eqb c "t"%char)) && no_t_at_bol (Ascii.eqb c nl_char) s'
  end.

(** Whether the text after [a] starts a line. *)
Definition bol_after (bol : bool) (a : string) : bool :=
  match last_char a with
  | Some c => Ascii.eqb c nl_char
  | None => bol
  end.

Lemma contains_true xs t : contains xs t = true <-> t ∈ xs.
Proof.
  unfold contains. rewrite existsb_exists, list_elem_of_In. split.
  - intros (x & Hx & Heq). apply String.eqb_eq in Heq. by subst.
  - intros H. exists t. split; [done | apply String.eqb_refl].
Qed.

(** When every input tag is already in the header, nothing is left to
    add and the contents are returned as they were. *)
Lemma merge_meta_known tags contents whole inner :
  tags_captures (Str.split_first DELIM contents) = Some (whole, inner) ->
  Forall (fun t => t ∈ parse_existing inner) tags ->
  merge_meta tags contents = Ok contents.
Proof.
  intros Hm Hin. unfold merge_meta. rewrite Hm.
  rewrite filter_false_Forall; [done |].
  eapply Forall_impl; [done |]. intros t Ht. by rewrite (proj2 (contains_true _ _) Ht).
Qed.

(** ** Where the regex cannot match *)

Lemma match_here_not_t c s : Ascii.eqb c "t"%char = false -> match_here (String c s) = None.
Proof. intros H. unfold match_here. rewrite strip_prefix_cons_ne; [done |]. by rewrite Ascii.eqb_sym. Qed.

Lemma captures_go_no_t bol s : no_t_at_bol bol s = true -> captures_go bol s = None.
Proof.
  revert bol. induction s as [|c s IH]; intros bol H; [by destruct bol |].
  simpl in H. apply andb_prop in H as [Hc Hs]. simpl.
  destruct bol; simpl in Hc.
  - apply negb_true_iff in Hc. rewrite match_here_not_t by done. by apply IH.
  - by apply IH.
Qed.

Lemma no_t_at_bol_app bol a b :
  no_t_at_bol bol (a ++ b) = no_t_at_bol bol a && no_t_at_bol (bol_after bol a) b.
Proof.
  revert bol. induction a as [|c a IH]; intros bol; simpl; [done |].
  rewrite IH, andb_assoc. unfold bol_after. rewrite last_char_cons. by destruct (last_char a).
Qed.

(** Text without line feeds, read in the middle of a line. *)
Lemma no_t_at_bol_inline a : char_free nl_char a = true -> no_t_at_bol false a = true.
Proof.
  induction a as [|c a IH]; simpl; [done |].
  intros [Hc Ha]%andb_prop. apply negb_true_iff in Hc. rewrite Hc. by apply IH.
Qed.

Lemma bol_after_inline a : inline a -> bol_after false a = false.
Proof.
  unfold bol_after, inline. induction a as [|c a IH]; [done |]. intros H.
  simpl in H. apply andb_prop in H as [Hc Ha]. apply negb_true_iff in Hc.
  rewrite last_char_cons. specialize (IH Ha). by destruct (last_char a).
Qed.

Lemma no_t_at_bol_prefix bol a r : no_t_at_bol bol (a ++ r) = true -> no_t_at_bol bol a = true.
Proof. rewrite no_t_at_bol_app. by intros [? _]%andb_prop. Qed.

Lemma entries_app cs ds : entries (cs ++ ds) = entries cs ++ entries ds.
Proof. induction cs as [|c cs IH]; simpl; [done |]. by rewrite IH, append_assoc_str. Qed.

Lemma entries_cons_line c cs :
  entries (c :: cs) = String "-"%char (String " "%char (c ++ NL ++ entries cs)).
Proof.
  change (entries (c :: cs)) with (entry_line c ++ entries cs).
  unfold entry_line. rewrite !append_assoc_str. reflexivity.
Qed.

(** A line's text, its line feed, and what follows. *)
Lemma no_t_at_bol_line a r :
  inline a -> no_t_at_bol false (a ++ NL ++ r) = no_t_at_bol true r.
Proof.
  intros Ha. rewrite no_t_at_bol_app, no_t_at_bol_inline, bol_after_inline by done.
  reflexivity.
Qed.

Lemma no_t_at_bol_entries bol cs : Forall inline cs -> no_t_at_bol bol (entries cs) = true.
Proof.
  intros H. revert bol. induction H as [|c cs Hc Hcs IH]; intros bol; [done |].
  rewrite entries_cons_line. simpl. rewrite orb_true_r, no_t_at_bol_line by done.
  apply IH.
Qed.

(** A header made by [generate_meta], followed by entry lines, has no
    line that starts with [t]: the indentation puts four spaces before
    [tags:]. *)
Lemma no_t_at_bol_generated ts cs :
  Forall inline ts -> Forall inline cs ->
  no_t_at_bol true (generate_meta ts ++ entries cs) = true.
Proof.
  intros Hts Hcs. unfold generate_meta. simpl.
  assert (Hj : inline (Str.join ", " ts)) by (apply char_free_join; done).
  rewrite append_nil_l_str, !append_assoc_str.
  rewrite no_t_at_bol_app, no_t_at_bol_inline by done.
  rewrite bol_after_inline by done.
  unfold four_spaces, NL. simpl. by apply no_t_at_bol_entries.
Qed.

(** [update_meta] on a file the code wrote itself: the regex finds no
    [tags:] line, whatever tags were asked for. *)
Lemma merge_meta_generated tags ts cs :
  Forall inline ts -> Forall inline cs ->
  merge_meta tags (generate_meta ts ++ entries cs) = Err CannotParseMetaData.
Proof.
  intros Hts Hcs. unfold merge_meta, tags_captures.
  destruct (split_first_prefix DELIM (generate_meta ts ++ entries cs)) as [r Hr].
  rewrite captures_go_no_t; [done |].
  apply (no_t_at_bol_prefix _ _ r). rewrite <- Hr. by apply no_t_at_bol_generated.
Qed.

(** ** The tags line the code formats, read back by the regex *)

Lemma at_eol_inline_app a r : inline a -> at_eol (a ++ String "]"%char r) = false.
Proof.
  unfold inline. destruct a as [|x a]; simpl; [done |].
  intros [Hx _]%andb_prop. by apply negb_true_iff.
Qed.

(** The lazy group stops at the first bracket that ends a line. *)
Lemma lazy_close_inline a r :
  inline a -> at_eol r = true -> lazy_close (a ++ String "]"%char r) = Some (a, r).
Proof.
  unfold inline. induction a as [|x a IH]; simpl; intros Ha Hr.
  - by rewrite Hr.
  - apply andb_prop in Ha as [Hx Ha]. apply negb_true_iff in Hx.
    rewrite at_eol_inline_app by done. rewrite andb_false_r, Hx, IH; done.
Qed.

Lemma captures_go_here s m : match_here s = Some m -> captures_go true s = Some m.
Proof. intros H. destruct s; simpl in *; [done | by rewrite H]. Qed.

Lemma match_here_tags_line ts r :
  Forall inline ts -> at_eol r = true ->
  match_here (tags_line ts ++ r) = Some (tags_line ts, Str.join ", " ts).
Proof.
  intros Hts Hr. unfold match_here, tags_line. rewrite !append_assoc_str. simpl.
  rewrite ?append_nil_l_str. change ("]" ++ r) with (String "]"%char r).
  rewrite lazy_close_inline by (by apply char_free_join || done). reflexivity.
Qed.

Lemma split_join t ts :
  Forall (fun x => char_free comma x = true) (t :: ts) ->
  Str.split_char comma (Str.join ", " (t :: ts)) = t :: map (String " "%char) ts.
Proof.
  revert t. induction ts as [|u us IH]; intros t H.
  - apply Forall_inv in H. simpl. by rewrite split_char_free.
  - apply Forall_cons in H as [Ht Hus].
    change (Str.join ", " (t :: u :: us))
      with (t ++ String comma (String " "%char (Str.join ", " (u :: us)))).
    rewrite split_char_app by done. cbn [Str.split_char]. rewrite IH by done. reflexivity.
Qed.

Lemma tag_ok_inline ts : Forall tag_ok ts -> Forall inline ts.
Proof. intros H. eapply Forall_impl; [done | by intros ? (_ & ? & _)]. Qed.

(** The comma split of a joined list reads back each item trimmed. *)
Lemma parse_existing_join_trim ts :
  ts <> [] -> Forall (fun x => char_free comma x = true) ts ->
  parse_existing (Str.join ", " ts) = map Str.trim ts.
Proof.
  destruct ts as [|t ts]; [done |]. intros _ H. unfold parse_existing.
  rewrite split_join by done. cbn [map]. f_equal.
  clear H. induction ts as [|u us IH]; cbn [map]; [done |]. by rewrite trim_space, IH.
Qed.

Lemma map_trim_tag_ok ts : Forall tag_ok ts -> map Str.trim ts = ts.
Proof. induction 1 as [|t ts (_ & _ & Ht) _ IH]; cbn [map]; [done |]. by rewrite Ht, IH. Qed.

Lemma tag_ok_comma_free ts : Forall tag_ok ts -> Forall (fun x => char_free comma x = true) ts.
Proof. intros H. eapply Forall_impl; [done | by intros ? []]. Qed.

Lemma parse_existing_join ts :
  ts <> [] -> Forall tag_ok ts -> parse_existing (Str.join ", " ts) = ts.
Proof.
  intros Hne H. by rewrite parse_existing_join_trim, map_trim_tag_ok by auto using tag_ok_comma_free.
Qed.

(** [str::replace] with the line-feed pattern, piece by piece. *)
Lemma replace_nl_skip to a r :
  inline a -> Str.replace NL to (a ++ r) = a ++ Str.replace NL to r.
Proof. apply replace_skip. Qed.

Lemma replace_nl_at to r : Str.replace NL to (NL ++ r) = to ++ Str.replace NL to r.
Proof. by apply replace_at. Qed.

Lemma entry_line_app c r :
  entry_line c ++ r = String "-"%char (String " "%char (c ++ String nl_char r)).
Proof. unfold entry_line. by rewrite !append_assoc_str. Qed.

(** A one-line pattern that starts with neither [-] nor a space is
    replaced inside each entry line on its own. *)
Lemma replace_entries d f to cs :
  Ascii.eqb d "-"%char = false -> Ascii.eqb d " "%char = false ->
  inline (String d f) -> Forall inline cs ->
  Str.replace (String d f) to (entries cs) = entries (map (Str.replace (String d f) to) cs).
Proof.
  intros Hm Hs Hf. induction 1 as [|c cs Hc _ IH]; [by apply replace_nil |].
  cbn [entries map]. rewrite !entry_line_app.
  rewrite (replace_step _ _ (String "-"%char _)), strip_prefix_cons_ne by done.
  rewrite (replace_step _ _ (String " "%char _)), strip_prefix_cons_ne by done.
  by rewrite replace_split, IH.
Qed.

Lemma split_once_cons sep x s :
  Str.split_once sep (String x s)
  = match Str.strip_prefix sep (String x s) with
    | Some rest => Some (EmptyString, rest)
    | None => match Str.split_once sep s with Some (a, b) => Some (String x a, b) | None => None end
    end.
Proof. reflexivity. Qed.

(** Entry lines never hold the [\n---\n] delimiter. *)
Lemma split_once_entries cs : Forall inline cs -> Str.split_once DELIM (String nl_char (entries cs)) = None.
Proof.
  induction 1 as [|c cs Hc _ IH]; [reflexivity |].
  cbn [entries]. rewrite entry_line_app, split_once_cons.
  replace (Str.strip_prefix DELIM _) with (@None string) by reflexivity.
  change (String "-"%char (String " "%char (c ++ String nl_char (entries cs))))
    with (("- " ++ c) ++ String nl_char (entries cs)).
  unfold DELIM. change (NL ++ "---" ++ NL) with (String nl_char ("---" ++ NL)).
  rewrite (split_once_skip nl_char) by (rewrite char_free_app; by apply andb_true_intro).
  change (String nl_char ("---" ++ NL)) with DELIM. by rewrite IH.
Qed.

Lemma contains_app xs ys t : contains (xs ++ ys) t = contains xs t || contains ys t.
Proof. unfold contains. apply existsb_app. Qed.

Lemma tags_line_inline ts : Forall inline ts -> inline (tags_line ts).
Proof.
  intros H. unfold inline, tags_line. rewrite !char_free_app.
  by rewrite (char_free_join nl_char) by done.
Qed.

Lemma split_first_none sep s : Str.split_once sep s = None -> Str.split_first sep s = s.
Proof. unfold Str.split_first. by intros ->. Qed.

(** A tags line followed by entry lines holds no delimiter. *)
Lemma split_once_tags_entries ts cs :
  inline (tags_line ts) -> Forall inline cs ->
  Str.split_once DELIM (tags_line ts ++ String nl_char (entries cs)) = None.
Proof.
  intros Hl Hcs. unfold DELIM. change (NL ++ "---" ++ NL) with (String nl_char ("---" ++ NL)).
  rewrite (split_once_skip nl_char) by done.
  change (String nl_char ("---" ++ NL)) with DELIM. by rewrite split_once_entries.
Qed.

Lemma tags_captures_line ts r :
  Forall inline ts -> at_eol r = true ->
  tags_captures (tags_line ts ++ r) = Some (tags_line ts, Str.join ", " ts).
Proof. intros. by apply captures_go_here, match_here_tags_line. Qed.

(** Claim C9: the tags line the code formats is read back by the regex
    and the comma split: on a line [tags: [t1, ..., tn]] that ends a line,
    the regex matches the whole line and the parsed tags are [t1 ... tn],
    when there is at least one tag and no tag has a comma, a line feed or
    surrounding whitespace. *)
Theorem tags_line_roundtrip ts r :
  ts <> [] -> Forall tag_ok ts -> at_eol r = true ->
  tags_captures (tags_line ts ++ r) = Some (tags_line ts, Str.join ", " ts)
  /\ parse_existing (Str.join ", " ts) = ts.
Proof.
  intros Hne Hts Hr. split.
  - apply captures_go_here, match_here_tags_line; [by apply tag_ok_inline | done].
  - by apply parse_existing_join.
Qed.

Lemma tags_line_roundtrip_witness :
  tags_captures (tags_line ["rust"; "coq"] ++ NL ++ "---")
    = Some (tags_line ["rust"; "coq"], Str.join ", " ["rust"; "coq"])
  /\ parse_existing (Str.join ", " ["rust"; "coq"]) = ["rust"; "coq"].
Proof.
  apply tags_line_roundtrip; [done | repeat constructor | reflexivity].
Defined.

(** Claim C22: a file with no [\n---\n] delimiter is not rejected:
    [split(..).next()] yields the whole file as the header.  On a file
    that is a tags line followed by entry lines, the merge rewrites the
    tags line (and any entry quoting it), where the spec says the merge
    fails with [CannotParseMetaData]. *)
Theorem merge_without_delimiter tags ts cs :
  ts <> [] -> Forall tag_ok ts -> Forall inline cs ->
  List.filter (fun t => negb (contains ts t)) tags <> [] ->
  merge_meta tags (tags_line ts ++ NL ++ entries cs)
  = Ok (tags_line (ts ++ List.filter (fun t => negb (contains ts t)) tags) ++ NL
        ++ entries (map (Str.replace (tags_line ts)
                          (tags_line (ts ++ List.filter (fun t => negb (contains ts t)) tags))) cs)).
Proof.
  intros Hne Hts Hcs Hnew. pose proof (tags_line_inline ts (tag_ok_inline ts Hts)) as Hl.
  change (NL ++ entries cs) with (String nl_char (entries cs)).
  unfold merge_meta. cbv zeta.
  rewrite (split_first_none _ _ (split_once_tags_entries ts cs Hl Hcs)).
  rewrite (tags_captures_line ts) by (by apply tag_ok_inline || done).
  rewrite parse_existing_join by done.
  destruct (List.filter _ tags) as [|t new]; [done |]. f_equal.
  rewrite replace_split, replace_self by done.
  change (tags_line ts) with (String "t"%char ("ags: [" ++ Str.join ", " ts ++ "]")).
  by rewrite replace_entries.
Qed.

Lemma merge_without_delimiter_witness :
  merge_meta ["b"] (tags_line ["a"] ++ NL ++ entries ["x"; "see tags: [a]"])
  = Ok (tags_line (["a"] ++ ["b"]) ++ NL ++ entries ["x"; "see tags: [a, b]"]).
Proof.
  rewrite (merge_without_delimiter ["b"] ["a"] ["x"; "see tags: [a]"]);
    [reflexivity | done | repeat constructor | repeat constructor | done].
Defined.

End Meta.
