(* ===== verification/TagsRegex.v ===== *)
(** * The tags regex against its meaning

    [update_meta] looks for its tags line with the [regex] crate:
    [(?m)^tags:\s*\[(.*?)\]$], searched with [captures], which reports
    the leftmost match and, among the matches that start there, the one
    the pattern prefers: the lazy group [(.*?)] as short as possible.
    [Meta.tags_captures] is the scan that implements this.  This file
    states the meaning of the pattern without any scanning, as
    [regex_match meta pre ws inner post] (the text is [pre], then
    [tags:], whitespace [ws], [[], the group [inner] on one line, [\]],
    and [post], with [pre] empty or ending in a line feed and [post]
    empty or starting with one), and proves that the scan finds a match
    exactly when there is one, and that the match it reports is the
    leftmost one with the shortest group. *)
From stdpp Require Import base tactics list.
From Stdlib Require Import Ascii String Lia.
From S2P Require Import Prelude Errors Meta.

Import Meta.

Module TagsRegex.

(** Every character is whitespace ([\s*] consumed it). *)
Fixpoint all_ws (s : string) : bool :=
  match s with
  | EmptyString => true
  | String c s' => is_ws c && all_ws s'
  end.

(** [(.*?)\]$] can end at [x]: [s] is [x], a bracket, and a rest that
    starts a new line or is empty; [x] has no line feed ([.] does not
    match one). *)
Definition close_at (s x r : string) : Prop :=
  s = x ++ String "]"%char r /\ inline x /\ at_eol r = true.

(** The pattern after [^] matches at the start of [s]. *)
Definition here_match (s ws inner post : string) : Prop :=
  s = "tags:" ++ ws ++ "[" ++ inner ++ "]" ++ post /\ all_ws ws = true /\ inline inner /\ at_eol post = true.

(** A match of the whole pattern in [meta], located by the text [pre]
    before it: [^] in multi-line mode holds at the start of the text and
    after a line feed. *)
Record regex_match (meta pre ws inner post : string) : Prop := {
  rm_text : meta = pre ++ "tags:" ++ ws ++ "[" ++ inner ++ "]" ++ post;
  rm_bol : bol_after true pre = true;
  rm_ws : all_ws ws = true;
  rm_inner : inline inner;
  rm_eol : at_eol post = true
}.

(** What [captures] reports: a match that starts no later than any
    other, and whose group is no longer than that of any other match
    starting at the same place; [whole] is [captures[0]], [inner] is
    [captures[1]]. *)
Definition leftmost_lazy (meta whole inner : string) : Prop :=
  exists pre ws post,
    regex_match meta pre ws inner post /\ whole = "tags:" ++ ws ++ "[" ++ inner ++ "]" /\
    forall pre' ws' inner' post', regex_match meta pre' ws' inner' post' ->
      String.length pre <= String.length pre' /\ (pre' = pre -> String.length inner <= String.length inner').

(** A match in [s] after the text [pre], when [bol] says whether [s]
    itself starts a line. *)
Definition match_in (bol : bool) (s pre ws inner post : string) : Prop :=
  exists rest, s = pre ++ rest /\ bol_after bol pre = true /\ here_match rest ws inner post.

Lemma lazy_close_sound s x r : lazy_close s = Some (x, r) -> close_at s x r.
Proof.
  unfold close_at, inline. revert x r. induction s as [|c s IH]; intros x r; simpl; [done |].
  destruct (Ascii.eqb_spec c "]"%char) as [->|Hc]; simpl.
  - destruct (at_eol s) eqn:He; [by intros [= <- <-] |].
    destruct (lazy_close s) as [[x' r']|] eqn:E; [| done]. intros [= <- <-].
    destruct (IH _ _ eq_refl) as (-> & Hx & Hr). simpl. by rewrite Hx.
  - destruct (Ascii.eqb c nl_char) eqn:Hn; [done |].
    destruct (lazy_close s) as [[x' r']|] eqn:E; [| done]. intros [= <- <-].
    destruct (IH _ _ eq_refl) as (-> & Hx & Hr). simpl. by rewrite Hn, Hx.
Qed.

(** The lazy group is no longer than any way of ending the pattern. *)
Lemma lazy_close_least s x r :
  close_at s x r -> exists x0 r0, lazy_close s = Some (x0, r0) /\ String.length x0 <= String.length x.
Proof.
  unfold close_at, inline. intros (-> & Hx & Hr). induction x as [|c x IH]; simpl.
  - rewrite Hr. eexists _, _. split; [done | simpl; lia].
  - simpl in Hx. apply andb_prop in Hx as [Hc Hx]. apply negb_true_iff in Hc.
    destruct (Ascii.eqb c "]"%char && at_eol (x ++ String "]"%char r)).
    + eexists _, _. split; [done | simpl; lia].
    + rewrite Hc. destruct (IH Hx) as (x0 & r0 & -> & Hl). eexists _, _. split; [done | simpl; lia].
Qed.

Lemma span_ws_sound s w r : span_ws s = (w, r) -> s = w ++ r /\ all_ws w = true.
Proof.
  revert w r. induction s as [|c s IH]; intros w r; simpl; [by intros [= <- <-] |].
  destruct (is_ws c) eqn:Hc; [| by intros [= <- <-]].
  destruct (span_ws s) as [w' r'] eqn:E. intros [= <- <-].
  destruct (IH _ _ eq_refl) as [-> Hw]. simpl. by rewrite Hc, Hw.
Qed.

(** [\s*] stops at the bracket: the whitespace before it is unique. *)
Lemma span_ws_bracket w t : all_ws w = true -> span_ws (w ++ String "["%char t) = (w, String "["%char t).
Proof.
  induction w as [|c w IH]; simpl; [done |]. intros [Hc Hw]%andb_prop. by rewrite Hc, IH.
Qed.

Lemma here_match_steps s ws inner post :
  here_match s ws inner post ->
  Str.strip_prefix "tags:" s = Some (ws ++ String "["%char (inner ++ String "]"%char post))
  /\ span_ws (ws ++ String "["%char (inner ++ String "]"%char post))
     = (ws, String "["%char (inner ++ String "]"%char post))
  /\ close_at (inner ++ String "]"%char post) inner post.
Proof.
  intros (-> & Hws & Hi & Hp). split_and!.
  - apply strip_prefix_app.
  - by apply span_ws_bracket.
  - done.
Qed.

(** At one position: what [match_here] returns is a match with the
    shortest group. *)
Lemma match_here_sound s w inner :
  match_here s = Some (w, inner) ->
  exists ws post, here_match s ws inner post /\ w = "tags:" ++ ws ++ "[" ++ inner ++ "]"
    /\ forall ws' inner' post', here_match s ws' inner' post' -> String.length inner <= String.length inner'.
Proof.
  unfold match_here.
  destruct (Str.strip_prefix "tags:" s) as [r1|] eqn:E1; [| done].
  destruct (span_ws r1) as [ws r2] eqn:E2.
  destruct (Str.strip_prefix "[" r2) as [r3|] eqn:E3; [| done].
  destruct (lazy_close r3) as [[i post]|] eqn:E4; [| done]. intros [= <- <-].
  exists ws, post. split_and!; [| done |].
  - apply strip_prefix_Some in E1, E3. apply span_ws_sound in E2 as [Hr1 Hws].
    destruct (lazy_close_sound _ _ _ E4) as (Hr3 & Hi & Hp).
    split_and!; [| done ..]. subst. reflexivity.
  - intros ws' i' post' Hm. destruct (here_match_steps _ _ _ _ Hm) as (H1 & H2 & H3).
    rewrite H1 in E1. injection E1 as <-. rewrite H2 in E2. injection E2 as <- <-.
    simpl in E3. injection E3 as <-.
    destruct (lazy_close_least _ _ _ H3) as (x0 & r0 & E & Hl). rewrite E4 in E. by injection E as -> ->.
Qed.

Lemma match_here_complete s ws inner post :
  here_match s ws inner post -> exists m, match_here s = Some m.
Proof.
  intros Hm. destruct (here_match_steps _ _ _ _ Hm) as (H1 & H2 & H3).
  destruct (lazy_close_least _ _ _ H3) as (x0 & r0 & E & _).
  unfold match_here. rewrite H1, H2. simpl. rewrite E. by eexists.
Qed.

Lemma bol_after_cons bol c p : bol_after bol (String c p) = bol_after (Ascii.eqb c nl_char) p.
Proof. unfold bol_after. rewrite last_char_cons. destruct (last_char p); [done |]. by destruct p. Qed.

Lemma match_in_nil bol s ws inner post :
  match_in bol s EmptyString ws inner post <-> bol = true /\ here_match s ws inner post.
Proof. split; [by intros (rest & -> & Hb & Hm) | intros [-> Hm]; by exists s]. Qed.

Lemma match_in_cons bol c s c' pre ws inner post :
  match_in bol (String c s) (String c' pre) ws inner post <->
  c' = c /\ match_in (Ascii.eqb c nl_char) s pre ws inner post.
Proof.
  unfold match_in. setoid_rewrite bol_after_cons. split.
  - intros (rest & [= -> ->] & Hb & Hm). split; [done |]. by exists rest.
  - intros [-> (rest & -> & Hb & Hm)]. by exists rest.
Qed.

Lemma here_none (bol : bool) s :
  (if bol then match_here s else None) = None ->
  forall ws inner post, ~ match_in bol s EmptyString ws inner post.
Proof.
  intros H ws inner post [-> Hm]%match_in_nil.
  destruct (match_here_complete _ _ _ _ Hm) as [m Hm']. congruence.
Qed.

Lemma match_in_empty bol pre ws inner post : ~ match_in bol EmptyString pre ws inner post.
Proof. intros (rest & Hs & _ & Hm & _). by destruct pre, rest. Qed.

(** The scan misses no position. *)
Lemma captures_go_none bol s :
  captures_go bol s = None -> forall pre ws inner post, ~ match_in bol s pre ws inner post.
Proof.
  revert bol. induction s as [|c s IH]; intros bol H pre ws inner post; [apply match_in_empty |].
  simpl in H. destruct (if bol then match_here (String c s) else None) eqn:E; [done |].
  destruct pre as [|c' pre]; [by apply here_none |].
  intros [-> Hm]%match_in_cons. by apply (IH _ H pre ws inner post).
Qed.

(** The scan stops at the first position where the pattern matches. *)
Lemma captures_go_sound bol s w inner :
  captures_go bol s = Some (w, inner) ->
  exists pre ws post, match_in bol s pre ws inner post /\ w = "tags:" ++ ws ++ "[" ++ inner ++ "]"
    /\ forall pre' ws' inner' post', match_in bol s pre' ws' inner' post' ->
         String.length pre <= String.length pre'
         /\ (pre' = pre -> String.length inner <= String.length inner').
Proof.
  revert bol. induction s as [|c s IH]; intros bol H.
  - destruct bol; simpl in H; done.
  - simpl in H. destruct (if bol then match_here (String c s) else None) as [m|] eqn:E.
    + destruct bol; [| done]. injection H as ->.
      destruct (match_here_sound _ _ _ E) as (ws & post & Hm & Hw & Hmin).
      exists EmptyString, ws, post. split_and!; [by apply match_in_nil | done |].
      intros pre' ws' inner' post' Hm'. split; [simpl; lia |].
      intros ->. apply match_in_nil in Hm' as [_ Hm']. by apply (Hmin ws' _ post').
    + destruct (IH _ H) as (pre & ws & post & Hm & Hw & Hmin).
      exists (String c pre), ws, post. split_and!; [by apply match_in_cons | done |].
      intros [|c' pre'] ws' inner' post' Hm'.
      * exfalso. by apply (here_none _ _ E ws' inner' post').
      * apply match_in_cons in Hm' as [-> Hm'].
        destruct (Hmin _ _ _ _ Hm') as [Hl Hi]. simpl. split; [lia |]. by intros [= ->]; apply Hi.
Qed.

Lemma regex_match_in meta pre ws inner post :
  regex_match meta pre ws inner post <-> match_in true meta pre ws inner post.
Proof.
  split.
  - intros [Ht Hb Hw Hi He]. eexists. split_and!; [exact Ht | done | done].
  - intros (rest & -> & Hb & (-> & Hw & Hi & He)). by split.
Qed.

Lemma app_same_length (a b c d : string) :
  a ++ b = c ++ d -> String.length a = String.length c -> a = c /\ b = d.
Proof.
  revert c. induction a as [|x a IH]; intros [|y c] H Hl; simpl in *; try lia; [done |].
  injection H as -> H. destruct (IH c H) as [-> ->]; [lia | done].
Qed.

(** The leftmost match with the shortest group is unique. *)
Lemma leftmost_lazy_unique meta w1 i1 w2 i2 :
  leftmost_lazy meta w1 i1 -> leftmost_lazy meta w2 i2 -> w1 = w2 /\ i1 = i2.
Proof.
  intros (p1 & ws1 & q1 & Hm1 & -> & Hmin1) (p2 & ws2 & q2 & Hm2 & -> & Hmin2).
  destruct (Hmin1 _ _ _ _ Hm2) as [Hp12 _]. destruct (Hmin2 _ _ _ _ Hm1) as [Hp21 _].
  pose proof (rm_text _ _ _ _ _ Hm1) as Ht1. rewrite (rm_text _ _ _ _ _ Hm2) in Ht1.
  apply app_same_length in Ht1 as [<- Ht]; [| lia].
  assert (Hh1 : here_match ("tags:" ++ ws1 ++ "[" ++ i1 ++ "]" ++ q1) ws1 i1 q1)
    by (split_and!; [done | apply Hm1 ..]).
  assert (Hh2 : here_match ("tags:" ++ ws1 ++ "[" ++ i1 ++ "]" ++ q1) ws2 i2 q2)
    by (split_and!; [done | apply Hm2 ..]).
  destruct (here_match_steps _ _ _ _ Hh1) as (E1 & S1 & _).
  destruct (here_match_steps _ _ _ _ Hh2) as (E2 & S2 & _).
  rewrite E1 in E2. injection E2 as E2. rewrite <- E2, S1 in S2. injection S2 as <- E3.
  destruct (Hmin1 _ _ _ _ Hm2) as [_ Hi12]. destruct (Hmin2 _ _ _ _ Hm1) as [_ Hi21].
  specialize (Hi12 eq_refl). specialize (Hi21 eq_refl).
  apply app_same_length in E3 as [-> _]; [done | lia].
Qed.

(** Claim C12: the scan finds no match exactly when the pattern matches
    nowhere in the text. *)

Theorem tags_captures_none meta :
  tags_captures meta = None <-> forall pre ws inner post, ~ regex_match meta pre ws inner post.
Proof.
  split.
  - intros H pre ws inner post Hm%regex_match_in. by apply (captures_go_none _ _ H pre ws inner post).
  - intros H. destruct (tags_captures meta) as [[w i]|] eqn:E; [| done].
    destruct (captures_go_sound _ _ _ _ E) as (pre & ws & post & Hm & _).
    apply regex_match_in in Hm. by destruct (H _ _ _ _ Hm).
Qed.

(** Claim C11: the scan implements [captures]: it returns [(whole,
    inner)] exactly when some match of the pattern starts no later than
    every other match, its group is no longer than that of any other
    match starting at the same place, [inner] is that group and [whole]
    is the matched text. *)

Theorem tags_captures_leftmost_lazy meta whole inner :
  tags_captures meta = Some (whole, inner) <-> leftmost_lazy meta whole inner.
Proof.
  assert (Hs : forall w i, tags_captures meta = Some (w, i) -> leftmost_lazy meta w i).
  { intros w i E. destruct (captures_go_sound _ _ _ _ E) as (pre & ws & post & Hm & Hw & Hmin).
    exists pre, ws, post. split_and!; [by apply regex_match_in | done |].
    intros pre' ws' inner' post' Hm'%regex_match_in. exact (Hmin _ _ _ _ Hm'). }
  split; [apply Hs |]. intros Hl.
  destruct (tags_captures meta) as [[w i]|] eqn:E.
  - by destruct (leftmost_lazy_unique _ _ _ _ _ (Hs _ _ eq_refl) Hl) as [-> ->].
  - destruct Hl as (pre & ws & post & Hm & _). apply regex_match_in in Hm.
    by destruct (captures_go_none _ _ E _ _ _ _ Hm).
Qed.

End TagsRegex.
