(* ===== verification/NoteWriter.v ===== *)
(** * The note writer: [Entry::update_meta] and [Entry::write] of [entry.rs]

    [write] resolves the path, opens the file for appending (creating it),
    reads its size, writes the generated header when the size is zero,
    merges the tags into the header when the file is not empty and tags
    were given, and appends the entry line.  Every [io::Error] becomes an
    [Error] naming the path, and an error returns at once: what was
    written before it stays written.  The per-day file is a state machine
    driven by [write]; [run] drives it with a sequence of entries. *)
From stdpp Require Import base tactics list gmap.
From Stdlib Require Import Ascii String.
From S2P Require Import Prelude Errors PathModel FileSystem DateFormat PathResolver Meta.

Import Meta.

Module NoteWriter.

Local Open Scope til_scope.

(** [pub struct Entry { content: String, tags: Vec<String> }] *)
Record Entry : Type := mkEntry { content : string; tags : list string }.

(** [fn update_meta(&self, path: &PathBuf) -> Result<()>] *)
Definition update_meta (e : Entry) (path : string) : st FS Error unit :=
  contents <- st_map_err (fun _ => CannotReadFile path) (Fs.read_to_string path) ;;
  contents' <- st_lift (merge_meta (tags e) contents) ;;
  st_map_err (fun _ => CannotWriteToFile path) (Fs.write path contents').

(** [pub fn write(&self) -> Result<()>] *)
Definition write (env : Env) (e : Entry) : st FS Error unit :=
  path <- st_map_err (fun _ => CannotBuildPath) (PathResolver.build_path env) ;;
  st_map_err (fun _ => CannotOpenOrCreatePath path) (Fs.open_append_create path) ;;
  file_size <- st_map_err (fun _ => CannotReadFile path) (Fs.metadata_len path) ;;
  (if Nat.eqb file_size 0 then
     st_map_err (fun _ => CannotWriteToFile path) (Fs.write_all path (generate_meta (tags e)))
   else match tags e with
        | [] => st_ret tt
        | _ => update_meta e path
        end) ;;
  st_map_err (fun _ => CannotWriteToFile path) (Fs.write_all path (entry_line (content e))).

(** One invocation per entry, in order, on the same file system. *)
Fixpoint run (env : Env) (es : list Entry) (s : FS) : FS * list (result unit Error) :=
  match es with
  | [] => (s, [])
  | e :: es' =>
      let (s1, r) := write env e s in
      let (s2, rs) := run env es' s1 in
      (s2, r :: rs)
  end.

(** ** The day file as a state machine

    [ready env p s]: the day file [p] is resolved, its directory exists,
    [p] is no directory and the system refuses nothing on [p].  Then
    [write] acts on the contents of [p] alone, as [file_step] says. *)
Record ready (env : Env) (p : string) (s : FS) : Prop := {
  ready_path : PathResolver.day_path env = Some p;
  ready_parent : Fs.parent_is_dir p s = true;
  ready_not_dir : Fs.is_dir p s = false;
  ready_quiet : Fs.quiet p s = true
}.

(** What one [write] does to the contents of the day file: an empty (or
    new) file gets the generated header and the entry; otherwise the
    entry is appended, after the merge when tags were given, and a
    failed merge leaves the contents as they were. *)
Definition file_step (e : Entry) (old : string) : result string Error :=
  match old with
  | EmptyString => Ok (generate_meta (tags e) ++ entry_line (content e))
  | _ =>
      match tags e with
      | [] => Ok (old ++ entry_line (content e))
      | _ =>
          match merge_meta (tags e) old with
          | Ok c => Ok (c ++ entry_line (content e))
          | Err err => Err err
          end
      end
  end.

Definition apply_step (p : string) (r : result string Error) (s : FS) : FS * result unit Error :=
  match r with
  | Ok c => (Fs.set_file p c s, Ok tt)
  | Err err => (s, Err err)
  end.

Definition untagged (e : Entry) : bool :=
  match tags e with [] => true | _ => false end.

(** What each later write of the day returns. *)
Definition session_outcome (e : Entry) : result unit Error :=
  if untagged e then Ok tt else Err CannotParseMetaData.

(** The errors [write] can return. *)
Inductive write_error : Error -> Prop :=
| we_build : write_error CannotBuildPath
| we_open p : write_error (CannotOpenOrCreatePath p)
| we_read p : write_error (CannotReadFile p)
| we_parse : write_error CannotParseMetaData
| we_write p : write_error (CannotWriteToFile p).

Ltac solve_ready := split; vm_compute; reflexivity.

(** The day file after a first tagged write. *)
Definition example_written : FS :=
  Fs.set_file example_day (generate_meta ["coq"] ++ entries ["first"]) example_fs.

(** A day file whose first lines are no header. *)
Definition example_headerless : FS :=
  Fs.set_file example_day ("no header here" ++ NL ++ entry_line "first") example_fs.

(** A day file with an unindented header listing [coq]. *)
Definition example_documented : FS :=
  Fs.set_file example_day
    ("---" ++ NL ++ tags_line ["coq"] ++ NL ++ "---" ++ NL ++ entry_line "first") example_fs.

(** The documented day file on a system whose appends to it fail after
    four bytes (a full disk, say) but which still allows its rewrite. *)
Definition example_append_refused : FS :=
  mkFS (fs_files example_documented) (fs_dirs example_documented) {[ (OpAppend, example_day) ]} 4.

(** The documented day file on a system where rewriting it fails after
    [File::create] has truncated it, before a byte is written. *)
Definition example_rewrite_refused : FS :=
  mkFS (fs_files example_documented) (fs_dirs example_documented) {[ (OpWrite, example_day) ]} 0.

(** The day directory's name taken by a regular file. *)
Definition example_blocked : FS :=
  mkFS {[ "/home/ana/.til/notes/03-07-2024" := EmptyString ]}
       (list_to_set ["/home"; "/home/ana"; "/home/ana/.til"; "/home/ana/.til/notes"]) ∅ 0.

Lemma ready_set_file env p c s : ready env p s -> ready env p (Fs.set_file p c s).
Proof. intros []. by split. Qed.

Lemma write_fresh_contents env e p s :
  ready env p s -> (fs_files s !! p = None \/ fs_files s !! p = Some EmptyString) ->
  write env e s = (Fs.set_file p (generate_meta (tags e) ++ entry_line (content e)) s, Ok tt).
Proof.
  intros [Hpath Hpar Hnd Hq] Hp.
  assert (Hopen : exists s1, Fs.open_append_create p s = (s1, Ok tt) /\ fs_files s1 !! p = Some EmptyString
                             /\ Fs.quiet p s1 = true /\ forall c, Fs.set_file p c s1 = Fs.set_file p c s).
  { rewrite Fs.open_append_create_quiet by done. destruct Hp as [Hp | Hp]; rewrite Hp.
    - eexists; split_and!; [reflexivity | apply Fs.set_file_lookup | by rewrite Fs.quiet_set_file
                          | intros; apply Fs.set_file_set_file].
    - eexists; split_and!; [reflexivity | done | done | done]. }
  destruct Hopen as (s1 & Hopen & Hs1 & Hq1 & Hset).
  unfold write, st_bind, st_map_err, st_ret.
  rewrite (PathResolver.build_path_ready env p s) by done. rewrite Hopen.
  rewrite (Fs.metadata_len_quiet _ _ _ Hq1 Hs1). simpl.
  rewrite (Fs.write_all_quiet _ _ _ _ Hq1 Hs1), Fs.write_all_set_file by done.
  by rewrite Hset.
Qed.

(** [write] on a ready day file is [file_step] on its contents. *)
Theorem write_ready env e p s :
  ready env p s ->
  write env e s = apply_step p (file_step e (default EmptyString (fs_files s !! p))) s.
Proof.
  intros Hr.
  destruct (fs_files s !! p) as [[|c old]|] eqn:Hp;
    try (rewrite (write_fresh_contents env e p s) by auto; reflexivity).
  destruct Hr as [Hpath Hpar Hnd Hq].
  unfold write, update_meta, st_bind, st_map_err, st_ret, st_lift, file_step, apply_step.
  rewrite (PathResolver.build_path_ready env p s) by done.
  rewrite Fs.open_append_create_quiet, Hp by done.
  rewrite (Fs.metadata_len_quiet _ _ _ Hq Hp). simpl.
  destruct (tags e) as [|t ts] eqn:Ht.
  - by rewrite (Fs.write_all_quiet _ _ _ _ Hq Hp).
  - rewrite (Fs.read_to_string_quiet _ _ _ Hq Hp).
    destruct (merge_meta _ _) as [c'|err]; [| done].
    by rewrite Fs.write_quiet, Fs.write_all_set_file by done.
Qed.

(** ** Behaviour of [write] on a ready day file *)

Lemma generated_nonempty ts cs : generate_meta ts ++ entries cs <> EmptyString.
Proof. done. Qed.

Lemma write_nonempty env e p s old :
  ready env p s -> fs_files s !! p = Some old -> old <> EmptyString ->
  write env e s = apply_step p (file_step e old) s.
Proof. intros Hr Hp _. by rewrite (write_ready env e p s), Hp. Qed.

Lemma file_step_tagged e old :
  old <> EmptyString -> tags e <> [] ->
  file_step e old = match merge_meta (tags e) old with
                    | Ok c => Ok (c ++ entry_line (content e))
                    | Err err => Err err
                    end.
Proof. intros Ho Ht. unfold file_step. by destruct old, (tags e). Qed.

Lemma file_step_untagged e old :
  old <> EmptyString -> tags e = [] -> file_step e old = Ok (old ++ entry_line (content e)).
Proof. intros Ho Ht. unfold file_step. destruct old; [done |]. by rewrite Ht. Qed.

(** Claim C3: a first write of the day creates the file with exactly the
    generated header (the given tags, in order) followed by exactly one
    entry line. *)
Theorem write_new_file env e p s :
  ready env p s -> fs_files s !! p = None ->
  write env e s = (Fs.set_file p (generate_meta (tags e) ++ entry_line (content e)) s, Ok tt).
Proof. intros Hr Hp. apply write_fresh_contents; auto. Qed.

(** Claim C4: without tags, a write to a non-empty day file appends the
    entry line and touches nothing else. *)
Theorem write_untagged_appends env e p s old :
  ready env p s -> fs_files s !! p = Some old -> old <> EmptyString -> tags e = [] ->
  write env e s = (Fs.set_file p (old ++ entry_line (content e)) s, Ok tt).
Proof.
  intros Hr Hp Ho Ht. by rewrite (write_nonempty env e p s old), file_step_untagged.
Qed.

(** Claim C8: a tagged write to a file whose header block has no line
    matching the tags regex fails with [CannotParseMetaData], writes
    nothing and appends no entry. *)
Theorem write_rejects_malformed_header env e p s old :
  ready env p s -> fs_files s !! p = Some old -> old <> EmptyString -> tags e <> [] ->
  tags_captures (Str.split_first DELIM old) = None ->
  write env e s = (s, Err CannotParseMetaData).
Proof.
  intros Hr Hp Ho Ht Hm. rewrite (write_nonempty env e p s old), file_step_tagged by done.
  unfold merge_meta. by rewrite Hm.
Qed.

(** Claim C7: a tagged write whose tags are all already in the header
    leaves the file as it was, plus the entry line. *)
Theorem write_known_tags_idempotent env e p s old whole inner :
  ready env p s -> fs_files s !! p = Some old -> old <> EmptyString -> tags e <> [] ->
  tags_captures (Str.split_first DELIM old) = Some (whole, inner) ->
  Forall (fun t => t ∈ parse_existing inner) (tags e) ->
  write env e s = (Fs.set_file p (old ++ entry_line (content e)) s, Ok tt).
Proof.
  intros Hr Hp Ho Ht Hm Hin. rewrite (write_nonempty env e p s old), file_step_tagged by done.
  by rewrite (merge_meta_known _ _ whole inner).
Qed.

(** Claim C1: once the code has written a day file, every later write
    with tags fails with [CannotParseMetaData] and loses its entry: the
    header [generate_meta] writes indents [tags:] by four spaces, so the
    regex, anchored at the start of a line, never finds it. *)
Theorem write_tagged_after_first_fails env e p s ts cs :
  ready env p s -> fs_files s !! p = Some (generate_meta ts ++ entries cs) ->
  Forall inline ts -> Forall inline cs -> tags e <> [] ->
  write env e s = (s, Err CannotParseMetaData).
Proof.
  intros Hr Hp Hts Hcs Ht.
  rewrite (write_nonempty env e p s _ Hr Hp), file_step_tagged by done.
  by rewrite merge_meta_generated.
Qed.

(** ** A day of writes *)

Lemma run_generated env p s ts cs es :
  ready env p s -> fs_files s !! p = Some (generate_meta ts ++ entries cs) ->
  Forall inline ts -> Forall inline cs -> Forall (fun e => inline (content e)) es ->
  run env es s =
    (Fs.set_file p (generate_meta ts ++ entries (cs ++ map content (List.filter untagged es))) s,
     map session_outcome es).
Proof.
  intros Hr Hp Hts Hcs Hes. revert s cs Hr Hp Hcs.
  induction Hes as [|e es He Hes IH]; intros s cs Hr Hp Hcs; simpl.
  - by rewrite app_nil_r, Fs.set_file_id.
  - rewrite (write_nonempty env e p s _ Hr Hp) by done.
    unfold session_outcome at 1.
    destruct (untagged e) eqn:Hu; unfold untagged in Hu;
      destruct (tags e) as [|t ts'] eqn:Ht; try done.
    + rewrite file_step_untagged by done. unfold apply_step.
      rewrite (IH _ (cs ++ [content e])%list).
      * by rewrite Fs.set_file_set_file, <- app_assoc.
      * by apply ready_set_file.
      * by rewrite Fs.set_file_lookup, entries_app, append_assoc_str; simpl; rewrite append_nil_r_str.
      * apply Forall_app. by split; [| constructor].
    + rewrite file_step_tagged by (done || congruence).
      rewrite merge_meta_generated by done. unfold apply_step.
      by rewrite (IH s cs).
Qed.

(** Claim C2: a day that starts with no note file: the first write
    creates the header with its tags; afterwards every untagged write
    appends its entry (in call order) and every tagged one fails with
    [CannotParseMetaData] and changes nothing. *)
Theorem run_day_session env p s e0 es :
  ready env p s -> fs_files s !! p = None ->
  Forall inline (tags e0) -> Forall (fun e => inline (content e)) (e0 :: es) ->
  run env (e0 :: es) s =
    (Fs.set_file p (generate_meta (tags e0)
                    ++ entries (content e0 :: map content (List.filter untagged es))) s,
     Ok tt :: map session_outcome es).
Proof.
  intros Hr Hp Hts Hes. inversion Hes as [|? ? He0 Hes']; subst. simpl.
  rewrite (write_fresh_contents env e0 p s) by auto.
  rewrite (run_generated env p _ (tags e0) [content e0] es); [| | | done | | done].
  - by rewrite Fs.set_file_set_file.
  - by apply ready_set_file.
  - rewrite Fs.set_file_lookup. simpl. by rewrite append_nil_r_str.
  - by constructor.
Qed.

(** Claim C15: what a failed [update_meta] leaves behind.  A failed
    read, a failed parse or a refused [File::create] change nothing; a
    write-back that fails after [File::create] has truncated the day file
    leaves it holding a proper prefix of the merged contents (possibly
    nothing), so the old header and entries are lost. *)
Theorem update_meta_failure e p s s' err :
  update_meta e p s = (s', Err err) ->
  s' = s
  \/ (err = CannotWriteToFile p
      /\ exists old c, fs_files s !! p = Some old /\ merge_meta (tags e) old = Ok c
         /\ s' = Fs.set_file p (Fs.short_prefix (fs_short s) c) s).
Proof.
  unfold update_meta, st_bind, st_map_err, st_lift.
  pose proof (Fs.read_to_string_state p s) as Hs.
  destruct (Fs.read_to_string p s) as [s1 [c|[]]] eqn:Hrd; simpl in Hs; subst s1;
    [| intros [= <- _]; by left].
  destruct (merge_meta (tags e) c) as [a|] eqn:Hm; [| intros [= <- _]; by left].
  destruct (Fs.write p a s) as [s2 [[]|[]]] eqn:Hw; [done |]. intros [= <- <-].
  destruct (Fs.write_err_state p a s s2 Hw) as [-> | ->]; [by left | right].
  split; [done |]. exists c, a. split_and!; [| done | done].
  unfold Fs.read_to_string in Hrd. by repeat case_match; simplify_eq.
Qed.

Lemma merge_meta_error tags c err : merge_meta tags c = Err err -> err = CannotParseMetaData.
Proof. unfold merge_meta. by repeat case_match; intros [=]. Qed.

(** Claim C17: [write] only ever fails with [CannotBuildPath],
    [CannotOpenOrCreatePath], [CannotReadFile], [CannotParseMetaData] or
    [CannotWriteToFile]: the [CannotFindDir] and [CannotCreateDir] of
    [build_path] are all reported as [CannotBuildPath]. *)
Theorem write_errors env e s :
  match write env e s with
  | (_, Err err) => write_error err
  | (_, Ok _) => True
  end.
Proof.
  unfold write, update_meta, st_bind, st_map_err, st_lift, st_ret.
  repeat case_match; simplify_eq; try constructor.
  all: match goal with H : merge_meta _ _ = Err _ |- _ => apply merge_meta_error in H end.
  all: subst; constructor.
Qed.

(** Claim C18: when a regular file sits where the day directory should
    be, [build_path] accepts it ([Path::exists] is true) and [write]
    fails when opening the note with [CannotOpenOrCreatePath], where the
    spec names [CannotCreateDir]; nothing is written. *)
Theorem write_day_dir_is_file env e p d s :
  PathResolver.day_path env = Some p -> PathModel.parent p = Some d ->
  Fs.is_dir d s = false -> Fs.is_file d s = true ->
  write env e s = (s, Err (CannotOpenOrCreatePath p)).
Proof.
  intros Hp Hd Hnd Hf.
  assert (He : Fs.exists_ d s = true).
  { unfold Fs.exists_. by rewrite Hf, orb_true_r. }
  unfold write, st_bind, st_map_err. rewrite (PathResolver.build_path_existing env p d s Hp Hd He).
  unfold Fs.open_append_create, Fs.parent_is_dir. rewrite Hd, Hnd.
  by rewrite !orb_true_r.
Qed.

(** ** A failure after the merge *)

(** Claim C14: when the system allows the rewrite of the day file but
    the append fails (a full disk), a tagged write merges the tags into
    the header, then fails with [CannotWriteToFile]: the header changed
    and at most a proper prefix of the entry line was appended, where the
    spec promises that an error exposes no partial success. *)
Theorem write_append_refused_after_merge env e p s old c :
  PathResolver.day_path env = Some p -> Fs.parent_is_dir p s = true -> Fs.is_dir p s = false ->
  Fs.faulty OpOpen p s = false -> Fs.faulty OpMetadata p s = false ->
  Fs.faulty OpRead p s = false -> Fs.faulty OpCreate p s = false -> Fs.faulty OpWrite p s = false ->
  Fs.faulty OpAppend p s = true ->
  fs_files s !! p = Some old -> old <> EmptyString -> tags e <> [] ->
  merge_meta (tags e) old = Ok c ->
  write env e s
  = (Fs.set_file p (c ++ Fs.short_prefix (fs_short s) (entry_line (content e))) s,
     Err (CannotWriteToFile p)).
Proof.
  intros Hp Hpar Hnd Ho Hm Hr Hcr Hw Ha Hold Hne Ht Hc.
  unfold write, update_meta, st_bind, st_map_err, st_lift, st_ret.
  rewrite (PathResolver.build_path_ready env p s) by done.
  unfold Fs.open_append_create. rewrite Ho, Hnd, Hpar, Hold. simpl.
  unfold Fs.metadata_len. rewrite Hm, Hold.
  destruct old as [|x old]; [done |]. simpl.
  destruct (tags e) as [|t ts] eqn:Et; [done |].
  unfold Fs.read_to_string. rewrite Hr, Hold, Hc.
  unfold Fs.write, Fs.write_fails. rewrite Hcr, Hw, Hnd, Hpar. simpl.
  unfold Fs.write_all, Fs.write_fails. rewrite Fs.set_file_lookup, Fs.faulty_set_file, Ha.
  simpl. by rewrite Fs.set_file_set_file.
Qed.

(** ** Witnesses, on the example day of [PathResolver] *)

Lemma write_new_file_witness :
  write example_env (mkEntry "learned rocq" ["coq"]) example_fs
  = (Fs.set_file example_day (generate_meta ["coq"] ++ entry_line "learned rocq") example_fs, Ok tt).
Proof. apply write_new_file; [solve_ready | vm_compute; reflexivity]. Defined.

Lemma write_untagged_appends_witness :
  write example_env (mkEntry "second" []) example_written
  = (Fs.set_file example_day ((generate_meta ["coq"] ++ entries ["first"]) ++ entry_line "second")
       example_written, Ok tt).
Proof.
  apply write_untagged_appends; [solve_ready | vm_compute; reflexivity | done | reflexivity].
Defined.

Lemma write_rejects_malformed_header_witness :
  write example_env (mkEntry "second" ["rust"]) example_headerless
  = (example_headerless, Err CannotParseMetaData).
Proof.
  apply (write_rejects_malformed_header _ _ example_day _ ("no header here" ++ NL ++ entry_line "first"));
    [solve_ready | vm_compute; reflexivity | done | done | vm_compute; reflexivity].
Defined.

Lemma write_known_tags_idempotent_witness :
  write example_env (mkEntry "second" ["coq"]) example_documented
  = (Fs.set_file example_day
       (("---" ++ NL ++ tags_line ["coq"] ++ NL ++ "---" ++ NL ++ entry_line "first")
          ++ entry_line "second") example_documented, Ok tt).
Proof.
  apply (write_known_tags_idempotent example_env (mkEntry "second" ["coq"]) example_day
           example_documented _ (tags_line ["coq"]) "coq");
    [solve_ready | vm_compute; reflexivity | done | done | vm_compute; reflexivity |].
  repeat constructor.
Defined.

Lemma write_tagged_after_first_fails_witness :
  write example_env (mkEntry "second" ["rust"]) example_written
  = (example_written, Err CannotParseMetaData).
Proof.
  apply (write_tagged_after_first_fails _ _ example_day _ ["coq"] ["first"]);
    [solve_ready | vm_compute; reflexivity | repeat constructor | repeat constructor | done].
Defined.

Lemma run_day_session_witness :
  run example_env [mkEntry "first" ["coq"]; mkEntry "second" []; mkEntry "third" ["rust"]] example_fs
  = (Fs.set_file example_day (generate_meta ["coq"] ++ entries ["first"; "second"]) example_fs,
     [Ok tt; Ok tt; Err CannotParseMetaData]).
Proof.
  apply run_day_session; [solve_ready | vm_compute; reflexivity | repeat constructor | repeat constructor].
Defined.

Lemma write_day_dir_is_file_witness :
  write example_env (mkEntry "first" []) example_blocked
  = (example_blocked, Err (CannotOpenOrCreatePath example_day)).
Proof.
  apply (write_day_dir_is_file _ _ _ "/home/ana/.til/notes/03-07-2024");
    vm_compute; reflexivity.
Defined.

Lemma write_append_refused_after_merge_witness :
  write example_env (mkEntry "second" ["rust"]) example_append_refused
  = (Fs.set_file example_day
       (("---" ++ NL ++ tags_line ["coq"; "rust"] ++ NL ++ "---" ++ NL ++ entry_line "first")
        ++ Fs.short_prefix (fs_short example_append_refused) (entry_line "second"))
       example_append_refused, Err (CannotWriteToFile example_day))
  /\ Fs.short_prefix (fs_short example_append_refused) (entry_line "second") = "- se".
Proof.
  split; [| reflexivity].
  apply (write_append_refused_after_merge example_env (mkEntry "second" ["rust"]) example_day
           example_append_refused
           ("---" ++ NL ++ tags_line ["coq"] ++ NL ++ "---" ++ NL ++ entry_line "first")
           ("---" ++ NL ++ tags_line ["coq"; "rust"] ++ NL ++ "---" ++ NL ++ entry_line "first"));
    try (vm_compute; reflexivity); done.
Defined.

Lemma update_meta_failure_witness :
  update_meta (mkEntry "second" ["rust"]) example_day example_rewrite_refused
    = (Fs.set_file example_day EmptyString example_rewrite_refused, Err (CannotWriteToFile example_day))
  /\ (Fs.set_file example_day EmptyString example_rewrite_refused = example_rewrite_refused
      \/ (CannotWriteToFile example_day = CannotWriteToFile example_day
          /\ exists old c, fs_files example_rewrite_refused !! example_day = Some old
             /\ merge_meta ["rust"] old = Ok c
             /\ Fs.set_file example_day EmptyString example_rewrite_refused
                = Fs.set_file example_day (Fs.short_prefix (fs_short example_rewrite_refused) c)
                    example_rewrite_refused)).
Proof.
  assert (H : update_meta (mkEntry "second" ["rust"]) example_day example_rewrite_refused
    = (Fs.set_file example_day EmptyString example_rewrite_refused, Err (CannotWriteToFile example_day)))
    by (vm_compute; reflexivity).
  split; [exact H | exact (update_meta_failure _ _ _ _ _ H)].
Defined.

End NoteWriter.
