(* ===== verification/NoteSpec.v ===== *)
(** * The note file as the spec documents it, and the refinement

    The spec (section 6) documents the file as an unindented front matter
    [---], [title: "default"], [tags: [t1, t2]], [---], an empty line, and
    the entry lines.  [doc_file] is that text.  [Note] is the abstract
    document (the tag list and the entries) and [spec_append] is what the
    spec promises one write does to it: the entry goes last, and the new
    tags go after the existing ones, once each, in input order;
    [spec_run] is a day of writes.

    [run_refines_spec] proves that on a file of that format the code's
    [NoteWriter.run] is [spec_run] under [render], when the tags are well
    formed ([note_ok], [entry_ok]).  The lemmas before it compute the
    merge on such a file: where the header ends, what the regex
    captures, and that [Str.replace] hits only the tags line.  The
    theorems at the end compute [merge_meta] (the code's merge) on every
    file of a given shape and show where it departs from the promise
    outside those hypotheses: entries quoting the tags line, an empty
    tag list, repeated input tags, input tags with surrounding spaces. *)
From stdpp Require Import base tactics list gmap strings.
From Stdlib Require Import Ascii String.
From S2P Require Import Prelude Errors FileSystem PathResolver Meta NoteWriter.

Import Meta.

Module NoteSpec.

(** The header of section 6 of the spec. *)
Definition doc_header (ts : list string) : string :=
  "---" ++ NL
  ++ "title: " ++ DQ ++ "default" ++ DQ ++ NL
  ++ tags_line ts ++ NL
  ++ "---" ++ NL
  ++ NL.

Definition doc_file (ts cs : list string) : string := doc_header ts ++ entries cs.

(** The abstract note document. *)
Record Note : Type := mkNote { note_tags : list string; note_entries : list string }.

Definition render (n : Note) : string := doc_file (note_tags n) (note_entries n).

(** The tags of [add] not yet in [have], once each, in input order. *)
Fixpoint fresh_tags (have add : list string) : list string :=
  match add with
  | [] => []
  | t :: add' =>
      if contains have t then fresh_tags have add' else t :: fresh_tags (have ++ [t]) add'
  end.

(** One write, as the spec describes it. *)
Definition spec_append (n : Note) (c : string) (tags : list string) : Note :=
  mkNote (note_tags n ++ fresh_tags (note_tags n) tags) (note_entries n ++ [c]).

(** A whole day of writes, as the spec describes it. *)
Fixpoint spec_run (n : Note) (es : list NoteWriter.Entry) : Note :=
  match es with
  | [] => n
  | e :: es' => spec_run (spec_append n (NoteWriter.content e) (NoteWriter.tags e)) es'
  end.

(** The header up to the tags line, and what follows the tags line. *)
Definition title_block : string := "---" ++ NL ++ "title: " ++ DQ ++ "default" ++ DQ ++ NL.

Definition doc_tail (cs : list string) : string := NL ++ "---" ++ NL ++ NL ++ entries cs.

Definition lbracket : ascii := "["%char.

(** A documented note the code can read back: at least one tag, every
    tag as [tag_ok] says, and no entry quoting a bracket (an entry may
    otherwise repeat the tags line, which the merge would rewrite). *)
Definition note_ok (n : Note) : Prop :=
  note_tags n <> [] /\ Forall tag_ok (note_tags n)
  /\ Forall (fun c => char_free lbracket c = true) (note_entries n).

(** An entry as the spec expects it: well-formed tags, each given once,
    and a content without a bracket. *)
Definition entry_ok (e : NoteWriter.Entry) : Prop :=
  Forall tag_ok (NoteWriter.tags e) /\ NoDup (NoteWriter.tags e)
  /\ char_free lbracket (NoteWriter.content e) = true.

(** The example day file of [PathResolver] in the documented format. *)
Definition example_note : Note := mkNote ["coq"] ["first"].

Definition example_doc_fs : FS := Fs.set_file example_day (render example_note) example_fs.

(** ** The merge on the documented format *)

Lemma doc_file_split ts cs : doc_file ts cs = title_block ++ tags_line ts ++ doc_tail cs.
Proof. unfold doc_file, doc_header, title_block, doc_tail. by autorewrite with strs. Qed.

Lemma doc_file_snoc ts cs c : doc_file ts (cs ++ [c]) = doc_file ts cs ++ entry_line c.
Proof. unfold doc_file. by rewrite entries_app, append_assoc_str; simpl; rewrite append_nil_r_str. Qed.

Lemma render_nonempty n : render n <> EmptyString.
Proof. done. Qed.

Lemma captures_title x : captures_go true (title_block ++ x) = captures_go true x.
Proof. reflexivity. Qed.

Lemma split_once_title x :
  Str.split_once DELIM (title_block ++ "tags: [" ++ x)
  = match Str.split_once DELIM x with
    | Some (a, b) => Some (title_block ++ "tags: [" ++ a, b)
    | None => None
    end.
Proof. simpl. rewrite append_nil_l_str. by destruct (Str.split_once DELIM x) as [[]|]. Qed.

Lemma replace_go_title n f to x :
  Str.replace_go (String.length title_block + n) (String "t" (String "a" f)) to (title_block ++ x)
  = title_block ++ Str.replace_go n (String "t" (String "a" f)) to x.
Proof. reflexivity. Qed.

(** The header block [update_meta] reads ends with the tags line. *)
Lemma split_first_doc ts cs :
  Forall inline ts -> Str.split_first DELIM (doc_file ts cs) = title_block ++ tags_line ts.
Proof.
  intros Hts. unfold Str.split_first. rewrite doc_file_split. unfold tags_line.
  rewrite !append_assoc_str, split_once_title.
  change DELIM with (String nl_char ("---" ++ NL)).
  rewrite (split_once_skip nl_char) by (by apply char_free_join). reflexivity.
Qed.

Lemma tags_captures_doc ts cs :
  Forall inline ts ->
  tags_captures (Str.split_first DELIM (doc_file ts cs)) = Some (tags_line ts, Str.join ", " ts).
Proof.
  intros Hts. rewrite split_first_doc by done. unfold tags_captures. rewrite captures_title.
  apply captures_go_here. rewrite <- (append_nil_r_str (tags_line ts)) at 1.
  by apply match_here_tags_line.
Qed.

Lemma char_free_entries c cs :
  Forall (fun x => char_free c x = true) cs ->
  char_free c "- " = true -> char_free c NL = true ->
  char_free c (entries cs) = true.
Proof.
  intros H Hd Hn. induction H as [|x xs Hx _ IH]; [done |].
  change (entries (x :: xs)) with (("- " ++ x ++ NL) ++ entries xs).
  by rewrite !char_free_app, Hd, Hx, Hn, IH.
Qed.

(** The tags line occurs once in a documented file without brackets in
    its entries, so replacing every occurrence replaces that line. *)
Lemma replace_doc ts to cs :
  Forall (fun x => char_free lbracket x = true) cs ->
  Str.replace (tags_line ts) to (doc_file ts cs) = title_block ++ to ++ doc_tail cs.
Proof.
  intros Hcs. rewrite doc_file_split.
  set (f := "gs: [" ++ Str.join ", " ts ++ "]").
  assert (Hf : tags_line ts = String "t" (String "a" f)) by reflexivity. rewrite !Hf.
  rewrite replace_nonempty, !length_append_str, <- Nat.add_succ_r, replace_go_title, replace_go_at.
  rewrite (replace_go_free lbracket); [done | | reflexivity].
  unfold doc_tail. rewrite !char_free_app. by rewrite char_free_entries.
Qed.

(** On input without repetitions, the code's filter is the spec's
    first-occurrence deduplication. *)
Lemma fresh_tags_filter have add :
  NoDup add -> fresh_tags have add = List.filter (fun t => negb (contains have t)) add.
Proof.
  revert have. induction add as [|t add IH]; intros have Hnd; [done |].
  apply NoDup_cons in Hnd as [Ht Hnd]. simpl.
  destruct (contains have t) eqn:E; simpl; [by apply IH |].
  f_equal. rewrite IH by done. apply filter_ext_in. intros u Hu%list_elem_of_In.
  rewrite contains_app. replace (contains [t] u) with false; [by rewrite orb_false_r |].
  symmetry. unfold contains. simpl. rewrite orb_false_r. apply String.eqb_neq. by intros ->.
Qed.

Lemma fresh_tags_Forall (P : string -> Prop) have add :
  Forall P add -> Forall P (fresh_tags have add).
Proof.
  intros H. revert have. induction H as [|t add Ht _ IH]; intros have; simpl; [done |].
  destruct (contains have t); [done |]. by constructor.
Qed.

(** The merge on a documented file whose tags need not be trimmed: the
    header is read back trimmed, and rewritten only when a tag is new. *)
Lemma merge_meta_doc_trim tags ts cs :
  ts <> [] -> Forall (fun x => char_free comma x = true /\ inline x) ts ->
  Forall (fun x => char_free lbracket x = true) cs ->
  merge_meta tags (doc_file ts cs)
  = Ok (match List.filter (fun t => negb (contains (map Str.trim ts) t)) tags with
        | [] => doc_file ts cs
        | t :: new => doc_file (map Str.trim ts ++ t :: new) cs
        end).
Proof.
  intros Hne Hts Hcs.
  assert (Hc : Forall (fun x => char_free comma x = true) ts) by (eapply Forall_impl; [exact Hts | by intros ? []]).
  assert (Hi : Forall inline ts) by (eapply Forall_impl; [exact Hts | by intros ? []]).
  unfold merge_meta. cbv zeta. rewrite tags_captures_doc, parse_existing_join_trim by done.
  destruct (List.filter _ tags) as [|t new]; [done |].
  by rewrite replace_doc, doc_file_split.
Qed.

Lemma tag_ok_fields ts :
  Forall tag_ok ts -> Forall (fun x => char_free comma x = true /\ inline x) ts.
Proof. intros H. eapply Forall_impl; [done | by intros ? (? & ? & _)]. Qed.

Lemma merge_meta_doc tags ts cs :
  ts <> [] -> Forall tag_ok ts -> Forall (fun x => char_free lbracket x = true) cs ->
  merge_meta tags (doc_file ts cs)
  = Ok (doc_file (ts ++ List.filter (fun t => negb (contains ts t)) tags) cs).
Proof.
  intros Hne Hts Hcs. rewrite merge_meta_doc_trim by auto using tag_ok_fields.
  rewrite map_trim_tag_ok by done. by destruct (List.filter _ tags); [rewrite app_nil_r |].
Qed.

(** The tags line of a documented file is replaced wherever it occurs,
    in the entries too. *)
Lemma replace_doc_lines ts to cs :
  Forall inline ts -> Forall inline cs ->
  Str.replace (tags_line ts) to (doc_file ts cs)
  = title_block ++ to ++ doc_tail (map (Str.replace (tags_line ts) to) cs).
Proof.
  intros Hts Hcs. pose proof (tags_line_inline ts Hts) as Hl.
  assert (Hb : char_free lbracket (tags_line ts) = false) by reflexivity.
  rewrite doc_file_split.
  change (title_block ++ tags_line ts ++ doc_tail cs)
    with ("---" ++ String nl_char (("title: " ++ DQ ++ "default" ++ DQ)
          ++ String nl_char (tags_line ts ++ String nl_char ("---" ++ String nl_char
          (String nl_char (entries cs)))))).
  rewrite !replace_split by (done || reflexivity).
  rewrite (replace_free lbracket _ _ "---"), (replace_free lbracket _ _ ("title: " ++ _)), replace_self
    by (done || reflexivity).
  rewrite replace_cons_sep by done.
  change (tags_line ts) with (String "t"%char ("ags: [" ++ Str.join ", " ts ++ "]")).
  rewrite replace_entries by done. reflexivity.
Qed.

Lemma filter_contains_empty tags :
  Forall (fun t => t <> EmptyString) tags -> List.filter (fun t => negb (contains [EmptyString] t)) tags = tags.
Proof.
  induction 1 as [|t tags Ht _ IH]; [done |]. cbn [List.filter]. rewrite IH.
  replace (contains [EmptyString] t) with false; [done |].
  symmetry. unfold contains. cbn [existsb]. rewrite orb_false_r. by apply String.eqb_neq.
Qed.

Lemma count_occ_filter_keep (f : string -> bool) l t :
  f t = true -> count_occ string_dec (List.filter f l) t = count_occ string_dec l t.
Proof.
  intros Ht. induction l as [|u l IH]; [done |]. cbn [List.filter count_occ].
  destruct (f u) eqn:Eu; cbn [count_occ]; destruct (string_dec u t); subst; congruence.
Qed.

(** The spec adds a tag at most once, and not at all when it is there. *)
Lemma fresh_tags_count have add t :
  count_occ string_dec (fresh_tags have add) t <= if contains have t then 0 else 1.
Proof.
  revert have. induction add as [|u add IH]; intros have; cbn [fresh_tags count_occ].
  { destruct (contains have t); lia. }
  destruct (contains have u) eqn:Eu; [apply IH |]. cbn [count_occ].
  specialize (IH (have ++ [u])%list). rewrite contains_app in IH.
  unfold contains at 2 in IH. cbn [existsb] in IH. rewrite orb_false_r in IH.
  destruct (string_dec u t) as [->|Hne].
  - rewrite String.eqb_refl, orb_true_r in IH. rewrite Eu. lia.
  - rewrite (proj2 (String.eqb_neq t u)), orb_false_r in IH by congruence. done.
Qed.

(** A tag with a space in front is never in a list of trimmed tags. *)
Lemma contains_untrimmed xs t :
  Forall tag_ok xs -> Str.trim t = t -> contains xs (String " "%char t) = false.
Proof.
  intros Hxs Ht. destruct (contains xs _) eqn:E; [| done].
  apply contains_true in E. rewrite Forall_forall in Hxs.
  destruct (Hxs _ E) as (_ & _ & Htr). rewrite trim_space, Ht in Htr.
  apply (f_equal String.length) in Htr. simpl in Htr. lia.
Qed.

Lemma repeat_snoc {A} (t : A) k : (repeat t k ++ [t])%list = repeat t (S k).
Proof. induction k as [|k IH]; [done |]. cbn [repeat app]. by rewrite IH. Qed.

Lemma Forall_repeat {A} (P : A -> Prop) t k : P t -> Forall P (repeat t k).
Proof. intros H. induction k; constructor; auto. Qed.

Lemma note_ok_append n e : note_ok n -> entry_ok e ->
  note_ok (spec_append n (NoteWriter.content e) (NoteWriter.tags e)).
Proof.
  intros (Hne & Hts & Hcs) (Het & _ & Hc). split_and!; simpl.
  - destruct (note_tags n); done.
  - apply Forall_app. split; [done |]. by apply fresh_tags_Forall.
  - apply Forall_app. by split; [| constructor].
Qed.

(** One write on a documented day file is [spec_append] on its note. *)
Lemma write_doc env e p s n :
  NoteWriter.ready env p s -> fs_files s !! p = Some (render n) -> note_ok n -> entry_ok e ->
  NoteWriter.write env e s
  = (Fs.set_file p (render (spec_append n (NoteWriter.content e) (NoteWriter.tags e))) s, Ok tt).
Proof.
  intros Hr Hp (Hne & Hts & Hcs) (_ & Hnd & _).
  rewrite (NoteWriter.write_ready env e p s Hr), Hp. cbn [default id].
  unfold spec_append, render. cbn [note_tags note_entries].
  destruct (NoteWriter.tags e) as [|t ts] eqn:Ht.
  - rewrite NoteWriter.file_step_untagged by done. simpl. by rewrite app_nil_r, doc_file_snoc.
  - rewrite NoteWriter.file_step_tagged, Ht by (done || by rewrite Ht).
    rewrite merge_meta_doc, fresh_tags_filter by done. by rewrite doc_file_snoc.
Qed.

(** ** Refinement: the code implements the documented behaviour

    On a day file in the documented format, [NoteWriter.write] and
    [NoteWriter.run] change the file exactly as [spec_append] and
    [spec_run] change the abstract note, and return [Ok] for every
    write. *)

(** Claim C6: a day of writes on a documented day file: the file ends
    up as the rendering of the note [spec_run] computes (entries
    appended in call order, new tags added once each after the existing
    ones) and every write returns [Ok], provided the note and the
    entries are as [note_ok] and [entry_ok] say. *)
Theorem run_refines_spec env p s n es :
  NoteWriter.ready env p s -> fs_files s !! p = Some (render n) -> note_ok n ->
  Forall entry_ok es ->
  NoteWriter.run env es s = (Fs.set_file p (render (spec_run n es)) s, map (fun _ => Ok tt) es).
Proof.
  intros Hr Hp Hn Hes. revert n s Hr Hp Hn.
  induction Hes as [|e es He _ IH]; intros n s Hr Hp Hn; simpl.
  - by rewrite Fs.set_file_id.
  - rewrite (write_doc env e p s n) by done.
    rewrite (IH (spec_append n (NoteWriter.content e) (NoteWriter.tags e)));
      [| by apply NoteWriter.ready_set_file | apply Fs.set_file_lookup | by apply note_ok_append].
    by rewrite Fs.set_file_set_file.
Qed.

Lemma run_refines_spec_witness :
  NoteWriter.run example_env [NoteWriter.mkEntry "second" ["rust"; "coq"]; NoteWriter.mkEntry "third" []]
    example_doc_fs
  = (Fs.set_file example_day (render (mkNote ["coq"; "rust"] ["first"; "second"; "third"])) example_doc_fs,
     [Ok tt; Ok tt]).
Proof.
  apply (run_refines_spec example_env example_day example_doc_fs example_note).
  - split; vm_compute; reflexivity.
  - vm_compute. reflexivity.
  - split_and!; [done | repeat constructor | repeat constructor].
  - repeat constructor; try (apply (bool_decide_unpack _); reflexivity).
Defined.

(** Claim C13: merging tags into a documented header with distinct tags,
    with input tags that are distinct, gives a header whose tags are
    distinct and are exactly the old tags and the input tags, the old
    ones first in their order; the entries are unchanged. *)
Theorem merge_meta_unique_tags tags ts cs :
  ts <> [] -> Forall tag_ok ts -> Forall (fun c => char_free lbracket c = true) cs ->
  NoDup ts -> NoDup tags ->
  exists new, merge_meta tags (doc_file ts cs) = Ok (doc_file (ts ++ new) cs)
    /\ NoDup (ts ++ new) /\ (forall t, t ∈ (ts ++ new)%list <-> t ∈ ts \/ t ∈ tags).
Proof.
  intros Hne Hts Hcs Hnd Hnd'. eexists. split; [by apply merge_meta_doc |].
  split.
  - apply NoDup_app. split_and!; [done | | by apply NoDup_ListNoDup, List.NoDup_filter, NoDup_ListNoDup].
    intros t Ht Hf. apply list_elem_of_In, filter_In in Hf as [_ Hc].
    apply contains_true in Ht. by rewrite Ht in Hc.
  - intros t. rewrite elem_of_app, (list_elem_of_In (List.filter _ _)), filter_In.
    rewrite <- list_elem_of_In, <- contains_true. destruct (contains ts t); simpl; intuition congruence.
Qed.

Lemma merge_meta_unique_tags_witness :
  exists new, merge_meta ["b"; "c"] (doc_file ["a"; "b"] ["x"]) = Ok (doc_file (["a"; "b"] ++ new) ["x"])
    /\ NoDup (["a"; "b"] ++ new) /\ (forall t, t ∈ (["a"; "b"] ++ new)%list <-> t ∈ ["a"; "b"] \/ t ∈ ["b"; "c"]).
Proof.
  apply merge_meta_unique_tags; [done | repeat constructor | repeat constructor | |];
    apply (bool_decide_unpack _); reflexivity.
Defined.

(** ** Where the code's merge departs from the documented behaviour *)

(** Claim C19: the merge replaces every occurrence of the old tags line
    in the whole file: in a documented file with one-line entries, every
    entry that quotes the tags line is rewritten too, where the spec says
    only the header line is replaced. *)
Theorem merge_rewrites_entry tags ts cs :
  ts <> [] -> Forall tag_ok ts -> Forall inline cs ->
  List.filter (fun t => negb (contains ts t)) tags <> [] ->
  merge_meta tags (doc_file ts cs)
  = Ok (doc_file (ts ++ List.filter (fun t => negb (contains ts t)) tags)
          (map (Str.replace (tags_line ts) (tags_line (ts ++ List.filter (fun t => negb (contains ts t)) tags)))
               cs)).
Proof.
  intros Hne Hts Hcs Hnew. unfold merge_meta. cbv zeta.
  rewrite tags_captures_doc, parse_existing_join by (done || by apply tag_ok_inline).
  destruct (List.filter _ tags) as [|t new]; [done |].
  by rewrite replace_doc_lines, doc_file_split by (done || by apply tag_ok_inline).
Qed.

Lemma merge_rewrites_entry_witness :
  merge_meta ["b"] (doc_file ["a"] ["see tags: [a] above"])
  = Ok (doc_file (["a"] ++ ["b"]) ["see tags: [a, b] above"]).
Proof.
  rewrite (merge_rewrites_entry ["b"] ["a"] ["see tags: [a] above"]);
    [reflexivity | done | repeat constructor | repeat constructor | done].
Defined.

(** Claim C20: a header with no tags, [tags: []], is read as one empty
    tag, so every merge of non-empty tags into it writes
    [tags: [, t1, ..., tn]]. *)
Theorem merge_into_empty_tags tags cs :
  tags <> [] -> Forall (fun t => t <> EmptyString) tags ->
  Forall (fun c => char_free lbracket c = true) cs ->
  merge_meta tags (doc_file [] cs) = Ok (doc_file (EmptyString :: tags) cs).
Proof.
  intros Hne Hts Hcs. change (doc_file [] cs) with (doc_file [EmptyString] cs).
  rewrite merge_meta_doc by (done || by repeat constructor).
  by rewrite filter_contains_empty.
Qed.

Lemma merge_into_empty_tags_witness :
  merge_meta ["rust"] (doc_file [] ["x"]) = Ok (doc_file [""; "rust"] ["x"]).
Proof. apply merge_into_empty_tags; [done | repeat constructor; done | repeat constructor]. Defined.

(** Claim C21: input tags are filtered against the existing tags only,
    not against each other: a new tag given [k] times is added [k]
    times, where the spec adds it once. *)
Theorem merge_duplicates_input tags ts cs t :
  ts <> [] -> Forall tag_ok ts -> Forall (fun c => char_free lbracket c = true) cs -> t ∉ ts ->
  exists new, merge_meta tags (doc_file ts cs) = Ok (doc_file (ts ++ new) cs)
    /\ count_occ string_dec new t = count_occ string_dec tags t
    /\ count_occ string_dec (fresh_tags ts tags) t <= 1.
Proof.
  intros Hne Hts Hcs Ht. eexists. split_and!; [by apply merge_meta_doc | |].
  - apply count_occ_filter_keep. destruct (contains ts t) eqn:E; [| done].
    by apply contains_true in E.
  - pose proof (fresh_tags_count ts tags t). destruct (contains ts t); lia.
Qed.

Lemma merge_duplicates_input_witness :
  exists new, merge_meta ["b"; "b"] (doc_file ["a"] []) = Ok (doc_file (["a"] ++ new) [])
    /\ count_occ string_dec new "b" = count_occ string_dec ["b"; "b"] "b"
    /\ count_occ string_dec (fresh_tags ["a"] ["b"; "b"]) "b" <= 1.
Proof.
  apply merge_duplicates_input; [done | repeat constructor | constructor |].
  apply (bool_decide_unpack _). reflexivity.
Defined.

(** Claim C23: existing tags are trimmed but input tags are not, so a
    tag already listed, given again with a space in front, is added by
    the first write and again by every later one: the header lists the
    tag once more per write. *)
Theorem merge_untrimmed_tag_repeats ts cs t k :
  ts <> [] -> Forall tag_ok ts -> Forall (fun c => char_free lbracket c = true) cs -> t ∈ ts ->
  merge_meta [String " "%char t] (doc_file ts cs) = Ok (doc_file (ts ++ [String " "%char t]) cs)
  /\ merge_meta [String " "%char t] (doc_file (ts ++ repeat t k ++ [String " "%char t]) cs)
     = Ok (doc_file (ts ++ repeat t (S k) ++ [String " "%char t]) cs).
Proof.
  intros Hne Hts Hcs Ht. pose proof (proj1 (Forall_forall _ _) Hts t Ht) as Htok.
  pose proof Htok as (Htc & Hti & Htt). split.
  - rewrite merge_meta_doc by done. cbn [List.filter]. by rewrite contains_untrimmed.
  - rewrite merge_meta_doc_trim; [| by destruct ts | |done].
    + rewrite !map_app, map_trim_tag_ok, map_repeat, Htt by done. cbn [map List.filter].
      rewrite trim_space, Htt, contains_untrimmed; [| |done].
      * cbn [negb]. by rewrite <- repeat_snoc, <- !app_assoc.
      * apply Forall_app. split; [done |]. apply Forall_app. split; [by apply Forall_repeat |].
        by repeat constructor.
    + apply Forall_app. split; [by apply tag_ok_fields |]. apply Forall_app.
      split; [by apply Forall_repeat |]. repeat constructor; simpl; by rewrite ?Htc, ?Hti.
Qed.

Lemma merge_untrimmed_tag_repeats_witness :
  merge_meta [" a"] (doc_file ["a"] []) = Ok (doc_file (["a"] ++ [" a"]) [])
  /\ merge_meta [" a"] (doc_file (["a"] ++ repeat "a" 1 ++ [" a"]) [])
     = Ok (doc_file (["a"] ++ repeat "a" 2 ++ [" a"]) []).
Proof.
  apply (merge_untrimmed_tag_repeats ["a"] [] "a" 1);
    [done | repeat constructor | constructor | by left].
Defined.

End NoteSpec.
