(* ===== verification/Cli.v ===== *)
(** * The command line of [main.rs]

    [main] parses the arguments with [clap] and runs a [Command]:
    [That { entry }] calls the [Entry::write] of [main.rs] (not the one of
    [entry.rs], which no [mod] declaration brings into the crate), and
    [On { search_params }] calls [Entry::retrieve_from], whose body is
    [todo!()].  [Cli::parse] itself (the [clap] derive) is not modelled:
    [main] receives the parsed [Option<Command>]. *)
From stdpp Require Import base tactics gmap.
From Stdlib Require Import Ascii String.
From S2P Require Import Prelude Errors PathModel FileSystem DateFormat PathResolver Meta.

Import Meta.

Module Cli.

Local Open Scope til_scope.

(** [struct Entry { message: String, title: String }] of [main.rs]. *)
Record Entry : Type := mkEntry { message : string; title : string }.

(** [struct SearchParams { date: Option<String>, title: Option<String> }] *)
Record SearchParams : Type := mkSearchParams { date : option string; search_title : option string }.

(** [enum Command { That { entry }, On { search_params } }] *)
Inductive Command : Type :=
| That (entry : Entry)
| On (search_params : SearchParams).

(** [main.rs]: [fn write(&self) -> error::Result<()>]: open for appending
    and append the line; no header is ever written. *)
Definition write (env : Env) (e : Entry) : st FS Error unit :=
  path <- st_map_err (fun _ => CannotBuildPath) (PathResolver.build_path_legacy env (title e)) ;;
  st_map_err (fun _ => CannotOpenOrCreatePath path) (Fs.open_append_create path) ;;
  st_map_err (fun _ => CannotWriteToFile path) (Fs.write_all path (entry_line (message e))).

(** How the process ends: [main] returns [Ok(())] or an [Err], or a
    [todo!()] panics. *)
Inductive Outcome : Type :=
| ExitOk
| ExitErr (e : Error)
| Panicked.

(** [fn main() -> error::Result<()>] after [Cli::parse()]. *)
Definition main (env : Env) (command : option Command) (s : FS) : FS * Outcome :=
  match command with
  | Some (That entry) =>
      match write env entry s with
      | (s', Ok _) => (s', ExitOk)
      | (s', Err err) => (s', ExitErr err)
      end
  | Some (On _) => (s, Panicked)
  | None => (s, ExitErr CannotProcessArgs)
  end.

(** The legacy day directory of the example date, [3-7-2024]. *)
Definition example_legacy_fs : FS :=
  mkFS ∅ (list_to_set (example_dirs ++ ["/home/ana/.til/notes/3-7-2024"])) ∅ 0.

Lemma parent_is_dir_of p d s :
  PathModel.parent p = Some d -> Fs.is_dir d s = true -> Fs.parent_is_dir p s = true.
Proof. intros Hp Hd. unfold Fs.parent_is_dir. by rewrite Hp. Qed.

(** Claim C37: the [write] that the binary runs only appends
    [- message\n] to the file named by the title: a new file gets no
    front-matter header at all. *)
Theorem write_appends_line_only env e p d s :
  PathResolver.legacy_path env (title e) = Some p -> PathModel.parent p = Some d ->
  Fs.is_dir d s = true -> Fs.is_dir p s = false -> Fs.quiet p s = true ->
  write env e s =
    (Fs.set_file p (default EmptyString (fs_files s !! p) ++ entry_line (message e)) s, Ok tt).
Proof.
  intros Hl Hp Hd Hnd Hq.
  unfold write, st_bind, st_map_err.
  assert (He : Fs.exists_ d s = true).
  { unfold Fs.exists_. by rewrite Hd. }
  rewrite (PathResolver.build_path_legacy_existing env (title e) p d s Hl Hp He).
  rewrite Fs.open_append_create_quiet by eauto using parent_is_dir_of.
  destruct (fs_files s !! p) as [old|] eqn:Ho; simpl.
  - by rewrite (Fs.write_all_quiet _ _ _ _ Hq Ho).
  - by rewrite Fs.write_all_set_file.
Qed.

(** ** Witness *)

Lemma write_appends_line_only_witness :
  write example_env (mkEntry "hello" "notes") example_legacy_fs
  = (Fs.set_file "/home/ana/.til/notes/3-7-2024/notes.md" (EmptyString ++ entry_line "hello")
       example_legacy_fs, Ok tt).
Proof.
  rewrite (write_appends_line_only example_env (mkEntry "hello" "notes")
             "/home/ana/.til/notes/3-7-2024/notes.md" "/home/ana/.til/notes/3-7-2024");
    vm_compute; reflexivity.
Defined.

End Cli.
