(* ===== verification/Effects.v ===== *)
(** * What the writers may change

    Both [Entry] types of the repository are instances of the class
    [Writer]: a [write] and the file it targets.  Its laws are what a
    writer promises its caller: [WriterFrame], it changes no file but
    its target (it may create directories), and [WriterWf], it keeps the
    file system well formed.  [Entry::write] of [entry.rs] targets the
    day file, the [write] of [main.rs] the file its title names; the
    theorem on [main] and the reachability results of [Lifecycle] are
    proved from the laws. *)
From stdpp Require Import base tactics list gmap strings.
From Stdlib Require Import Ascii String.
From S2P Require Import Prelude Errors FileSystem PathResolver Meta NoteWriter Cli.

Import Meta.

Module Effects.

(** ** The writers behind one interface

    Both [Entry] types of the repository offer a [write] that resolves
    its file from the environment and the entry; [writer_target] is that
    file.  The laws below are stated against the interface only. *)
Class Writer (E : Type) := {
  writer_write : Env -> E -> st FS Error unit;
  writer_target : Env -> E -> option string
}.

Class WriterFrame (E : Type) `{Writer E} : Prop :=
  writer_frame : forall env e, st_preserves (frame (writer_target env e)) (writer_write env e).

(** What a writer promises the file system: it stays well formed. *)
Class WriterWf (E : Type) `{Writer E} : Prop :=
  writer_wf : forall env e, st_preserves Fs.keeps_wf (writer_write env e).

#[export] Instance entry_writer : Writer NoteWriter.Entry := {|
  writer_write := NoteWriter.write;
  writer_target env _ := PathResolver.day_path env
|}.

#[export] Instance legacy_writer : Writer Cli.Entry := {|
  writer_write := Cli.write;
  writer_target env e := PathResolver.legacy_path env (Cli.title e)
|}.

(** The file [main] may write: the one the title of a [That] command
    names; none for [On] and for arguments that do not parse. *)
Definition main_target (env : Env) (command : option Cli.Command) : option string :=
  match command with
  | Some (Cli.That e) => PathResolver.legacy_path env (Cli.title e)
  | _ => None
  end.

Lemma update_meta_frame e p : st_preserves (frame (Some p)) (NoteWriter.update_meta e p).
Proof. unfold NoteWriter.update_meta. solve_preserves. Qed.

Lemma update_meta_wf e p : st_preserves Fs.keeps_wf (NoteWriter.update_meta e p).
Proof. unfold NoteWriter.update_meta. solve_preserves. Qed.

#[local] Hint Resolve update_meta_frame update_meta_wf PathResolver.build_path_wf
  PathResolver.build_path_legacy_wf : til.

Lemma note_write_wf env e : st_preserves Fs.keeps_wf (NoteWriter.write env e).
Proof.
  unfold NoteWriter.write. apply (st_preserves_bind _); [solve_preserves | intros p].
  apply (st_preserves_bind _); [solve_preserves | intros _].
  apply (st_preserves_bind _); [solve_preserves | intros n].
  apply (st_preserves_bind _); [| solve_preserves].
  destruct (Nat.eqb n 0), (NoteWriter.tags e); solve_preserves.
Qed.

Lemma legacy_write_wf env e : st_preserves Fs.keeps_wf (Cli.write env e).
Proof. unfold Cli.write. solve_preserves. Qed.

(** [write] after [build_path] works on the path it got. *)
Lemma write_rest_frame e p :
  st_preserves (frame (Some p))
    (st_map_err (fun _ => CannotOpenOrCreatePath p) (Fs.open_append_create p) ;;
     file_size <- st_map_err (fun _ => CannotReadFile p) (Fs.metadata_len p) ;;
     (if Nat.eqb file_size 0 then
        st_map_err (fun _ => CannotWriteToFile p) (Fs.write_all p (generate_meta (NoteWriter.tags e)))
      else match NoteWriter.tags e with
           | [] => st_ret tt
           | _ => NoteWriter.update_meta e p
           end) ;;
     st_map_err (fun _ => CannotWriteToFile p) (Fs.write_all p (entry_line (NoteWriter.content e))))%til.
Proof.
  apply (st_preserves_bind _); [solve_preserves | intros _].
  apply (st_preserves_bind _); [solve_preserves | intros n].
  apply (st_preserves_bind _); [| solve_preserves].
  destruct (Nat.eqb n 0), (NoteWriter.tags e); solve_preserves.
Qed.

Lemma write_frame_day env e : st_preserves (frame (PathResolver.day_path env)) (NoteWriter.write env e).
Proof.
  intros s. unfold NoteWriter.write. rewrite st_bind_fst.
  pose proof (PathResolver.build_path_frame env s) as Hb. rewrite <- (st_map_err_fst (fun _ => CannotBuildPath)) in Hb.
  destruct (st_map_err _ (PathResolver.build_path env) s) as [s1 [p|err]] eqn:E; simpl in Hb;
    [| by apply Fs.frame_none_any].
  apply st_map_err_inv, PathResolver.build_path_ok in E. rewrite E.
  etrans; [apply Fs.frame_none_any, Hb | apply write_rest_frame].
Qed.

Lemma legacy_write_frame env e :
  st_preserves (frame (PathResolver.legacy_path env (Cli.title e))) (Cli.write env e).
Proof.
  intros s. unfold Cli.write. rewrite st_bind_fst.
  pose proof (PathResolver.build_path_legacy_frame env (Cli.title e) s) as Hb.
  rewrite <- (st_map_err_fst (fun _ => CannotBuildPath)) in Hb.
  destruct (st_map_err _ (PathResolver.build_path_legacy env (Cli.title e)) s) as [s1 [p|err]] eqn:E;
    simpl in Hb; [| by apply Fs.frame_none_any].
  apply st_map_err_inv, PathResolver.build_path_legacy_ok in E. rewrite E.
  etrans; [apply Fs.frame_none_any, Hb |]. eapply st_preserves_at. solve_preserves.
Qed.

#[export] Instance entry_writer_frame : WriterFrame NoteWriter.Entry.
Proof. intros env e. apply write_frame_day. Qed.

#[export] Instance legacy_writer_frame : WriterFrame Cli.Entry.
Proof. intros env e. apply legacy_write_frame. Qed.

#[export] Instance entry_writer_wf : WriterWf NoteWriter.Entry.
Proof. intros env e. apply note_write_wf. Qed.

#[export] Instance legacy_writer_wf : WriterWf Cli.Entry.
Proof. intros env e. apply legacy_write_wf. Qed.

(** Claim C30: whatever the command, [main] leaves every file other
    than the one the title of a [That] command names as it was (with an
    absolute title, [legacy_path_absolute_title], that file can be anywhere);
    [On] and arguments
    that do not parse change nothing. *)
Theorem main_touches_only_named_file env command s :
  (forall q, main_target env command <> Some q ->
             fs_files (fst (Cli.main env command s)) !! q = fs_files s !! q)
  /\ fs_dirs s ⊆ fs_dirs (fst (Cli.main env command s))
  /\ fs_faults (fst (Cli.main env command s)) = fs_faults s
  /\ (Fs.wf s -> Fs.wf (fst (Cli.main env command s))).
Proof.
  assert (Hm : fst (Cli.main env command s)
               = match command with Some (Cli.That e) => fst (Cli.write env e s) | _ => s end).
  { unfold Cli.main. destruct command as [[e|sp]|]; [| done | done].
    by destruct (Cli.write env e s) as [s' [[]|err]]. }
  rewrite Hm. destruct command as [[e|sp]|]; cbn [main_target].
  - pose proof (writer_frame (E:=Cli.Entry) env e s) as (Hf & Hd & Hx).
    split_and!; [done .. |]. exact (writer_wf (E:=Cli.Entry) env e s).
  - split_and!; done.
  - split_and!; done.
Qed.

Lemma main_touches_only_named_file_witness :
  (forall q, main_target example_env (Some (Cli.That (Cli.mkEntry "hello" "rust"))) <> Some q ->
             fs_files (fst (Cli.main example_env (Some (Cli.That (Cli.mkEntry "hello" "rust"))) example_fs)) !! q
             = fs_files example_fs !! q)
  /\ fs_dirs example_fs ⊆ fs_dirs (fst (Cli.main example_env (Some (Cli.That (Cli.mkEntry "hello" "rust"))) example_fs))
  /\ fs_faults (fst (Cli.main example_env (Some (Cli.That (Cli.mkEntry "hello" "rust"))) example_fs)) = fs_faults example_fs
  /\ (Fs.wf example_fs -> Fs.wf (fst (Cli.main example_env (Some (Cli.That (Cli.mkEntry "hello" "rust"))) example_fs))).
Proof. apply main_touches_only_named_file. Defined.

End Effects.
