(* ===== verification/Lifecycle.v ===== *)
(** * The day file over a day, as a transition system

    [write_step env s s'] is one invocation of [Entry::write] (with an
    entry whose content fits on one line) taking the file system [s] to
    [s'], whatever it returns; [rtc (write_step env)] is any number of
    invocations.  The spec's lifecycle says the header is written once,
    at creation, and that its tag set grows on every later tagged write.
    [header_frozen] shows what the code does instead, by induction on
    the transitions: once the code has written a day file, every state
    reachable from it keeps that header byte for byte and only appends
    entry lines, since a tagged write fails and changes nothing.  From
    the frame law of [Effects.Writer], any reachable state differs from
    the start only in the day file. *)
From stdpp Require Import base tactics list gmap relations.
From Stdlib Require Import Ascii String.
From S2P Require Import Prelude Errors FileSystem PathResolver Meta NoteWriter Effects.

Import Meta Effects.

Module Lifecycle.

(** One invocation of [write]. *)
Definition write_step (env : Env) (s s' : FS) : Prop :=
  exists e, inline (NoteWriter.content e) /\ fst (NoteWriter.write env e s) = s'.

(** The entries a write adds to a file the code wrote: its own when it
    has no tags, none otherwise. *)
Definition added (e : NoteWriter.Entry) : list string :=
  if NoteWriter.untagged e then [NoteWriter.content e] else [].

(** The example day after a first tagged write, then an untagged one
    and a tagged one. *)
Definition example_second : NoteWriter.Entry := NoteWriter.mkEntry "second" [].
Definition example_third : NoteWriter.Entry := NoteWriter.mkEntry "third" ["rust"].

Definition example_evening : FS :=
  fst (NoteWriter.write example_env example_third
         (fst (NoteWriter.write example_env example_second NoteWriter.example_written))).

Lemma added_inline e : inline (NoteWriter.content e) -> Forall inline (added e).
Proof. intros H. unfold added. by destruct (NoteWriter.untagged e); repeat constructor. Qed.

(** The example evening is reachable from the example day file. *)
Lemma example_evening_reachable : rtc (write_step example_env) NoteWriter.example_written example_evening.
Proof.
  eapply rtc_l; [exists example_second; split; [reflexivity | reflexivity] |].
  eapply rtc_l; [exists example_third; split; [reflexivity | reflexivity] |].
  apply rtc_refl.
Qed.

(** One write on a day file the code wrote. *)
Lemma write_generated env e p s ts cs :
  NoteWriter.ready env p s -> fs_files s !! p = Some (generate_meta ts ++ entries cs) ->
  Forall inline ts -> Forall inline cs ->
  fst (NoteWriter.write env e s) = Fs.set_file p (generate_meta ts ++ entries (cs ++ added e)) s.
Proof.
  intros Hr Hp Hts Hcs.
  rewrite (NoteWriter.write_nonempty env e p s _ Hr Hp) by done.
  unfold added, NoteWriter.untagged.
  destruct (NoteWriter.tags e) as [|t ts'] eqn:Ht.
  - rewrite NoteWriter.file_step_untagged by done. simpl.
    by rewrite entries_app, append_assoc_str; simpl; rewrite append_nil_r_str.
  - rewrite NoteWriter.file_step_tagged by (done || congruence).
    rewrite merge_meta_generated by done. simpl. rewrite app_nil_r. by rewrite Fs.set_file_id.
Qed.

(** Claim C10: from a day file the code wrote, with header
    [generate_meta ts], every state reachable by writes keeps the same
    header and the entries written so far, followed by more entry
    lines, and no other file changes: the tags of the header never
    change, whatever tags later writes give. *)
Theorem header_frozen env p s s' ts cs :
  NoteWriter.ready env p s -> fs_files s !! p = Some (generate_meta ts ++ entries cs) ->
  Forall inline ts -> Forall inline cs -> rtc (write_step env) s s' ->
  exists cs', fs_files s' !! p = Some (generate_meta ts ++ entries (cs ++ cs'))
    /\ Forall inline cs' /\ forall q, q <> p -> fs_files s' !! q = fs_files s !! q.
Proof.
  intros Hr Hp Hts Hcs Hrtc. revert cs Hcs Hp Hr.
  induction Hrtc as [s|s s1 s2 [e [He Hstep]] _ IH]; intros cs Hcs Hp Hr.
  - exists []. by rewrite app_nil_r.
  - rewrite (write_generated env e p s ts cs) in Hstep by done. subst s1.
    destruct (IH (cs ++ added e)%list) as (cs' & Hp' & Hcs' & Hq).
    + apply Forall_app. split; [done |]. by apply added_inline.
    + apply Fs.set_file_lookup.
    + by apply NoteWriter.ready_set_file.
    + exists (added e ++ cs')%list. rewrite app_assoc. split_and!; [done | |].
      * apply Forall_app. split; [by apply added_inline | done].
      * intros q Hqp. rewrite Hq by done. by apply Fs.set_file_lookup_ne.
Qed.

Lemma header_frozen_witness :
  exists cs', fs_files example_evening !! example_day
              = Some (generate_meta ["coq"] ++ entries (["first"] ++ cs'))
    /\ Forall inline cs'
    /\ forall q, q <> example_day -> fs_files example_evening !! q = fs_files NoteWriter.example_written !! q.
Proof.
  apply (header_frozen example_env example_day NoteWriter.example_written example_evening ["coq"] ["first"]).
  - split; vm_compute; reflexivity.
  - vm_compute. reflexivity.
  - repeat constructor.
  - repeat constructor.
  - apply example_evening_reachable.
Defined.

(** ** What any number of writes may change *)

(** Claim C16: whatever the entries and whatever fails, every state
    reachable by writes differs from the start only in the day file: no
    other file changes, directories are only added, and the refusals of
    the system stay as they were. *)
Theorem reachable_touches_only_day_file env s s' :
  rtc (write_step env) s s' ->
  (forall q, PathResolver.day_path env <> Some q -> fs_files s' !! q = fs_files s !! q)
  /\ fs_dirs s ⊆ fs_dirs s' /\ fs_faults s' = fs_faults s.
Proof.
  intros H. change (frame (PathResolver.day_path env) s s').
  induction H as [s|s s1 s2 [e [_ <-]] _ IH]; [reflexivity |].
  pose proof (Effects.writer_frame (E:=NoteWriter.Entry) env e s) as Hw. simpl in Hw.
  by etrans.
Qed.

Lemma reachable_touches_only_day_file_witness :
  (forall q, PathResolver.day_path example_env <> Some q ->
             fs_files example_evening !! q = fs_files NoteWriter.example_written !! q)
  /\ fs_dirs NoteWriter.example_written ⊆ fs_dirs example_evening
  /\ fs_faults example_evening = fs_faults NoteWriter.example_written.
Proof. apply reachable_touches_only_day_file, example_evening_reachable. Defined.

End Lifecycle.
