(* ===== verification/ArgParse.v ===== *)
(** * The command line, as [clap]'s derive parses it

    [main.rs] derives its parser: [struct Cli] has an optional
    subcommand ([#[command(subcommand)]]) and [arg_required_else_help];
    the subcommands [That] and [On] are named [that] and [on] (clap
    derives kebab-case names) and flatten the argument structs [Entry]
    ([-m]/[--message], required; [-t]/[--title], default ["default"]) and
    [SearchParams] ([-d]/[--date] and [-t]/[--title], [Option<String>]
    with default [""], so [Some ""] when absent).  The [Entry] of
    [entry.rs] would take its [content] as a positional argument and
    [--tags] with [use_value_delimiter] and default [""].

    [main.rs] is written for clap 4 ([#[command]], [#[arg]]);
    [use_value_delimiter = true] in [entry.rs] is clap 3's spelling of
    clap 4's [value_delimiter = ','], and both split every value of
    [--tags], the default included, on commas: [split_tags] is that
    split.  The parser follows clap's documented rules for these
    declarations: options are [--long value], [--long=value],
    [-s value], [-svalue] or [-s=value]; a separate value may not look
    like an option ([-x], [--x]); [--] ends the options; [-h]/[--help]
    shows help when it is reached; [-V]/[--version] and the [help]
    subcommand exist only at the top level; a single-valued option given
    twice, an unknown option, a missing required argument or an
    unexpected positional argument is a usage error; with no argument
    at all, [arg_required_else_help] shows the help and fails.  Default
    values go through the same value parsing as given ones, the
    delimiter included.  Not modelled: environment variables, argument
    files, option clusters of several flags, and the text of help and
    error messages.

    [run_binary] is the process: [Cli::parse()], then [main] on the
    parsed command, or [clap]'s exit (status 0 for help and version, 2
    otherwise).  The theorems relate the parser to the writers: the
    [None] arm of [main] is unreachable, commands round-trip through
    their long-option spelling, and the default of [--tags] sends an
    untagged run of [entry.rs] into the failing merge. *)
From stdpp Require Import base tactics list.
From Stdlib Require Import Ascii String.
From S2P Require Import Prelude Errors FileSystem PathResolver Meta NoteWriter Cli.

Import Meta.

Module ArgParse.

(** What [Cli::parse()] ends with: the parsed value, or clap printing
    help or version and exiting with status 0, or printing help or a
    usage error and exiting with status 2. *)
Inductive parsed (A : Type) : Type :=
| Parsed (a : A)
| ShowHelp
| ShowVersion
| MissingArgsHelp
| UsageError.
Arguments Parsed {A} a.
Arguments ShowHelp {A}.
Arguments ShowVersion {A}.
Arguments MissingArgsHelp {A}.
Arguments UsageError {A}.

Definition parsed_map {A B} (f : A -> B) (r : parsed A) : parsed B :=
  match r with
  | Parsed a => Parsed (f a)
  | ShowHelp => ShowHelp
  | ShowVersion => ShowVersion
  | MissingArgsHelp => MissingArgsHelp
  | UsageError => UsageError
  end.

(** One option of an argument struct: its long name, its short letter
    and whether it takes several values ([Vec<String>]). *)
Record OptSpec : Type := mkOpt { o_long : string; o_short : option ascii; o_multi : bool }.

(** How clap reads one command-line word. *)
Inductive token : Type :=
| TEnd                                   (** [--] *)
| TLong (name : string) (v : option string)  (** [--name] or [--name=v] *)
| TShort (c : ascii) (v : option string)     (** [-c], [-cv] or [-c=v] *)
| TValue (v : string).                   (** anything else, [-] included *)

Definition dash_char : ascii := "-"%char.
Definition eq_char : ascii := "="%char.

Definition strip_eq (s : string) : string :=
  match s with
  | String c r => if Ascii.eqb c eq_char then r else s
  | EmptyString => s
  end.

Definition classify (t : string) : token :=
  match t with
  | String d1 (String d2 rest) =>
      if Ascii.eqb d1 dash_char then
        if Ascii.eqb d2 dash_char then
          match rest with
          | EmptyString => TEnd
          | _ => match Str.split_once (String eq_char EmptyString) rest with
                 | Some (n, v) => TLong n (Some v)
                 | None => TLong rest None
                 end
          end
        else match rest with
             | EmptyString => TShort d2 None
             | _ => TShort d2 (Some (strip_eq rest))
             end
      else TValue t
  | _ => TValue t
  end.

(** A word clap would take for an option rather than a value. *)
Definition flag_like (t : string) : bool :=
  match classify t with TValue _ => false | _ => true end.

Definition find_long (specs : list OptSpec) (n : string) : option OptSpec :=
  List.find (fun o => String.eqb (o_long o) n) specs.

Definition find_short (specs : list OptSpec) (c : ascii) : option OptSpec :=
  List.find (fun o => match o_short o with Some c' => Ascii.eqb c' c | None => false end) specs.

(** Record a value; a single-valued option may occur once. *)
Definition add_opt (o : OptSpec) (v : string) (opts : list (string * string))
  : option (list (string * string)) :=
  if negb (o_multi o) && existsb (fun kv => String.eqb (fst kv) (o_long o)) opts then None
  else Some (opts ++ [(o_long o, v)])%list.

Definition is_help (t : token) : bool :=
  match t with
  | TLong n None => String.eqb n "help"
  | TShort c None => Ascii.eqb c "h"%char
  | _ => false
  end.

(** The words after a subcommand: the option values in order and the
    positional arguments. *)
Fixpoint scan (specs : list OptSpec) (toks : list string) (opts : list (string * string))
    (pos : list string) : parsed (list (string * string) * list string) :=
  match toks with
  | [] => Parsed (opts, rev pos)
  | t :: rest =>
      let tk := classify t in
      if is_help tk then ShowHelp else
      match tk with
      | TEnd => Parsed (opts, (rev pos ++ rest)%list)
      | TValue v => scan specs rest opts (v :: pos)
      | TLong n (Some v) =>
          match find_long specs n with
          | Some o => match add_opt o v opts with
                      | Some opts' => scan specs rest opts' pos
                      | None => UsageError
                      end
          | None => UsageError
          end
      | TShort c (Some v) =>
          match find_short specs c with
          | Some o => match add_opt o v opts with
                      | Some opts' => scan specs rest opts' pos
                      | None => UsageError
                      end
          | None => UsageError
          end
      | TLong _ None | TShort _ None =>
          match (match tk with TLong n _ => find_long specs n
                             | TShort c _ => find_short specs c | _ => None end) with
          | None => UsageError
          | Some o =>
              match rest with
              | v :: rest' =>
                  if flag_like v then UsageError
                  else match add_opt o v opts with
                       | Some opts' => scan specs rest' opts' pos
                       | None => UsageError
                       end
              | [] => UsageError
              end
          end
      end
  end.

(** The values given to an option, in order. *)
Definition values (opts : list (string * string)) (name : string) : list string :=
  map snd (List.filter (fun kv => String.eqb (fst kv) name) opts).

(** A single-valued option: its value, or its default. *)
Definition value_or (opts : list (string * string)) (name : string) (dflt : option string)
  : option string :=
  match values opts name with
  | v :: _ => Some v
  | [] => dflt
  end.

Definition message_opt : OptSpec := mkOpt "message" (Some "m"%char) false.
Definition title_opt : OptSpec := mkOpt "title" (Some "t"%char) false.
Definition date_opt : OptSpec := mkOpt "date" (Some "d"%char) false.

(** [main.rs]: [struct Entry] under [that]. *)
Definition parse_that (toks : list string) : parsed Cli.Entry :=
  match scan [message_opt; title_opt] toks [] [] with
  | Parsed (opts, []) =>
      match value_or opts "message" None with
      | Some m => Parsed (Cli.mkEntry m (default "default" (value_or opts "title" None)))
      | None => UsageError
      end
  | Parsed (_, _ :: _) => UsageError
  | ShowHelp => ShowHelp
  | ShowVersion => ShowVersion
  | MissingArgsHelp => MissingArgsHelp
  | UsageError => UsageError
  end.

(** [main.rs]: [struct SearchParams] under [on]. *)
Definition parse_on (toks : list string) : parsed Cli.SearchParams :=
  match scan [date_opt; title_opt] toks [] [] with
  | Parsed (opts, []) =>
      Parsed (Cli.mkSearchParams (value_or opts "date" (Some EmptyString))
                                 (value_or opts "title" (Some EmptyString)))
  | Parsed (_, _ :: _) => UsageError
  | ShowHelp => ShowHelp
  | ShowVersion => ShowVersion
  | MissingArgsHelp => MissingArgsHelp
  | UsageError => UsageError
  end.

(** [Cli::parse()] on the words after the program name. *)
Definition parse_cli (args : list string) : parsed (option Cli.Command) :=
  match args with
  | [] => MissingArgsHelp
  | t :: rest =>
      let tk := classify t in
      if is_help tk then ShowHelp
      else match tk with
           | TLong n None => if String.eqb n "version" then ShowVersion else UsageError
           | TShort c None => if Ascii.eqb c "V"%char then ShowVersion else UsageError
           | TValue "that" => parsed_map (fun e => Some (Cli.That e)) (parse_that rest)
           | TValue "on" => parsed_map (fun p => Some (Cli.On p)) (parse_on rest)
           | TValue "help" => ShowHelp
           | _ => UsageError
           end
  end.

(** How the process ends: [main] ran, or clap exited with a status. *)
Inductive Exit : Type :=
| ExitMain (o : Cli.Outcome)
| ExitClap (status : nat).

(** The binary: parse the arguments, then run [main] on the command. *)
Definition run_binary (env : Env) (args : list string) (s : FS) : FS * Exit :=
  match parse_cli args with
  | Parsed command => let (s', o) := Cli.main env command s in (s', ExitMain o)
  | ShowHelp | ShowVersion => (s, ExitClap 0)
  | MissingArgsHelp | UsageError => (s, ExitClap 2)
  end.

(** [entry.rs]: [struct Entry], with [content] positional and [--tags]
    split on commas, as it would parse under [that] if the binary
    declared [mod entry]. *)
Definition tags_opt : OptSpec := mkOpt "tags" None true.

Definition split_tags (vs : list string) : list string :=
  match vs with
  | [] => Str.split_char ","%char EmptyString
  | _ => List.concat (map (Str.split_char ","%char) vs)
  end.

Definition parse_entry (toks : list string) : parsed NoteWriter.Entry :=
  match scan [tags_opt] toks [] [] with
  | Parsed (opts, [content]) => Parsed (NoteWriter.mkEntry content (split_tags (values opts "tags")))
  | Parsed (_, _) => UsageError
  | ShowHelp => ShowHelp
  | ShowVersion => ShowVersion
  | MissingArgsHelp => MissingArgsHelp
  | UsageError => UsageError
  end.

(** The words that give a command back, with every option spelled out. *)
Definition render_command (c : Cli.Command) : list string :=
  match c with
  | Cli.That e => ["that"; "--message"; Cli.message e; "--title"; Cli.title e]
  | Cli.On p =>
      ["on"] ++ (match Cli.date p with Some d => ["--date"; d] | None => [] end)
             ++ (match Cli.search_title p with Some t => ["--title"; t] | None => [] end)
  end%list.

(** The commands [render_command] can spell: no value looks like an
    option, and [On]'s fields are present (clap gives [Some ""] when
    they are absent, never [None]). *)
Definition command_ok (c : Cli.Command) : Prop :=
  match c with
  | Cli.That e => flag_like (Cli.message e) = false /\ flag_like (Cli.title e) = false
  | Cli.On p =>
      match Cli.date p, Cli.search_title p with
      | Some d, Some t => flag_like d = false /\ flag_like t = false
      | _, _ => False
      end
  end.

(** ** What the parser yields *)

Lemma classify_value t v : classify t = TValue v -> v = t.
Proof. unfold classify. repeat case_match; congruence. Qed.

Lemma parsed_map_some {A B} (f : A -> B) (p : parsed A) :
  parsed_map (fun x => Some (f x)) p <> Parsed None.
Proof. by destruct p. Qed.

Lemma parse_cli_some args : parse_cli args <> Parsed None.
Proof. unfold parse_cli. repeat case_match; try done; apply parsed_map_some. Qed.

Lemma write_legacy_error env e s err :
  snd (Cli.write env e s) = Err err -> err <> CannotProcessArgs.
Proof. unfold Cli.write, st_bind, st_map_err. intros H ->. repeat case_match; simpl in *; congruence. Qed.

Lemma split_char_free_pieces c s : Forall (fun t => char_free c t = true) (Str.split_char c s).
Proof.
  induction s as [|d s IH]; simpl; [by repeat constructor |].
  destruct (Ascii.eqb d c) eqn:E; [by constructor |].
  destruct (Str.split_char c s) as [|p ps]; [by repeat constructor; simpl; rewrite E |].
  apply Forall_cons in IH as [Hp Hps]. constructor; [| done]. simpl. by rewrite E, Hp.
Qed.

Lemma split_tags_comma_free vs : Forall (fun t => char_free ","%char t = true) (split_tags vs).
Proof.
  unfold split_tags. destruct vs as [|v vs]; [apply split_char_free_pieces |].
  apply Forall_concat, Forall_forall. intros l (x & -> & _)%list_elem_of_fmap.
  apply split_char_free_pieces.
Qed.

(** Claim C31: the binary never ends with [CannotProcessArgs]: clap
    shows the help and exits before [main] runs when no subcommand is
    given ([arg_required_else_help]), so the [None] arm of [main] is
    never taken. *)
Theorem binary_never_cannot_process_args env args s :
  snd (run_binary env args s) <> ExitMain (Cli.ExitErr CannotProcessArgs).
Proof.
  unfold run_binary. pose proof (parse_cli_some args) as Hs.
  destruct (parse_cli args) as [[c|]| | | |]; simpl; try done.
  unfold Cli.main. destruct c as [e|sp]; simpl; [| done].
  pose proof (write_legacy_error env e s) as He.
  destruct (Cli.write env e s) as [s' [[]|err]]; simpl in *; [done |].
  intros [= ->]. by apply (He CannotProcessArgs).
Qed.

(** Claim C32: spelling a command out and parsing it gives the command
    back. *)
Theorem parse_render_roundtrip c : command_ok c -> parse_cli (render_command c) = Parsed (Some c).
Proof.
  destruct c as [[m t]|[[d|] [t|]]]; simpl; try done; intros [Hm Ht];
    cbv -[flag_like]; rewrite Hm; cbv -[flag_like]; rewrite Ht; reflexivity.
Qed.

Lemma parse_render_roundtrip_witness :
  command_ok (Cli.That (Cli.mkEntry "learned about clap" "rust"))
  /\ parse_cli (render_command (Cli.That (Cli.mkEntry "learned about clap" "rust")))
     = Parsed (Some (Cli.That (Cli.mkEntry "learned about clap" "rust"))).
Proof. split; [split; reflexivity | apply parse_render_roundtrip; split; reflexivity]. Defined.

(** Claim C33: every tag the [entry.rs] parser yields is free of
    commas: [--tags] values are split on them, the default included. *)
Theorem parse_entry_tags_comma_free toks e :
  parse_entry toks = Parsed e -> Forall (fun t => char_free ","%char t = true) (NoteWriter.tags e).
Proof.
  unfold parse_entry. repeat case_match; intros; simplify_eq. apply split_tags_comma_free.
Qed.

Lemma parse_entry_tags_comma_free_witness :
  parse_entry ["x"; "--tags"; "a,b"] = Parsed (NoteWriter.mkEntry "x" ["a"; "b"])
  /\ Forall (fun t => char_free ","%char t = true) (NoteWriter.tags (NoteWriter.mkEntry "x" ["a"; "b"])).
Proof.
  split; [reflexivity |]. apply (parse_entry_tags_comma_free ["x"; "--tags"; "a,b"]). reflexivity.
Defined.

(** Claim C5: without [--tags], the [entry.rs] parser gives the tag
    list [[""]], not the empty list ([default_value = ""] is split like
    a given value), so [write] takes the tagged path: on a day file the
    code wrote, every such [til that <content>] fails with
    [CannotParseMetaData] and loses its entry. *)
Theorem untagged_command_fails env p s ts cs content :
  NoteWriter.ready env p s -> fs_files s !! p = Some (generate_meta ts ++ entries cs) ->
  Forall inline ts -> Forall inline cs -> flag_like content = false ->
  exists e, parse_entry [content] = Parsed e /\ NoteWriter.tags e = [""]
    /\ NoteWriter.write env e s = (s, Err CannotParseMetaData).
Proof.
  intros Hr Hp Hts Hcs Hc.
  assert (He : parse_entry [content] = Parsed (NoteWriter.mkEntry content [""])).
  { unfold flag_like in Hc. destruct (classify content) eqn:E; try done.
    pose proof (classify_value _ _ E) as ->. unfold parse_entry. simpl. by rewrite E. }
  eexists. split_and!; [exact He | done |].
  rewrite (NoteWriter.write_nonempty env _ p s _ Hr Hp) by done.
  rewrite NoteWriter.file_step_tagged by done. simpl.
  by rewrite merge_meta_generated.
Qed.

Lemma untagged_command_fails_witness :
  exists e, parse_entry ["second"] = Parsed e /\ NoteWriter.tags e = [""]
    /\ NoteWriter.write PathResolver.example_env e NoteWriter.example_written
       = (NoteWriter.example_written, Err CannotParseMetaData).
Proof.
  apply (untagged_command_fails PathResolver.example_env PathResolver.example_day _ ["coq"] ["first"]);
    [split; vm_compute; reflexivity | vm_compute; reflexivity | repeat constructor
    | repeat constructor | reflexivity].
Defined.

End ArgParse.
