(* ===== verification/Docs.v ===== *)
(** * The doc comments of [entry.rs] as contracts

    [generate_meta] and [update_meta] carry rustdoc comments that state
    what they return: an example header ([entry.rs] lines 80-90) and the
    errors [update_meta] reports (lines 120-125).  This file writes both
    down as definitions and compares them with the code: the documented
    header is never the one [generate_meta] produces, and one of the four
    documented errors cannot arise. *)
From stdpp Require Import base tactics list gmap.
From Stdlib Require Import Ascii String.
From S2P Require Import Prelude Errors FileSystem PathResolver Meta NoteWriter.

Import Meta.

Module Docs.

(** The header of the doctest: [title: "<title>"] and [tags: [..]] at
    the start of their lines, closed by [---] and one line feed. *)
Definition documented_meta (title : string) (tags : list string) : string :=
  "---" ++ NL
  ++ "title: " ++ DQ ++ title ++ DQ ++ NL
  ++ "tags: [" ++ Str.join ", " tags ++ "]" ++ NL
  ++ "---" ++ NL.

(** The [## Errors] section of [update_meta]. *)
Inductive documented_update_error (path : string) : Error -> Prop :=
| doc_open : documented_update_error path (CannotOpenOrCreatePath path)
| doc_read : documented_update_error path (CannotReadFile path)
| doc_parse : documented_update_error path CannotParseMetaData
| doc_write : documented_update_error path (CannotWriteToFile path).

(** A tagged entry and a day file without a [tags:] line. *)
Definition example_headerless_entry : NoteWriter.Entry := NoteWriter.mkEntry "x" ["rust"].

(** ** The documented header *)

Lemma documented_meta_get4 title tags : String.get 4 (documented_meta title tags) = Some "t"%char.
Proof. reflexivity. Qed.

Lemma generate_meta_get4 tags : String.get 4 (generate_meta tags) = Some " "%char.
Proof. reflexivity. Qed.

(** Claim C36: [generate_meta] writes the documented header of title
    ["default"] with every line feed followed by four spaces (the
    indentation of the raw literal inside the [impl] block), then one
    more indented line; it is therefore the documented header for no
    title at all. *)
Theorem generate_meta_not_documented title tags :
  (Forall inline tags ->
   generate_meta tags = Str.replace NL (NL ++ four_spaces) (documented_meta "default" tags) ++ NL ++ four_spaces)
  /\ generate_meta tags <> documented_meta title tags.
Proof.
  split.
  - intros Hts. assert (Hj : inline (Str.join ", " tags)) by by apply char_free_join.
    unfold documented_meta. rewrite ?append_assoc_str.
    repeat first [ rewrite replace_nl_at
                 | rewrite (replace_nl_skip _ (Str.join ", " tags)) by exact Hj
                 | rewrite (replace_nl_skip _ "---") by reflexivity
                 | rewrite (replace_nl_skip _ "title: ") by reflexivity
                 | rewrite (replace_nl_skip _ DQ) by reflexivity
                 | rewrite (replace_nl_skip _ "default") by reflexivity
                 | rewrite (replace_nl_skip _ "tags: [") by reflexivity
                 | rewrite (replace_nl_skip _ "]") by reflexivity ].
    rewrite replace_self by done. unfold generate_meta. rewrite ?append_assoc_str. reflexivity.
  - intros H. apply (f_equal (String.get 4)) in H.
    rewrite generate_meta_get4, documented_meta_get4 in H. discriminate.
Qed.

Lemma generate_meta_not_documented_witness :
  Forall inline ["tag1"; "tag2"]
  /\ generate_meta ["tag1"; "tag2"]
     = Str.replace NL (NL ++ four_spaces) (documented_meta "default" ["tag1"; "tag2"]) ++ NL ++ four_spaces.
Proof.
  assert (H : Forall inline ["tag1"; "tag2"]) by (repeat constructor).
  split; [exact H | exact (proj1 (generate_meta_not_documented "Example Title" _) H)].
Defined.

(** ** The documented errors *)

(** Claim C35: every error of [update_meta] is one its doc comment lists,
    but never [CannotOpenOrCreatePath]: [update_meta] opens nothing but
    through [fs::read_to_string], whose failure it reports as
    [CannotReadFile]. *)
Theorem update_meta_errors_documented e p s err :
  snd (NoteWriter.update_meta e p s) = Err err ->
  documented_update_error p err /\ forall q, err <> CannotOpenOrCreatePath q.
Proof.
  unfold NoteWriter.update_meta, st_bind, st_map_err, st_lift.
  repeat case_match; simpl; intros; simplify_eq; try (split; [constructor | done]).
  match goal with H : merge_meta _ _ = Err _ |- _ => apply NoteWriter.merge_meta_error in H as -> end.
  split; [constructor | done].
Qed.

Lemma update_meta_errors_documented_witness :
  snd (NoteWriter.update_meta example_headerless_entry example_day NoteWriter.example_headerless)
    = Err CannotParseMetaData
  /\ documented_update_error example_day CannotParseMetaData.
Proof.
  assert (H : snd (NoteWriter.update_meta example_headerless_entry example_day
                     NoteWriter.example_headerless) = Err CannotParseMetaData)
    by (vm_compute; reflexivity).
  split; [exact H | apply (update_meta_errors_documented _ _ _ _ H)].
Defined.

End Docs.
